(** * FactoryPocketGlobal: exchange-rate acquisition and audit

    A shallow embedding of [Backend/scraper.py] (v4.0) and of
    [Backend/audit_rates.py] (v1.0), followed by the properties of the
    two pipelines.

    Numbers are binary64 floats, as in Python: the primitive [float] of
    Rocq, whose operations the kernel evaluates with the same IEEE 754
    rounding.  Python dictionaries are association lists kept in
    insertion order with unique keys.  Everything the programs read from
    outside (the quote provider, the ECB feed, the clock, the stored
    file) is a field of an explicit world or environment record, and the
    effects they have (downloads, sleeps, console lines) are appended to
    a trace. *)

From Stdlib Require Import ZArith List String Ascii Bool Arith Lia.
From Stdlib Require Import DecimalString.
From Stdlib Require Import PrimFloat FloatOps SpecFloat FloatAxioms.
Import ListNotations.

Set Warnings "-inexact-float".

Local Open Scope string_scope.
Local Open Scope list_scope.

(** * The Python operations the two programs use *)

Module Py.

Local Open Scope Z_scope.

(** ** Numbers *)

(** [n / d] rounded to the nearest integer, ties to the even one
    ([d > 0]). *)
Definition round_half_even (n d : Z) : Z :=
  let q := n / d in
  match 2 * (n mod d) ?= d with
  | Lt => q
  | Gt => q + 1
  | Eq => if Z.even q then q else q + 1
  end.

(** The float nearest to the fraction [n / d], with the sign [neg];
    this is what reading a decimal text, or dividing two integers,
    gives. *)
Definition float_of_ratio (neg : bool) (n d : Z) : float :=
  match n, d with
  | Zpos n', Zpos d' =>
      SF2Prim (SFdiv prec emax (S754_finite neg n' 0) (S754_finite false d' 0))
  | _, _ => if neg then neg_zero else zero
  end.

(** [a / b] on two Python integers, [b > 0]. *)
Definition truediv (a b : Z) : float :=
  float_of_ratio (a <? 0) (Z.abs a) b.

(** [m * 2^e * p] rounded half-even to an integer. *)
Definition scaled (m : positive) (e : Z) (p : Z) : Z :=
  if 0 <=? e then Zpos m * 2 ^ e * p
  else round_half_even (Zpos m * p) (2 ^ (- e)).

(** [round(x, ndigits)] on a float: the exact binary value is rounded
    half-even to [ndigits] decimals and the decimal read back;
    infinities and NaN round to themselves. *)
Definition round (x : float) (ndigits : Z) : float :=
  match Prim2SF x with
  | S754_finite s m e =>
      let p := 10 ^ ndigits in
      float_of_ratio s (scaled m e p) p
  | _ => x
  end.

(** [bool(x)] of a float. *)
Definition truthy (x : float) : bool := negb (x =? 0)%float.

(** ** Text *)

Definition str_Z (z : Z) : string :=
  match z with
  | Zneg p => "-" ++ NilZero.string_of_uint (Pos.to_uint p)
  | _ => NilZero.string_of_uint (N.to_uint (Z.to_N z))
  end.

Definition str_nat (n : nat) : string := str_Z (Z.of_nat n).

Definition tail (s : string) : string :=
  match s with
  | EmptyString => s
  | String _ t => t
  end.

(** [format(x, ".<ndigits>f")]. *)
Definition format_f (x : float) (ndigits : Z) : string :=
  match Prim2SF x with
  | S754_nan => "nan"
  | S754_infinity s => if s then "-inf" else "inf"
  | S754_zero s =>
      (if s then "-" else "") ++ "0." ++ tail (str_Z (10 ^ ndigits))
  | S754_finite s m e =>
      let p := 10 ^ ndigits in
      let r := scaled m e p in
      (if s then "-" else "") ++ str_Z (r / p) ++ "." ++ tail (str_Z (p + r mod p))
  end.

(** The position of the decimal point of [n / d > 0]: the [k] with
    [10^(k-1) <= n / d < 10^k]. *)
Fixpoint decpt_up (fuel : nat) (n d : Z) (k : Z) : Z :=
  match fuel with
  | O => k
  | S f => if n <? d * 10 then k else decpt_up f n (d * 10) (k + 1)
  end.

Fixpoint decpt_down (fuel : nat) (n d : Z) (k : Z) : Z :=
  match fuel with
  | O => k
  | S f => if d <=? n then k else decpt_down f (n * 10) d (k - 1)
  end.

Definition decpt (n d : Z) : Z :=
  if d <=? n then decpt_up 400 n d 1 else decpt_down 400 n d 1.

Definition scale10 (n d : Z) (k : Z) : Z * Z :=
  if 0 <=? k then (n * 10 ^ k, d) else (n, d * 10 ^ (- k)).

(** Does the decimal [c * 10^k] read back as [x]? *)
Definition reads_as (x : float) (c : Z) (k : Z) : bool :=
  let '(n, d) := scale10 c 1 k in
  PrimFloat.Leibniz.eqb (float_of_ratio false n d) x.

(** The shortest digit string that reads back as [x = n / d], and
    among those of that length the one nearest to [x]; [k] is the
    number of digits tried, 17 always suffice. *)
Fixpoint shortest (fuel : nat) (x : float) (n d : Z) (dp : Z) (k : Z) : Z * Z :=
  let '(sn, sd) := scale10 n d (k - dp) in
  let lo := sn / sd in
  let hi := lo + 1 in
  let oklo := reads_as x lo (dp - k) in
  let okhi := reads_as x hi (dp - k) in
  let pick_hi :=
    match 2 * (sn mod sd) ?= sd with
    | Lt => false
    | Gt => true
    | Eq => Z.odd lo
    end in
  match fuel with
  | O => (if pick_hi then hi else lo, k)
  | S f =>
      if oklo && okhi then (if pick_hi then hi else lo, k)
      else if oklo then (lo, k)
      else if okhi then (hi, k)
      else shortest f x n d dp (k + 1)
  end.

Fixpoint strip_zeros (fuel : nat) (c : Z) : Z :=
  match fuel with
  | O => c
  | S f => if (c mod 10 =? 0) && negb (c =? 0) then strip_zeros f (c / 10) else c
  end.

Fixpoint zeros (n : nat) : string :=
  match n with
  | O => ""
  | S n' => "0" ++ zeros n'
  end.

(** The digits laid out as [repr] does: exponent form from [1e16] on
    and below [1e-4]. *)
Definition repr_digits (digits : string) (dp : Z) : string :=
  let len := Z.of_nat (String.length digits) in
  if (dp <=? -4) || (16 <? dp) then
    let e := dp - 1 in
    let ea := Z.abs e in
    substring 0 1 digits ++ (if 1 <? len then "." ++ tail digits else "")
      ++ "e" ++ (if e <? 0 then "-" else "+")
      ++ (if ea <? 10 then "0" else "") ++ str_Z ea
  else if dp <=? 0 then "0." ++ zeros (Z.to_nat (- dp)) ++ digits
  else if len <=? dp then digits ++ zeros (Z.to_nat (dp - len)) ++ ".0"
  else substring 0 (Z.to_nat dp) digits ++ "."
         ++ substring (Z.to_nat dp) (Z.to_nat (len - dp)) digits.

(** [repr(x)], which is also [str(x)] and what an f-string field
    without a format gives. *)
Definition repr (x : float) : string :=
  match Prim2SF x with
  | S754_nan => "nan"
  | S754_infinity s => if s then "-inf" else "inf"
  | S754_zero s => if s then "-0.0" else "0.0"
  | S754_finite s m e =>
      let '(n, d) := if 0 <=? e then (Zpos m * 2 ^ e, 1) else (Zpos m, 2 ^ (- e)) in
      let dp := decpt n d in
      let '(c, k) := shortest 17 (abs x) n d dp 1 in
      let dp' := if c =? 10 ^ k then dp + 1 else dp in
      (if s then "-" else "") ++ repr_digits (str_Z (strip_zeros 20 c)) dp'
  end.

(** [sep.join(parts)]. *)
Definition join (sep : string) (parts : list string) : string :=
  String.concat sep parts.

(** [sorted] on a list of strings. *)
Fixpoint insert_sorted (s : string) (l : list string) : list string :=
  match l with
  | [] => [s]
  | t :: l' => if String.leb s t then s :: l else t :: insert_sorted s l'
  end.

Definition sorted (l : list string) : list string :=
  fold_right insert_sorted [] l.

(** ** Dictionaries *)

Definition dict (V : Type) : Type := list (string * V).

Section Dict.
Context {V : Type}.

(** [d.get(k)] *)
Fixpoint get (d : dict V) (k : string) : option V :=
  match d with
  | [] => None
  | (k', v) :: d' => if String.eqb k k' then Some v else get d' k
  end.

(** [d[k] = v]: in place when [k] is a key, at the end otherwise. *)
Fixpoint set (d : dict V) (k : string) (v : V) : dict V :=
  match d with
  | [] => [(k, v)]
  | (k', v') :: d' =>
      if String.eqb k k' then (k', v) :: d' else (k', v') :: set d' k v
  end.

(** [d.setdefault(k, v)]: the entry under [k], put there first when
    missing. *)
Definition setdefault (d : dict V) (k : string) (v : V) : V * dict V :=
  match get d k with
  | Some e => (e, d)
  | None => (v, set d k v)
  end.

Definition keys (d : dict V) : list string := map fst d.

(** [k in d] *)
Definition contains (d : dict V) (k : string) : bool :=
  match get d k with
  | Some _ => true
  | None => false
  end.

(** [not d] *)
Definition is_empty (d : dict V) : bool :=
  match d with
  | [] => true
  | _ :: _ => false
  end.
End Dict.

End Py.

(** * [scraper.py]: the acquisition of the exchanger rates *)

Module Scraper.

Local Open Scope float_scope.

(** ** Configuration *)

(** Code -> (ticker, invert); [invert] is true when the ticker quotes
    Code/USD. *)
Definition EXCHANGER_PAIRS : Py.dict (string * bool) :=
  [ ("USD", ("USD", false));
    ("EUR", ("EURUSD=X", true));
    ("GBP", ("GBPUSD=X", true));
    ("JPY", ("USDJPY=X", false));
    ("CAD", ("USDCAD=X", false));
    ("AUD", ("AUDUSD=X", true));
    ("CNY", ("USDCNY=X", false));
    ("CHF", ("USDCHF=X", false));
    ("HKD", ("USDHKD=X", false));
    ("SGD", ("USDSGD=X", false));
    ("SEK", ("USDSEK=X", false));
    ("KRW", ("USDKRW=X", false));
    ("NOK", ("USDNOK=X", false));
    ("NZD", ("NZDUSD=X", true));
    ("INR", ("USDINR=X", false));
    ("MXN", ("USDMXN=X", false));
    ("TWD", ("USDTWD=X", false));
    ("ZAR", ("USDZAR=X", false));
    ("BRL", ("USDBRL=X", false));
    ("DKK", ("USDDKK=X", false));
    ("PLN", ("USDPLN=X", false));
    ("THB", ("USDTHB=X", false));
    ("IDR", ("USDIDR=X", false));
    ("HUF", ("USDHUF=X", false));
    ("CZK", ("USDCZK=X", false));
    ("ILS", ("USDILS=X", false));
    ("CLP", ("USDCLP=X", false));
    ("PHP", ("USDPHP=X", false));
    ("AED", ("USDAED=X", false));
    ("COP", ("USDCOP=X", false));
    ("SAR", ("USDSAR=X", false));
    ("MYR", ("USDMYR=X", false));
    ("RON", ("USDRON=X", false));
    ("MAD", ("USDMAD=X", false)) ].

(** Sanity bounds, 1 USD = ? currency: (min, max). *)
Definition RATE_BOUNDS : Py.dict (float * float) :=
  [ ("EUR", (0.50, 1.50));
    ("GBP", (0.40, 1.30));
    ("JPY", (70, 250));
    ("CAD", (0.90, 2.00));
    ("AUD", (0.90, 2.20));
    ("CNY", (4.0, 10.0));
    ("CHF", (0.50, 1.50));
    ("HKD", (5.0, 10.0));
    ("SGD", (0.80, 2.00));
    ("SEK", (5.0, 16.0));
    ("KRW", (700, 2000));
    ("NOK", (5.0, 16.0));
    ("NZD", (0.90, 2.50));
    ("INR", (50, 130));
    ("MXN", (10, 30));
    ("TWD", (20, 45));
    ("ZAR", (10, 30));
    ("BRL", (3.0, 8.0));
    ("DKK", (4.0, 10.0));
    ("PLN", (2.5, 6.0));
    ("THB", (20, 50));
    ("IDR", (10000, 22000));
    ("HUF", (200, 550));
    ("CZK", (15, 35));
    ("ILS", (2.5, 5.5));
    ("CLP", (500, 1400));
    ("PHP", (35, 75));
    ("AED", (3.0, 4.5));
    ("COP", (2500, 6000));
    ("SAR", (3.0, 4.5));
    ("MYR", (3.0, 7.0));
    ("RON", (3.0, 7.0));
    ("MAD", (7.0, 14.0)) ].

Definition MAX_RETRIES : nat := 3.
Definition RETRY_DELAY : Z := 2.

(** ** The outside world *)

(** What one [yf.download] gives the [try] body it sits in: either
    something in the body raises, or a frame arrives whose [Close]
    column is the list, oldest first ([data.empty] is the empty
    list). *)
Inductive DownloadResult : Type :=
| Raised
| Frame (closes : list float).

(** The console lines, each with the values its f-string prints. *)
Inductive Message : Type :=
| MsgNotEnoughData (ticker : string) (rows : nat)
| MsgTickerAttempt (ticker : string) (attempt retries : nat)
| MsgFetching (n : nat)
| MsgAttempt (code ticker : string) (attempt : nat)
| MsgExhausted (code ticker : string)
| MsgOutOfBounds (code : string) (rate lo hi : float)
| MsgEcbLoaded (n : nat)
| MsgEcbUnavailable
| MsgCriticalDeviation (code : string) (deviation_pct scraped ecb : float)
| MsgValidated (validated total deviations : nat).

Inductive Event : Type :=
| Download (ticker : string)
| Sleep (delay : Z)
| EcbRequest
| Print (m : Message).

(** [provider n t] answers the [n]-th download of the run when it asks
    for ticker [t]; [ecb_xml] is the list of the feed's
    (currency, rate) cubes, or [None] when the request, the parse or a
    conversion raises.  [trace] holds the effects so far, oldest
    first. *)
Record World : Type := {
  provider : nat -> string -> DownloadResult;
  ecb_xml : option (list (string * float));
  calls : nat;
  trace : list Event
}.

Definition emit (ev : Event) (w : World) : World :=
  {| provider := provider w; ecb_xml := ecb_xml w;
     calls := calls w; trace := trace w ++ [ev] |}.

Definition yf_download (ticker : string) (w : World) : DownloadResult * World :=
  (provider w (calls w) ticker,
   {| provider := provider w; ecb_xml := ecb_xml w;
      calls := S (calls w); trace := trace w ++ [Download ticker] |}).

Definition sleep (delay : Z) (w : World) : World := emit (Sleep delay) w.
Definition print (m : Message) (w : World) : World := emit (Print m) w.

(** [closes[-1]] and [closes[-2]] *)
Definition iloc_last (closes : list float) : float := last closes nan.
Definition iloc_prev (closes : list float) : float :=
  last (removelast closes) nan.

(** ** [fetch_with_retry] *)

Record Quote : Type := { price : float; trend : float }.

Fixpoint fetch_with_retry_from (ticker : string) (retries : nat)
    (attempts : list nat) (delay : Z) (w : World) : option Quote * World :=
  match attempts with
  | [] => (None, w)
  | attempt :: rest =>
      let (data, w) := yf_download ticker w in
      match data with
      | Frame closes =>
          if (List.length closes <? 2)%nat then
            (None, print (MsgNotEnoughData ticker (List.length closes)) w)
          else
            let latest := iloc_last closes in
            let prev := iloc_prev closes in
            if (latest <=? 0) || (prev <=? 0) then (None, w)
            else
              let trend := Py.round (((latest - prev) / prev) * 100) 2 in
              (Some {| price := Py.round latest 4; trend := trend |}, w)
      | Raised =>
          let w := print (MsgTickerAttempt ticker attempt retries) w in
          if (attempt <? retries)%nat then
            fetch_with_retry_from ticker retries rest (delay * 2)%Z (sleep delay w)
          else
            fetch_with_retry_from ticker retries rest delay w
      end
  end.

Definition fetch_with_retry (ticker : string) (w : World) : option Quote * World :=
  fetch_with_retry_from ticker MAX_RETRIES (seq 1 MAX_RETRIES) RETRY_DELAY w.

(** ** The ECB reference feed *)

(** [eur_rates] after the loop over the cubes, which starts from
    [{"EUR": 1.0}]. *)
Definition eur_rates_of (cubes : list (string * float)) : Py.dict float :=
  fold_left (fun d cube => Py.set d (fst cube) (snd cube)) cubes [("EUR", 1.0)].

(** One turn of the loop that converts to USD-based rates. *)
Definition to_usd (eur_usd : float) (usd_rates : Py.dict float)
    (item : string * float) : Py.dict float :=
  let '(code, eur_val) := item in
  if String.eqb code "USD" then usd_rates
  else Py.set usd_rates code (Py.round (eur_val / eur_usd) 6).

Definition fetch_ecb_reference_rates (w : World) : Py.dict float * World :=
  let w := emit EcbRequest w in
  match ecb_xml w with
  | None => ([], print MsgEcbUnavailable w)
  | Some cubes =>
      let eur_rates := eur_rates_of cubes in
      match Py.get eur_rates "USD" with
      | None => ([], w)
      | Some eur_usd =>
          if negb (Py.truthy eur_usd) || (eur_usd <=? 0) then ([], w)
          else
            let usd_rates := fold_left (to_usd eur_usd) eur_rates [("USD", 1.0)] in
            (usd_rates, print (MsgEcbLoaded (List.length usd_rates)) w)
      end
  end.

(** ** [fetch_exchanger_rates] *)

Record Rejected : Type := { code : string; rate : float; bounds : float * float }.

Record Deviation : Type := { scraped : float; ecb : float; deviation_pct : float }.

Record AuditInfo : Type := {
  total_requested : nat;
  fetched : nat;
  validated : nat;
  bounds_rejected : list Rejected;
  fetch_failed : list string;
  cross_check_deviations : Py.dict Deviation;
  cross_check_source : string;
  final_count : option nat
}.

Definition new_audit : AuditInfo :=
  {| total_requested := List.length EXCHANGER_PAIRS - 1;
     fetched := 0; validated := 0;
     bounds_rejected := []; fetch_failed := [];
     cross_check_deviations := [];
     cross_check_source := "ECB";
     final_count := None |}.

(** [audit["fetched"] += 1] *)
Definition incr_fetched (a : AuditInfo) : AuditInfo :=
  {| total_requested := total_requested a; fetched := S (fetched a);
     validated := validated a; bounds_rejected := bounds_rejected a;
     fetch_failed := fetch_failed a;
     cross_check_deviations := cross_check_deviations a;
     cross_check_source := cross_check_source a; final_count := final_count a |}.

(** [audit["validated"] += 1] *)
Definition incr_validated (a : AuditInfo) : AuditInfo :=
  {| total_requested := total_requested a; fetched := fetched a;
     validated := S (validated a); bounds_rejected := bounds_rejected a;
     fetch_failed := fetch_failed a;
     cross_check_deviations := cross_check_deviations a;
     cross_check_source := cross_check_source a; final_count := final_count a |}.

(** [audit["bounds_rejected"].append(r)] *)
Definition append_rejected (r : Rejected) (a : AuditInfo) : AuditInfo :=
  {| total_requested := total_requested a; fetched := fetched a;
     validated := validated a; bounds_rejected := bounds_rejected a ++ [r];
     fetch_failed := fetch_failed a;
     cross_check_deviations := cross_check_deviations a;
     cross_check_source := cross_check_source a; final_count := final_count a |}.

(** [audit["fetch_failed"].append(c)] *)
Definition append_failed (c : string) (a : AuditInfo) : AuditInfo :=
  {| total_requested := total_requested a; fetched := fetched a;
     validated := validated a; bounds_rejected := bounds_rejected a;
     fetch_failed := fetch_failed a ++ [c];
     cross_check_deviations := cross_check_deviations a;
     cross_check_source := cross_check_source a; final_count := final_count a |}.

(** [audit["cross_check_deviations"][c] = d] *)
Definition record_deviation (c : string) (d : Deviation) (a : AuditInfo) : AuditInfo :=
  {| total_requested := total_requested a; fetched := fetched a;
     validated := validated a; bounds_rejected := bounds_rejected a;
     fetch_failed := fetch_failed a;
     cross_check_deviations := Py.set (cross_check_deviations a) c d;
     cross_check_source := cross_check_source a; final_count := final_count a |}.

(** [audit["final_count"] = n] *)
Definition set_final_count (n : nat) (a : AuditInfo) : AuditInfo :=
  {| total_requested := total_requested a; fetched := fetched a;
     validated := validated a; bounds_rejected := bounds_rejected a;
     fetch_failed := fetch_failed a;
     cross_check_deviations := cross_check_deviations a;
     cross_check_source := cross_check_source a; final_count := Some n |}.

(** The retry loop of one currency, from the attempts still to make
    and the delay the next sleep would use.  The result is [price]
    as the loop leaves it: [None] when no attempt gave a positive
    close. *)
Fixpoint fetch_price (code ticker : string) (attempts : list nat)
    (delay : Z) (w : World) : option float * World :=
  match attempts with
  | [] => (None, w)
  | attempt :: rest =>
      let (data, w) := yf_download ticker w in
      match data with
      | Frame [] =>
          if (attempt <? MAX_RETRIES)%nat then
            fetch_price code ticker rest (delay * 2)%Z (sleep delay w)
          else (None, w)
      | Frame closes =>
          let price := iloc_last closes in
          if price <=? 0 then fetch_price code ticker rest delay w
          else (Some price, w)
      | Raised =>
          let w := print (MsgAttempt code ticker attempt) w in
          if (attempt <? MAX_RETRIES)%nat then
            fetch_price code ticker rest (delay * 2)%Z (sleep delay w)
          else
            fetch_price code ticker rest delay w
      end
  end.

(** The USD-based rate of a close, at the internal precision. *)
Definition final_rate_of (invert : bool) (price : float) : float :=
  let final_rate := if invert then 1.0 / price else price in
  Py.round final_rate 6.

(** [not (lo <= final_rate <= hi)] *)
Definition out_of_bounds (lo hi final_rate : float) : bool :=
  negb ((lo <=? final_rate) && (final_rate <=? hi)).

Record State : Type := {
  rates : Py.dict float;
  audit : AuditInfo;
  world : World
}.

(** One turn of the loop over [EXCHANGER_PAIRS]. *)
Definition fetch_one (st : State) (pair : string * (string * bool)) : State :=
  let '(code, (ticker, invert)) := pair in
  if String.eqb code "USD" then st
  else
    let (price, w) :=
      fetch_price code ticker (seq 1 MAX_RETRIES) RETRY_DELAY (world st) in
    match price with
    | None =>
        {| rates := rates st;
           audit := append_failed code (audit st);
           world := print (MsgExhausted code ticker) w |}
    | Some price =>
        let audit := incr_fetched (audit st) in
        let final_rate := final_rate_of invert price in
        let accepted :=
          {| rates := Py.set (rates st) code (Py.round final_rate 4);
             audit := incr_validated audit;
             world := w |} in
        match Py.get RATE_BOUNDS code with
        | Some (lo, hi) =>
            if out_of_bounds lo hi final_rate then
              {| rates := rates st;
                 audit := append_rejected
                            {| code := code; rate := final_rate; bounds := (lo, hi) |}
                            audit;
                 world := print (MsgOutOfBounds code final_rate lo hi) w |}
            else accepted
        | None => accepted
        end
    end.

(** One turn of the cross-check loop over the accepted rates. *)
Definition cross_check_one (ecb_rates : Py.dict float)
    (acc : AuditInfo * World) (item : string * float) : AuditInfo * World :=
  let '(code, scraped_rate) := item in
  let '(audit, w) := acc in
  if String.eqb code "USD" then acc
  else
    match Py.get ecb_rates code with
    | Some ecb_rate =>
        if Py.truthy ecb_rate && (0 <? ecb_rate) then
          let deviation_pct := abs (scraped_rate - ecb_rate) / ecb_rate * 100 in
          if 2.0 <? deviation_pct then
            let audit :=
              record_deviation code
                {| scraped := scraped_rate;
                   ecb := Py.round ecb_rate 4;
                   deviation_pct := Py.round deviation_pct 2 |} audit in
            if 15 <? deviation_pct then
              (audit, print (MsgCriticalDeviation code deviation_pct scraped_rate ecb_rate) w)
            else (audit, w)
          else acc
        else acc
    | None => acc
    end.

Definition fetch_exchanger_rates (w : World)
    : (Py.dict float * AuditInfo) * World :=
  let w := print (MsgFetching (List.length EXCHANGER_PAIRS)) w in
  let st := fold_left fetch_one EXCHANGER_PAIRS
              {| rates := [("USD", 1.0)]; audit := new_audit; world := w |} in
  let (ecb_rates, w) := fetch_ecb_reference_rates (world st) in
  let (audit, w) :=
    if Py.is_empty ecb_rates then (audit st, w)
    else fold_left (cross_check_one ecb_rates) (rates st) (audit st, w) in
  let audit := set_final_count (List.length (rates st)) audit in
  let w := print (MsgValidated (validated audit) (total_requested audit)
                    (List.length (cross_check_deviations audit))) w in
  ((rates st, audit), w).

(** ** The market sections and [main] *)

Definition TICKERS : Py.dict (Py.dict string) :=
  [ ("indices",
     [ ("^GSPC", "S&P 500"); ("^DJI", "Dow Jones"); ("^IXIC", "Nasdaq");
       ("^STOXX50E", "Euro Stoxx 50"); ("^FTSE", "FTSE 100");
       ("^N225", "Nikkei 225") ]);
    ("currencies",
     [ ("EURUSD=X", "EUR / USD"); ("USDJPY=X", "USD / JPY");
       ("GBPUSD=X", "GBP / USD"); ("USDCNY=X", "USD / CNY");
       ("DX-Y.NYB", "US Dollar Index"); ("USDMAD=X", "USD / MAD");
       ("EURMAD=X", "EUR / MAD"); ("GBPMAD=X", "GBP / MAD") ]);
    ("energy",
     [ ("BZ=F", "Brent Crude"); ("CL=F", "WTI Crude"); ("NG=F", "Natural Gas");
       ("HO=F", "Heating Oil"); ("RB=F", "Gasoline (RBOB)") ]);
    ("metals",
     [ ("GC=F", "Gold"); ("SI=F", "Silver"); ("HG=F", "Copper");
       ("ALI=F", "Aluminium"); ("PL=F", "Platinum"); ("PA=F", "Palladium") ]);
    ("agriculture",
     [ ("SB=F", "Sugar #11"); ("KC=F", "Coffee"); ("CT=F", "Cotton #2");
       ("ZW=F", "Wheat"); ("ZC=F", "Corn"); ("ZS=F", "Soybeans") ]) ].

Definition OUTPUT_FILE : string := "market_data.json".

(** Per-ticker unit; [None] is Python's [None]. *)
Definition UNIT_MAP : Py.dict (option string) :=
  [ ("^GSPC", Some "pts"); ("^DJI", Some "pts"); ("^IXIC", Some "pts");
    ("^STOXX50E", Some "pts"); ("^FTSE", Some "pts"); ("^N225", Some "pts");
    ("EURUSD=X", None); ("USDJPY=X", None); ("GBPUSD=X", None);
    ("USDCNY=X", None); ("USDMAD=X", None); ("EURMAD=X", None);
    ("GBPMAD=X", None); ("DX-Y.NYB", Some "pts");
    ("BZ=F", Some "USD/bbl"); ("CL=F", Some "USD/bbl");
    ("NG=F", Some "USD/MMBtu"); ("HO=F", Some "USD/gal"); ("RB=F", Some "USD/gal");
    ("GC=F", Some "USD/oz"); ("SI=F", Some "USD/oz");
    ("HG=F", Some "USD/lb"); ("ALI=F", Some "USD/t");
    ("PL=F", Some "USD/oz"); ("PA=F", Some "USD/oz");
    ("SB=F", Some "¢/lb"); ("KC=F", Some "¢/lb"); ("CT=F", Some "¢/lb");
    ("ZW=F", Some "¢/bu"); ("ZC=F", Some "¢/bu"); ("ZS=F", Some "¢/bu") ].

(** Currency code of the price, per category. *)
Definition CURRENCY_MAP : Py.dict (option string) :=
  [ ("indices", None); ("currencies", None);
    ("energy", Some "USD"); ("metals", Some "USD");
    ("agriculture", None) ].

(** [d.get(k)] on a dictionary that holds [None] among its values: a
    missing key gives [None] as well. *)
Definition get_or_none (d : Py.dict (option string)) (k : string) : option string :=
  match Py.get d k with
  | Some v => v
  | None => None
  end.

(** An entry of a market section. *)
Record Item : Type := {
  item_ticker : string;
  item_name : string;
  item_price : float;
  item_trend : float;
  item_currency : option string;
  item_unit : option string
}.

(** One turn of the loop of [build_section]. *)
Definition build_one (currency : option string) (acc : list Item * World)
    (entry : string * string) : list Item * World :=
  let '(symbol, label) := entry in
  let '(items, w) := acc in
  let (result, w) := fetch_with_retry symbol w in
  match result with
  | None => (items, w)
  | Some result =>
      (items ++ [{| item_ticker := symbol;
                    item_name := label;
                    item_price := price result;
                    item_trend := trend result;
                    item_currency := currency;
                    item_unit := get_or_none UNIT_MAP symbol |}],
       w)
  end.

Definition build_section (category : string) (tickers : Py.dict string)
    (w : World) : list Item * World :=
  let currency := get_or_none CURRENCY_MAP category in
  fold_left (build_one currency) tickers ([], w).

(** What [main] dumps to [market_data.json]. *)
Record Output : Type := {
  out_last_update : string;
  out_totalItems : nat;
  out_indices : list Item;
  out_currencies : list Item;
  out_energy : list Item;
  out_metals : list Item;
  out_agriculture : list Item;
  out_rates : Py.dict float;
  out_exchanger_audit : AuditInfo
}.

(** The console lines of [main] itself, each with the values its
    f-string prints. *)
Inductive MainLine : Type :=
| LineBanner
| LineStarted (now : string)
| LineCategory (category : string) (tickers : nat)
| LineSectionOk (items tickers : nat)
| LineSaved (total rates : nat) (out_path : string)
| LineNoData
| LineTooFewRates (validated : nat).

(** The variables of the loop of [main] over [TICKERS], with the lines
    printed so far and the world. *)
Record Sections : Type := {
  results : Py.dict (list Item);
  total : nat;
  lines : list MainLine;
  sections_world : World
}.

(** One turn of the loop of [main] over [TICKERS]. *)
Definition main_one (acc : Sections) (entry : string * Py.dict string) : Sections :=
  let '(category, tickers) := entry in
  let (section, w) := build_section category tickers (sections_world acc) in
  {| results := Py.set (results acc) category section;
     total := total acc + List.length section;
     lines := lines acc
              ++ [LineCategory category (List.length tickers);
                  LineSectionOk (List.length section) (List.length tickers)];
     sections_world := w |}.

(** [results.get(category, [])] *)
Definition section_of (results : Py.dict (list Item)) (category : string) : list Item :=
  match Py.get results category with
  | Some section => section
  | None => []
  end.

(** What [main] reads besides the provider and the feed: the text of
    [datetime.now] when it starts and when it builds the document, and
    the path [out_path] of the file it writes. *)
Record MainEnv : Type := {
  started : string;
  now : string;
  out_path : string
}.

(** The run of [main], the write of the file taken to succeed: the
    document it writes, always; the lines it prints itself, in order
    (those of the functions it calls are in the trace of the world);
    and the status the process ends with, 1 after [sys.exit(1)] and 0
    when [main] returns. *)
Record MainResult : Type := {
  written : Output;
  console : list MainLine;
  exit_status : Z;
  main_world : World
}.

Definition main (menv : MainEnv) (w : World) : MainResult :=
  let acc := fold_left main_one TICKERS
               {| results := []; total := 0;
                  lines := [LineBanner; LineStarted (started menv)];
                  sections_world := w |} in
  let results := results acc in
  let total := total acc in
  let '((exchanger_rates, exchanger_audit), w) :=
    fetch_exchanger_rates (sections_world acc) in
  let output :=
    {| out_last_update := now menv;
       out_totalItems := total;
       out_indices := section_of results "indices";
       out_currencies := section_of results "currencies";
       out_energy := section_of results "energy";
       out_metals := section_of results "metals";
       out_agriculture := section_of results "agriculture";
       out_rates := exchanger_rates;
       out_exchanger_audit := exchanger_audit |} in
  let out := lines acc
             ++ [LineSaved total (List.length exchanger_rates) (out_path menv)] in
  if (total =? 0)%nat then
    {| written := output; console := out ++ [LineNoData];
       exit_status := 1; main_world := w |}
  else if (validated exchanger_audit <? 10)%nat then
    {| written := output;
       console := out ++ [LineTooFewRates (validated exchanger_audit)];
       exit_status := 1; main_world := w |}
  else
    {| written := output; console := out; exit_status := 0; main_world := w |}.

End Scraper.

(** * [audit_rates.py]: the audit of the stored rates

    The console lines of the audit carry nothing the report does not;
    they are left out of [run_audit] and listed by [main]. *)

Module Audit.

Local Open Scope float_scope.

(** ** Configuration *)

Definition MIN_RATES : nat := 15.
Definition MAX_AGE_HOURS : float := 6.
Definition WARN_DEVIATION_PCT : float := 3.0.
Definition CRITICAL_DEVIATION_PCT : float := 10.0.

Definition RATE_BOUNDS : Py.dict (float * float) :=
  [ ("EUR", (0.50, 1.50)); ("GBP", (0.40, 1.30)); ("JPY", (70, 250));
    ("CAD", (0.90, 2.00)); ("AUD", (0.90, 2.20)); ("CNY", (4.0, 10.0));
    ("CHF", (0.50, 1.50)); ("HKD", (5.0, 10.0)); ("SGD", (0.80, 2.00));
    ("SEK", (5.0, 16.0)); ("KRW", (700, 2000)); ("NOK", (5.0, 16.0));
    ("NZD", (0.90, 2.50)); ("INR", (50, 130)); ("MXN", (10, 30));
    ("TWD", (20, 45)); ("ZAR", (10, 30)); ("BRL", (3.0, 8.0));
    ("DKK", (4.0, 10.0)); ("PLN", (2.5, 6.0)); ("THB", (20, 50));
    ("IDR", (10000, 22000)); ("HUF", (200, 550)); ("CZK", (15, 35));
    ("ILS", (2.5, 5.5)); ("CLP", (500, 1400)); ("PHP", (35, 75));
    ("AED", (3.0, 4.5)); ("COP", (2500, 6000)); ("SAR", (3.0, 4.5));
    ("MYR", (3.0, 7.0)); ("RON", (3.0, 7.0)); ("MAD", (7.0, 14.0)) ].

Definition REQUIRED_CURRENCIES : list string :=
  ["EUR"; "GBP"; "JPY"; "CNY"; "CHF"; "CAD"; "MAD"].

(** ** What the audit reads *)

(** [market_data.json] as the audit uses it, with the types the scraper
    writes: rates are floats, codes are texts.  A missing ["last_update"]
    is the empty text, a missing ["rates"] the empty mapping, a missing
    or empty ["exchanger_audit"] is [None]. *)
Record MarketData : Type := {
  last_update : string;
  rates : Py.dict float;
  exchanger_audit : option Scraper.AuditInfo
}.

(** [market_data] is what [load_market_data] returns, [None] when the
    file is not there.  [strptime] stands for the formats tried by
    [parse_last_update]: the instant a text denotes, in microseconds
    since the epoch with a naive time read as UTC, or [None] when no
    format fits.  [clock] is [datetime.now] at the freshness check, in
    the same unit, [now_iso] the text of [datetime.now] when the
    report is created.  [ecb_xml] is as in the scraper. *)
Record Env : Type := {
  MARKET_DATA : string;
  market_data : option MarketData;
  strptime : string -> option Z;
  clock : Z;
  now_iso : string;
  ecb_xml : option (list (string * float))
}.

Definition load_market_data (env : Env) : option MarketData := market_data env.

Definition parse_last_update (env : Env) (date_str : string) : option Z :=
  strptime env date_str.

(** [fetch_ecb_rates]: the reference rates, USD-based; empty on any
    failure. *)
Definition to_usd (eur_usd : float) (usd_rates : Py.dict float)
    (item : string * float) : Py.dict float :=
  let '(code, val) := item in
  if negb (String.eqb code "USD") then
    Py.set usd_rates code (Py.round (val / eur_usd) 6)
  else usd_rates.

Definition fetch_ecb_rates (env : Env) : Py.dict float :=
  match ecb_xml env with
  | None => []
  | Some cubes =>
      let eur_rates :=
        fold_left (fun d cube => Py.set d (fst cube) (snd cube)) cubes
          [("EUR", 1.0)] in
      let eur_usd :=
        match Py.get eur_rates "USD" with
        | Some v => v
        | None => 0
        end in
      if eur_usd <=? 0 then []
      else fold_left (to_usd eur_usd) eur_rates [("USD", 1.0)]
  end.

(** ** The report *)

Inductive Status : Type := PASS | WARNING | CRITICAL.

Record Check : Type := { check : string; status : Status; detail : string }.

Inductive BoundsStatus : Type := BOUNDS_PASS | BOUNDS_FAIL | NO_BOUNDS.

(** An entry of [details_per_currency]; a key not set is [None]. *)
Record CurrencyDetail : Type := {
  rate : float;
  bounds_status : option BoundsStatus;
  bounds : option (float * float);
  ecb_rate : option float;
  ecb_deviation_pct : option float
}.

Record Summary : Type := {
  total_rates : nat;
  bounds_violations : nat;
  summary_warnings : nat;
  summary_critical : bool
}.

(** [summary] stays [{}], here [None], on the two early returns. *)
Record Report : Type := {
  timestamp : string;
  report_status : Status;
  checks : list Check;
  summary : option Summary;
  details_per_currency : Py.dict CurrencyDetail
}.

(** The report with the two variables [add_check] writes to. *)
Record State : Type := {
  report : Report;
  critical : bool;
  warnings : nat
}.

Definition new_state (env : Env) : State :=
  {| report := {| timestamp := now_iso env; report_status := PASS;
                  checks := []; summary := None;
                  details_per_currency := [] |};
     critical := false;
     warnings := 0 |}.

Definition add_check (name : string) (st : Status) (det : string) (s : State) : State :=
  let r := report s in
  {| report := {| timestamp := timestamp r; report_status := report_status r;
                  checks := checks r ++ [{| check := name; status := st; detail := det |}];
                  summary := summary r;
                  details_per_currency := details_per_currency r |};
     critical := match st with CRITICAL => true | _ => critical s end;
     warnings := match st with
                 | CRITICAL => warnings s
                 | WARNING => S (warnings s)
                 | PASS => warnings s
                 end |}.

(** [report["status"] = st] *)
Definition set_status (st : Status) (s : State) : State :=
  let r := report s in
  {| report := {| timestamp := timestamp r; report_status := st;
                  checks := checks r; summary := summary r;
                  details_per_currency := details_per_currency r |};
     critical := critical s; warnings := warnings s |}.

(** [report["summary"] = sm] *)
Definition set_summary (sm : Summary) (s : State) : State :=
  let r := report s in
  {| report := {| timestamp := timestamp r; report_status := report_status r;
                  checks := checks r; summary := Some sm;
                  details_per_currency := details_per_currency r |};
     critical := critical s; warnings := warnings s |}.

(** [report["details_per_currency"] = d] as a whole, after the loops
    that write its entries. *)
Definition set_details (d : Py.dict CurrencyDetail) (s : State) : State :=
  let r := report s in
  {| report := {| timestamp := timestamp r; report_status := report_status r;
                  checks := checks r; summary := summary r;
                  details_per_currency := d |};
     critical := critical s; warnings := warnings s |}.

(** ** The checks of [run_audit], in order *)

(** 2. Freshness *)
Definition check_freshness (env : Env) (data : MarketData) (s : State) : State :=
  let last_update_str := last_update data in
  match parse_last_update env last_update_str with
  | None =>
      add_check "freshness" CRITICAL
        ("Cannot parse last_update: " ++ last_update_str) s
  | Some last_update =>
      let total_seconds := Py.truediv (clock env - last_update) 1000000 in
      let age_hours := total_seconds / 3600 in
      if MAX_AGE_HOURS <? age_hours then
        add_check "freshness" WARNING
          ("Data is " ++ Py.format_f age_hours 1 ++ "h old (max 6h)") s
      else
        add_check "freshness" PASS (Py.format_f age_hours 1 ++ "h old") s
  end.

(** 4. Minimum count *)
Definition check_minimum_count (rates : Py.dict float) (s : State) : State :=
  if (List.length rates <? MIN_RATES)%nat then
    add_check "minimum_count" CRITICAL
      ("Only " ++ Py.str_nat (List.length rates) ++ " rates (min 15)") s
  else
    add_check "minimum_count" PASS
      (Py.str_nat (List.length rates) ++ " ≥ 15") s.

(** [usd_rate != 1.0], where [usd_rate] is [None] without the key. *)
Definition usd_differs (usd_rate : option float) : bool :=
  match usd_rate with
  | Some v => negb (v =? 1.0)
  | None => true
  end.

(** [str(usd_rate)] *)
Definition str_usd (usd_rate : option float) : string :=
  match usd_rate with
  | Some v => Py.repr v
  | None => "None"
  end.

(** 5. USD base = 1.0 *)
Definition check_usd_base (rates : Py.dict float) (s : State) : State :=
  let usd_rate := Py.get rates "USD" in
  if usd_differs usd_rate then
    add_check "usd_base" CRITICAL
      ("USD rate = " ++ str_usd usd_rate ++ ", expected 1.0") s
  else add_check "usd_base" PASS "" s.

(** 6. Required currencies *)
Definition check_required (rates : Py.dict float) (s : State) : State :=
  let missing := filter (fun c => negb (Py.contains rates c)) REQUIRED_CURRENCIES in
  match missing with
  | _ :: _ =>
      add_check "required_currencies" WARNING
        ("Missing: " ++ Py.join ", " (Py.sorted missing)) s
  | [] => add_check "required_currencies" PASS "" s
  end.

(** 7. Bounds check per currency: one turn of the loop, on the list
    [bounds_violations] and on [details_per_currency]. *)
Definition bounds_one (acc : list string * Py.dict CurrencyDetail)
    (item : string * float) : list string * Py.dict CurrencyDetail :=
  let '(code, rate) := item in
  let '(bounds_violations, details) := acc in
  if String.eqb code "USD" then acc
  else
    match Py.get RATE_BOUNDS code with
    | Some (lo, hi) =>
        if negb ((lo <=? rate) && (rate <=? hi)) then
          (bounds_violations ++ [code],
           Py.set details code
             {| rate := rate; bounds_status := Some BOUNDS_FAIL;
                bounds := Some (lo, hi);
                ecb_rate := None; ecb_deviation_pct := None |})
        else
          (bounds_violations,
           Py.set details code
             {| rate := rate; bounds_status := Some BOUNDS_PASS;
                bounds := None;
                ecb_rate := None; ecb_deviation_pct := None |})
    | None =>
        (bounds_violations,
         Py.set details code
           {| rate := rate; bounds_status := Some NO_BOUNDS;
              bounds := None;
              ecb_rate := None; ecb_deviation_pct := None |})
    end.

Definition check_bounds (rates : Py.dict float) (s : State) : list string * State :=
  let '(bounds_violations, details) :=
    fold_left bounds_one rates ([], details_per_currency (report s)) in
  let s := set_details details s in
  match bounds_violations with
  | _ :: _ =>
      (bounds_violations,
       add_check "bounds_validation" WARNING
         ("Out of bounds: " ++ Py.join ", " bounds_violations) s)
  | [] => (bounds_violations, add_check "bounds_validation" PASS "" s)
  end.

(** [abs(rate - ecb_rate) / ecb_rate * 100] *)
Definition deviation (rate ecb_rate : float) : float :=
  abs (rate - ecb_rate) / ecb_rate * 100.

(** [f"{code}({dev:.1f}%)"] *)
Definition show_deviation (code : string) (dev : float) : string :=
  code ++ "(" ++ Py.format_f dev 1 ++ "%)".

(** [entry["ecb_rate"] = r; entry["ecb_deviation_pct"] = d] *)
Definition with_ecb (entry : CurrencyDetail) (r d : float) : CurrencyDetail :=
  {| rate := rate entry; bounds_status := bounds_status entry;
     bounds := bounds entry;
     ecb_rate := Some r; ecb_deviation_pct := Some d |}.

Record CrossAcc : Type := {
  cross_errors : list string;
  cross_warnings : list string;
  cross_details : Py.dict CurrencyDetail
}.

(** 8. ECB cross-validation: one turn of the loop. *)
Definition cross_one (ecb_rates : Py.dict float) (acc : CrossAcc)
    (item : string * float) : CrossAcc :=
  let '(code, rate) := item in
  if String.eqb code "USD" then acc
  else
    match Py.get ecb_rates code with
    | Some ecb_rate =>
        if Py.truthy ecb_rate && (0 <? ecb_rate) then
          let dev := deviation rate ecb_rate in
          let '(entry, details) :=
            Py.setdefault (cross_details acc) code
              {| rate := rate; bounds_status := None; bounds := None;
                 ecb_rate := None; ecb_deviation_pct := None |} in
          let details :=
            Py.set details code
              (with_ecb entry (Py.round ecb_rate 4) (Py.round dev 2)) in
          if CRITICAL_DEVIATION_PCT <? dev then
            {| cross_errors := cross_errors acc ++ [show_deviation code dev];
               cross_warnings := cross_warnings acc;
               cross_details := details |}
          else if WARN_DEVIATION_PCT <? dev then
            {| cross_errors := cross_errors acc;
               cross_warnings := cross_warnings acc ++ [show_deviation code dev];
               cross_details := details |}
          else
            {| cross_errors := cross_errors acc;
               cross_warnings := cross_warnings acc;
               cross_details := details |}
        else acc
    | None => acc
    end.

Definition check_ecb (env : Env) (rates : Py.dict float) (s : State) : State :=
  let ecb_rates := fetch_ecb_rates env in
  if Py.is_empty ecb_rates then
    add_check "ecb_cross_check" WARNING "ECB data unavailable — skipped" s
  else
    let acc :=
      fold_left (cross_one ecb_rates) rates
        {| cross_errors := []; cross_warnings := [];
           cross_details := details_per_currency (report s) |} in
    let s := set_details (cross_details acc) s in
    match cross_errors acc, cross_warnings acc with
    | _ :: _, _ =>
        add_check "ecb_cross_check" CRITICAL
          ("Critical deviations: " ++ Py.join ", " (cross_errors acc)) s
    | [], _ :: _ =>
        add_check "ecb_cross_check" WARNING
          ("Deviations: " ++ Py.join ", " (cross_warnings acc)) s
    | [], [] =>
        add_check "ecb_cross_check" PASS "All rates within 3.0% of ECB" s
    end.

(** 9. Scraper audit metadata (if present) *)
Definition check_scraper_audit (data : MarketData) (s : State) : State :=
  match exchanger_audit data with
  | None => s
  | Some scraper_audit =>
      let failed := Scraper.fetch_failed scraper_audit in
      let rejected := Scraper.bounds_rejected scraper_audit in
      let s :=
        match failed with
        | _ :: _ =>
            add_check "scraper_failures" WARNING
              ("Scraper failed to fetch: " ++ Py.join ", " failed) s
        | [] => s
        end in
      let s :=
        match rejected with
        | _ :: _ =>
            let codes := map Scraper.code rejected in
            add_check "scraper_bounds_rejected" WARNING
              ("Scraper rejected: " ++ Py.join ", " codes) s
        | [] => s
        end in
      match failed, rejected with
      | [], [] => add_check "scraper_audit" PASS "No scraper-level issues" s
      | _, _ => s
      end
  end.

(** Final status *)
Definition final_status (s : State) : Status :=
  if critical s then CRITICAL
  else if (0 <? warnings s)%nat then WARNING else PASS.

(** ** [run_audit] *)

Definition run_audit (env : Env) : Report :=
  let s := new_state env in
  (* 1. File existence *)
  match load_market_data env with
  | None =>
      let s := add_check "file_exists" CRITICAL (MARKET_DATA env ++ " not found") s in
      report (set_status CRITICAL s)
  | Some data =>
      let s := add_check "file_exists" PASS "" s in
      let s := check_freshness env data s in
      (* 3. Rates presence *)
      let rates := rates data in
      if Py.is_empty rates then
        let s := add_check "rates_present" CRITICAL
                   "No 'rates' block in market_data.json" s in
        report (set_status CRITICAL s)
      else
        let s := add_check "rates_present" PASS
                   (Py.str_nat (List.length rates) ++ " rates found") s in
        let s := check_minimum_count rates s in
        let s := check_usd_base rates s in
        let s := check_required rates s in
        let '(bounds_violations, s) := check_bounds rates s in
        let s := check_ecb env rates s in
        let s := check_scraper_audit data s in
        let s := set_summary
                   {| total_rates := List.length rates;
                      bounds_violations := List.length bounds_violations;
                      summary_warnings := warnings s;
                      summary_critical := critical s |} s in
        report (set_status (final_status s) s)
  end.

(** ** [main] *)

(** How the process of [main] ends: by [sys.exit(code)], or by a
    [KeyError] that nothing catches. *)
Inductive Ending : Type :=
| Exit (code : Z)
| KeyError (key : string).

(** The status the shell sees: an uncaught exception ends the process
    with status 1. *)
Definition process_status (e : Ending) : Z :=
  match e with
  | Exit code => code
  | KeyError _ => 1%Z
  end.

Definition str_status (st : Status) : string :=
  match st with
  | PASS => "PASS"
  | WARNING => "WARNING"
  | CRITICAL => "CRITICAL"
  end.

(** [{"PASS": "✅", "WARNING": "⚠️", "CRITICAL": "❌"}.get(status, "❓")] *)
Definition status_emoji (st : Status) : string :=
  match st with
  | PASS => "✅"
  | WARNING => "⚠️"
  | CRITICAL => "❌"
  end.

(** [{"PASS": "✓", "WARNING": "⚠", "CRITICAL": "✗"}[check["status"]]] *)
Definition status_icon (st : Status) : string :=
  match st with
  | PASS => "✓"
  | WARNING => "⚠"
  | CRITICAL => "✗"
  end.

Definition newline : string := String (ascii_of_nat 10) EmptyString.

(** The line of one check. *)
Definition check_line (c : Check) : string :=
  let line := ("    [" ++ status_icon (status c) ++ "] " ++ check c)%string in
  match detail c with
  | EmptyString => line
  | _ => (line ++ " — " ++ detail c)%string
  end.

(** What [main] needs besides the environment of [run_audit]: the path
    [AUDIT_REPORT], the text of [datetime.now] when it starts, and the
    text of the exception of a failed ECB request. *)
Record MainEnv : Type := {
  env : Env;
  AUDIT_REPORT : string;
  started : string;
  ecb_error : string
}.

(** The line [fetch_ecb_rates] prints when its request raises; the
    function is called only by a run that gets to check 8. *)
Definition ecb_console (menv : MainEnv) : list string :=
  match load_market_data (env menv) with
  | None => []
  | Some data =>
      if Py.is_empty (rates data) then []
      else match ecb_xml (env menv) with
           | None => [("  ⚠  ECB fetch failed: " ++ ecb_error menv)%string]
           | Some _ => []
           end
  end.

(** The run of [main], the write of the file taken to succeed: the
    report written to [AUDIT_REPORT], the texts given to [print] in
    order, and how the process ends. *)
Record MainResult : Type := {
  saved : Report;
  console : list string;
  ending : Ending
}.

Definition main (menv : MainEnv) : MainResult :=
  let out := ["🔍  Factory Pocket Pro — Exchange Rate Audit v1.0";
              ("    " ++ started menv ++ newline)%string] in
  let report := run_audit (env menv) in
  let out := out ++ ecb_console menv in
  (* Save report *)
  let out := out ++ [(newline ++ "📋  Audit report saved → "
                        ++ AUDIT_REPORT menv)%string] in
  (* Print summary *)
  let status := report_status report in
  let out := out ++ [(newline ++ status_emoji status ++ "  AUDIT STATUS: "
                        ++ str_status status)%string] in
  match summary report with
  | None =>
      {| saved := report; console := out; ending := KeyError "total_rates" |}
  | Some s =>
      let out := out ++ [("    Rates: " ++ Py.str_nat (total_rates s))%string;
                         ("    Bounds violations: "
                            ++ Py.str_nat (bounds_violations s))%string;
                         ("    Warnings: " ++ Py.str_nat (summary_warnings s))%string] in
      let out := out ++ map check_line (checks report) in
      match status with
      | CRITICAL =>
          {| saved := report;
             console := out ++ [(newline ++ "❌  AUDIT FAILED — commit should be blocked.")%string];
             ending := Exit 1 |}
      | _ =>
          {| saved := report;
             console := out ++ [(newline ++ "✅  Audit passed.")%string];
             ending := Exit 0 |}
      end
  end.

End Audit.


(** * The vocabulary of the properties *)

(** No string occurs twice in the list. *)
Fixpoint distinct (l : list string) : bool :=
  match l with
  | [] => true
  | k :: l' => negb (existsb (String.eqb k) l') && distinct l'
  end.

(** ** The audit *)

Section AuditVocabulary.

Import Audit.

Definition is_critical (c : Check) : bool :=
  match status c with CRITICAL => true | _ => false end.

Definition is_warning (c : Check) : bool :=
  match status c with WARNING => true | _ => false end.

(** The overall status as the specification words it: CRITICAL if any
    check is CRITICAL, else WARNING if any check is WARNING, else PASS. *)
Definition overall_status (cs : list Check) : Status :=
  if existsb is_critical cs then CRITICAL
  else if existsb is_warning cs then WARNING
  else PASS.

(** The first check of a report recorded under a name. *)
Definition lookup_check (name : string) (r : Report) : option Check :=
  find (fun c => String.eqb (check c) name) (checks r).

Definition mk_check (name : string) (st : Status) (det : string) : Check :=
  {| check := name; status := st; detail := det |}.

(** The two variables of [add_check] mirror the list of checks. *)
Definition flags_mirror_checks (s : State) : Prop :=
  critical s = existsb is_critical (checks (report s))
  /\ warnings s = List.length (filter is_warning (checks (report s))).

(** The state after a step holds the checks it had, then [added]. *)
Definition extends (s s' : State) (added : list Check) : Prop :=
  checks (report s') = checks (report s) ++ added.

(** What check 5 records. *)
Definition usd_check (rates : Py.dict float) : Check :=
  match Py.get rates "USD" with
  | Some v =>
      if (v =? 1.0)%float then mk_check "usd_base" PASS ""
      else mk_check "usd_base" CRITICAL ("USD rate = " ++ Py.repr v ++ ", expected 1.0")
  | None => mk_check "usd_base" CRITICAL "USD rate = None, expected 1.0"
  end.

(** The deviations check 8 looks at: one for each stored currency other
    than USD whose reference rate is there and positive, in the order of
    the stored rates. *)
Definition compared (ecb_rates rates : Py.dict float) : list (string * float) :=
  flat_map
    (fun item : string * float =>
       let '(code, rate) := item in
       if String.eqb code "USD" then []
       else match Py.get ecb_rates code with
            | Some ecb_rate =>
                if Py.truthy ecb_rate && (0 <? ecb_rate)%float
                then [(code, (abs (rate - ecb_rate) / ecb_rate * 100)%float)]
                else []
            | None => []
            end)
    rates.

Definition exceeds (threshold : float) (d : string * float) : bool :=
  (threshold <? snd d)%float.

Definition show (d : string * float) : string := show_deviation (fst d) (snd d).

(** What check 8 records for a list of deviations. *)
Definition cross_check_outcome (devs : list (string * float)) : Check :=
  match filter (exceeds 10) devs with
  | (_ :: _) as errors =>
      mk_check "ecb_cross_check" CRITICAL
        ("Critical deviations: " ++ Py.join ", " (map show errors))
  | [] =>
      match filter (exceeds 3) devs with
      | (_ :: _) as warns =>
          mk_check "ecb_cross_check" WARNING
            ("Deviations: " ++ Py.join ", " (map show warns))
      | [] => mk_check "ecb_cross_check" PASS "All rates within 3.0% of ECB"
      end
  end.

Definition ecb_check (env : Env) (rates : Py.dict float) : Check :=
  if Py.is_empty (fetch_ecb_rates env) then
    mk_check "ecb_cross_check" WARNING "ECB data unavailable — skipped"
  else cross_check_outcome (compared (fetch_ecb_rates env) rates).

(** What check 9 records. *)
Definition scraper_checks (data : MarketData) : list Check :=
  match exchanger_audit data with
  | None => []
  | Some a =>
      let failed := Scraper.fetch_failed a in
      let rejected := Scraper.bounds_rejected a in
      match failed with
      | [] => []
      | _ :: _ =>
          [mk_check "scraper_failures" WARNING
             ("Scraper failed to fetch: " ++ Py.join ", " failed)]
      end
      ++ match rejected with
         | [] => []
         | _ :: _ =>
             [mk_check "scraper_bounds_rejected" WARNING
                ("Scraper rejected: " ++ Py.join ", " (map Scraper.code rejected))]
         end
      ++ match failed, rejected with
         | [], [] => [mk_check "scraper_audit" PASS "No scraper-level issues"]
         | _, _ => []
         end
  end.

(** An environment for examples: a stored file with the base rate only,
    no scraper data, and an ECB feed that cannot be reached. *)
Definition offline_env : Env :=
  {| MARKET_DATA := "/srv/Backend/market_data.json";
     market_data :=
       Some {| last_update := "2026-02-01T10:00:00+00:00";
               rates := [("USD", 1.0%float)];
               exchanger_audit := None |};
     strptime := fun _ => Some 0%Z;
     clock := 3600000000%Z;
     now_iso := "2026-02-01T11:00:00+00:00";
     ecb_xml := None |}.

(** An environment in which only the stored base rate is wrong: USD is
    stored as 2.0, EUR as 0.92, and the feed quotes 1 EUR = 1.087 USD,
    which puts the reference EUR rate at 0.919963. *)
Definition wrong_usd_data : MarketData :=
  {| last_update := "2026-02-01T10:00:00+00:00";
     rates := [("USD", 2.0%float); ("EUR", 0.92%float)];
     exchanger_audit := None |}.

Definition wrong_usd_env : Env :=
  {| MARKET_DATA := "/srv/Backend/market_data.json";
     market_data := Some wrong_usd_data;
     strptime := fun _ => Some 0%Z;
     clock := 3600000000%Z;
     now_iso := "2026-02-01T11:00:00+00:00";
     ecb_xml := Some [("USD", 1.087%float)] |}.

(** An environment with one deviating currency: EUR is stored as 0.92
    while the feed, 1 EUR = 1.25 USD, puts its reference at 0.8. *)
Definition eur_off_data : MarketData :=
  {| last_update := "2026-02-01T10:00:00+00:00";
     rates := [("USD", 1.0%float); ("EUR", 0.92%float)];
     exchanger_audit := None |}.

Definition eur_off_env : Env :=
  {| MARKET_DATA := "/srv/Backend/market_data.json";
     market_data := Some eur_off_data;
     strptime := fun _ => Some 0%Z;
     clock := 3600000000%Z;
     now_iso := "2026-02-01T11:00:00+00:00";
     ecb_xml := Some [("USD", 1.25%float)] |}.

(** The stored rates without the USD entry. *)
Definition without_usd (rates : Py.dict float) : Py.dict float :=
  filter (fun item => negb (String.eqb (fst item) "USD")) rates.

Definition no_usd_detail (s : State) : Prop :=
  Py.get (details_per_currency (report s)) "USD" = None.

(** The stored rates with the value under USD, if there is one,
    replaced by [v]. *)
Definition replace_usd (v : float) (rates : Py.dict float) : Py.dict float :=
  map (fun item : string * float =>
         if String.eqb (fst item) "USD" then (fst item, v) else item)
      rates.

(** The same environment, but for the stored USD rate. *)
Definition with_stored_usd (v : float) (env : Env) : Env :=
  {| MARKET_DATA := MARKET_DATA env;
     market_data :=
       match market_data env with
       | Some data =>
           Some {| last_update := last_update data;
                   rates := replace_usd v (rates data);
                   exchanger_audit := exchanger_audit data |}
       | None => None
       end;
     strptime := strptime env;
     clock := clock env;
     now_iso := now_iso env;
     ecb_xml := ecb_xml env |}.

Definition not_usd_base (c : Check) : bool :=
  negb (String.eqb (check c) "usd_base").

(** Two states of the audit hold the same checks, but for those of the
    base check, and the same per-currency details. *)
Definition agree (s s' : State) : Prop :=
  filter not_usd_base (checks (report s)) = filter not_usd_base (checks (report s'))
  /\ details_per_currency (report s) = details_per_currency (report s').

(** The names of the checks that can be recorded as CRITICAL. *)
Definition blocking_checks : list string :=
  ["file_exists"; "freshness"; "rates_present"; "minimum_count"; "usd_base";
   "ecb_cross_check"].

(** Is this the stored rate of a currency other than USD that lies
    outside the bounds of its code? *)
Definition out_of_range (item : string * float) : bool :=
  negb (String.eqb (fst item) "USD")
  && match Py.get RATE_BOUNDS (fst item) with
     | Some (lo, hi) => negb ((lo <=? snd item)%float && (snd item <=? hi)%float)
     | None => false
     end.

(** The codes check 7 finds out of bounds, in the order of the stored
    rates. *)
Definition violations (rates : Py.dict float) : list string :=
  map fst (filter out_of_range rates).

(** The summary that goes with stored rates and recorded checks. *)
Definition summary_of (rates : Py.dict float) (cs : list Check) : Summary :=
  {| total_rates := List.length rates;
     bounds_violations := List.length (violations rates);
     summary_warnings := List.length (filter is_warning cs);
     summary_critical := existsb is_critical cs |}.

(** The run returns before its summary is written: the file is missing
    or holds no rates. *)
Definition stops_early (env : Env) : bool :=
  match load_market_data env with
  | None => true
  | Some data => Py.is_empty (rates data)
  end.

(** What check 4 records. *)
Definition minimum_check (rates : Py.dict float) : Check :=
  if (List.length rates <? MIN_RATES)%nat then
    mk_check "minimum_count" CRITICAL
      ("Only " ++ Py.str_nat (List.length rates) ++ " rates (min 15)")%string
  else
    mk_check "minimum_count" PASS
      (Py.str_nat (List.length rates) ++ " ≥ 15")%string.

(** The lines on the console of a [main] whose report has no
    summary. *)
Definition early_console (menv : MainEnv) : list string :=
  [ "🔍  Factory Pocket Pro — Exchange Rate Audit v1.0";
    ("    " ++ started menv ++ newline)%string;
    (newline ++ "📋  Audit report saved → " ++ AUDIT_REPORT menv)%string;
    (newline ++ "❌  AUDIT STATUS: CRITICAL")%string ].

(** An environment whose stored file is missing. *)
Definition no_file_env : Env :=
  {| MARKET_DATA := "/srv/Backend/market_data.json";
     market_data := None;
     strptime := fun _ => Some 0%Z;
     clock := 3600000000%Z;
     now_iso := "2026-02-01T11:00:00+00:00";
     ecb_xml := None |}.

Definition main_env_of (e : Env) : MainEnv :=
  {| env := e;
     AUDIT_REPORT := "/srv/Backend/audit_report.json";
     started := "2026-02-01T11:00:00+00:00";
     ecb_error := "<urlopen error timed out>" |}.

(** [eur_rates] of [fetch_ecb_rates] after its loop over the cubes. *)
Definition eur_rates (cubes : list (string * float)) : Py.dict float :=
  fold_left (fun d cube => Py.set d (fst cube) (snd cube)) cubes
    [("EUR", 1.0%float)].

(** The USD-based rates made of EUR-based ones: the base first, then
    each currency but USD in the order of the feed, divided by the rate
    of the dollar and rounded to six decimals. *)
Definition converted (eur_usd : float) (eur : Py.dict float) : Py.dict float :=
  ("USD", 1.0%float)
  :: map (fun item => (fst item, Py.round (snd item / eur_usd)%float 6))
       (without_usd eur).

(** The entry check 7 writes for a stored rate. *)
Definition bounds_detail (code : string) (rate : float) : CurrencyDetail :=
  match Py.get RATE_BOUNDS code with
  | Some (lo, hi) =>
      if negb ((lo <=? rate)%float && (rate <=? hi)%float) then
        {| Audit.rate := rate; bounds_status := Some BOUNDS_FAIL;
           bounds := Some (lo, hi);
           ecb_rate := None; ecb_deviation_pct := None |}
      else
        {| Audit.rate := rate; bounds_status := Some BOUNDS_PASS;
           bounds := None;
           ecb_rate := None; ecb_deviation_pct := None |}
  | None =>
      {| Audit.rate := rate; bounds_status := Some NO_BOUNDS;
         bounds := None;
         ecb_rate := None; ecb_deviation_pct := None |}
  end.

(** The entry of a stored rate once check 8 has seen it: the reference
    rate and the deviation are added when the reference is there and
    positive. *)
Definition detail_of (ecb_rates : Py.dict float) (item : string * float)
    : string * CurrencyDetail :=
  let '(code, rate) := item in
  let entry := bounds_detail code rate in
  (code,
   match Py.get ecb_rates code with
   | Some ecb_rate =>
       if Py.truthy ecb_rate && (0 <? ecb_rate)%float then
         with_ecb entry (Py.round ecb_rate 4)
           (Py.round (deviation rate ecb_rate) 2)
       else entry
   | None => entry
   end).

End AuditVocabulary.

(** ** The scraper *)

Section ScraperVocabulary.

Import Audit.
Import Scraper.

(** The provider answered a download of [ticker], made between the
    states [w] and [w'], with a frame whose last close is [price], and
    that close passed the test [price <= 0]. *)
Definition quoted (w w' : World) (ticker : string) (price : float) : Prop :=
  exists n closes,
    (calls w <= n < calls w')%nat
    /\ provider w n ticker = Frame closes
    /\ closes <> []
    /\ iloc_last closes = price
    /\ (price <=? 0)%float = false.

Definition downloads (evs : list Event) : list string :=
  flat_map (fun ev => match ev with Download t => [t] | _ => [] end) evs.

Definition sleeps (evs : list Event) : list Z :=
  flat_map (fun ev => match ev with Sleep d => [d] | _ => [] end) evs.

(** [delay; 2 delay; 4 delay; ...], [k] of them. *)
Fixpoint doubling (delay : Z) (k : nat) : list Z :=
  match k with
  | O => []
  | S k' => delay :: doubling (delay * 2) k'
  end.

(** Does the rate pass the bounds validation of its code? *)
Definition in_bounds (code : string) (final_rate : float) : bool :=
  match Py.get Scraper.RATE_BOUNDS code with
  | Some (lo, hi) => (lo <=? final_rate)%float && (final_rate <=? hi)%float
  | None => true
  end.

(** The entry [code -> v] of the rate mapping comes from a close the
    provider gave for the ticker of [code], normalized, rounded to six
    decimals, found within bounds, then rounded to four. *)
Definition stored_from_quote (w w' : World) (code : string) (v : float) : Prop :=
  exists ticker invert price,
    In (code, (ticker, invert)) EXCHANGER_PAIRS
    /\ quoted w w' ticker price
    /\ let final_rate := Py.round (if invert then 1 / price else price)%float 6 in
       in_bounds code final_rate = true
       /\ v = Py.round final_rate 4.

(** The entry [r] of [bounds_rejected] comes from a close the provider
    gave for the ticker of its code, normalized and rounded to six
    decimals, and found outside the bounds of that code. *)
Definition rejected_from_quote (w w' : World) (r : Rejected) : Prop :=
  exists ticker invert price lo hi,
    In (Scraper.code r, (ticker, invert)) EXCHANGER_PAIRS
    /\ quoted w w' ticker price
    /\ Scraper.rate r = Py.round (if invert then 1 / price else price)%float 6
    /\ Py.get Scraper.RATE_BOUNDS (Scraper.code r) = Some (lo, hi)
    /\ Scraper.bounds r = (lo, hi)
    /\ ((lo <=? Scraper.rate r)%float && (Scraper.rate r <=? hi)%float) = false.

(** What holds of the state of the loop once the codes [done] have had
    their turn, in a run started in the world [w]. *)
Record loop_inv (w : World) (done : list string) (st : Scraper.State) : Prop := {
  inv_provider : provider (world st) = provider w;
  inv_calls : (calls w <= calls (world st))%nat;
  inv_usd : Py.get (Scraper.rates st) "USD" = Some 1%float;
  inv_keys : forall code, In code (Py.keys (Scraper.rates st)) ->
                          code = "USD" \/ In code done;
  inv_stored : forall code v, Py.get (Scraper.rates st) code = Some v ->
                              code <> "USD" ->
                              stored_from_quote w (world st) code v;
  inv_rejected : forall r, In r (bounds_rejected (audit st)) ->
                           In (Scraper.code r) done
                           /\ Scraper.code r <> "USD"
                           /\ rejected_from_quote w (world st) r;
  inv_failed : forall c, In c (fetch_failed (audit st)) ->
                         In c done /\ c <> "USD";
  inv_rejected_absent : forall r, In r (bounds_rejected (audit st)) ->
                                  Py.get (Scraper.rates st) (Scraper.code r) = None;
  inv_failed_absent : forall c, In c (fetch_failed (audit st)) ->
                                Py.get (Scraper.rates st) c = None
}.

(** The state the loop over the registry ends in. *)
Definition after_loop (w : World) : Scraper.State :=
  fold_left fetch_one EXCHANGER_PAIRS
    {| Scraper.rates := [("USD", 1.0%float)]; audit := new_audit;
       world := print (MsgFetching (List.length EXCHANGER_PAIRS)) w |}.

(** The cross-check against the ECB rates leaves the lists of the loop
    as they are, and makes no download. *)
Definition same_loop_data (acc acc' : AuditInfo * World) : Prop :=
  bounds_rejected (fst acc') = bounds_rejected (fst acc)
  /\ fetch_failed (fst acc') = fetch_failed (fst acc)
  /\ validated (fst acc') = validated (fst acc)
  /\ calls (snd acc') = calls (snd acc)
  /\ provider (snd acc') = provider (snd acc).

(** What [fetch_exchanger_rates] does once the loop is over. *)
Definition finish (st : Scraper.State) : (Py.dict float * AuditInfo) * World :=
  let (ecb_rates, w) := fetch_ecb_reference_rates (world st) in
  let (audit, w) :=
    if Py.is_empty ecb_rates then (Scraper.audit st, w)
    else fold_left (cross_check_one ecb_rates) (Scraper.rates st) (Scraper.audit st, w) in
  let audit := set_final_count (List.length (Scraper.rates st)) audit in
  let w := print (MsgValidated (validated audit) (total_requested audit)
                    (List.length (cross_check_deviations audit))) w in
  ((Scraper.rates st, audit), w).

(** A run starts with nothing downloaded and an empty trace. *)
Definition start (answers : nat -> string -> DownloadResult)
    (feed : option (list (string * float))) : World :=
  {| provider := answers; Scraper.ecb_xml := feed; calls := 0; trace := [] |}.

(** Every download raises and the ECB feed cannot be reached. *)
Definition all_fail_world : World := start (fun _ _ => Raised) None.

(** Only EURUSD=X is served, closing at 1.087, which makes the EUR rate
    0.919963, stored as 0.92; the feed quotes 1 EUR = 1.25 USD, which
    makes the reference EUR rate 0.8. *)
Definition eur_world : World :=
  start (fun _ t => if String.eqb t "EURUSD=X" then Frame [1.08; 1.087]%float else Raised)
        (Some [("USD", 1.25%float)]).

(** Only EURUSD=X is served, closing at 0.5, which makes the EUR rate
    2.0, above its upper bound 1.5. *)
Definition eur_high_world : World :=
  start (fun _ t => if String.eqb t "EURUSD=X" then Frame [0.5]%float else Raised)
        None.

(** EURUSD=X closes at 0.0 on the first download and at 1.087 from the
    second on. *)
Definition zero_then_good_world : World :=
  start (fun n t =>
           if String.eqb t "EURUSD=X" then
             if (n =? 0)%nat then Frame [0.0]%float else Frame [1.087]%float
           else Raised)
        None.

(** EURUSD=X always closes at 0.0. *)
Definition always_zero_world : World :=
  start (fun _ t => if String.eqb t "EURUSD=X" then Frame [0.0]%float else Raised)
        None.

(** EURUSD=X comes back empty on the first download and closes at
    1.087 from the second on. *)
Definition empty_then_good_world : World :=
  start (fun n t =>
           if String.eqb t "EURUSD=X" then
             if (n =? 0)%nat then Frame [] else Frame [1.087]%float
           else Raised)
        None.

Definition is_critical_message (ev : Event) : bool :=
  match ev with
  | Print (MsgCriticalDeviation _ _ _ _) => true
  | _ => false
  end.

(** The answers of the provider to [n] downloads of [ticker] in a row,
    the first of them being download number [k] of the run. *)
Fixpoint answers_at (prov : nat -> string -> DownloadResult) (ticker : string)
    (k n : nat) : list DownloadResult :=
  match n with
  | O => []
  | S n' => prov k ticker :: answers_at prov ticker (S k) n'
  end.

(** The last close of an answer, when the answer is a frame with rows
    whose last close passes the test [price <= 0]. *)
Definition good_close (r : DownloadResult) : option float :=
  match r with
  | Frame (c :: closes) =>
      let price := iloc_last (c :: closes) in
      if (price <=? 0)%float then None else Some price
  | _ => None
  end.

(** The good close of the first answer that has one. *)
Fixpoint first_good (answers : list DownloadResult) : option float :=
  match answers with
  | [] => None
  | r :: rest =>
      match good_close r with
      | Some price => Some price
      | None => first_good rest
      end
  end.

(** The seconds slept in a stretch of the trace. *)
Definition slept (evs : list Event) : Z := fold_right Z.add 0%Z (sleeps evs).

(** Between the states [w] and [w'] at most [d] downloads were made and
    at most [s] seconds slept, the provider and the feed staying the
    same. *)
Definition costs (w w' : World) (d : nat) (s : Z) : Prop :=
  provider w' = provider w
  /\ Scraper.ecb_xml w' = Scraper.ecb_xml w
  /\ exists evs,
       trace w' = trace w ++ evs
       /\ calls w' = (calls w + List.length (downloads evs))%nat
       /\ (List.length (downloads evs) <= d)%nat
       /\ (0 <= slept evs <= s)%Z
       /\ forall delay, In delay (sleeps evs) -> delay = 2%Z \/ delay = 4%Z.

(** The frame of the first answer that does not raise. *)
Fixpoint first_frame (answers : list DownloadResult) : option (list float) :=
  match answers with
  | [] => None
  | Raised :: rest => first_frame rest
  | Frame closes :: _ => Some closes
  end.

(** What [fetch_with_retry] makes of a frame: nothing with fewer than
    two rows or with a close that is [<= 0] among the last two. *)
Definition quote_of (closes : list float) : option Quote :=
  if (List.length closes <? 2)%nat then None
  else
    let latest := iloc_last closes in
    let prev := iloc_prev closes in
    if (latest <=? 0)%float || (prev <=? 0)%float then None
    else Some {| price := Py.round latest 4;
                 trend := Py.round (((latest - prev) / prev) * 100)%float 2 |}.

(** The number of items in the sections of [results]. *)
Definition count_items (results : Py.dict (list Item)) : nat :=
  fold_right (fun entry n => (List.length (snd entry) + n)%nat) 0%nat results.

(** The number of tickers of the categories. *)
Definition count_tickers (categories : Py.dict (Py.dict string)) : nat :=
  fold_right (fun entry n => (List.length (snd entry) + n)%nat) 0%nat categories.

(** The codes of the entries of [bounds_rejected]. *)
Definition rejected_codes (a : AuditInfo) : list string :=
  map Scraper.code (bounds_rejected a).

(** The counters and lists of the loop once the codes [done] have had
    their turn: every code asked for is counted once, as fetched or as
    failed, and every fetched one as validated or as rejected. *)
Record tally (done : list string) (st : Scraper.State) : Prop := {
  tally_total : total_requested (audit st) = 33%nat;
  tally_fetched :
    fetched (audit st)
    = (validated (audit st) + List.length (bounds_rejected (audit st)))%nat;
  tally_asked :
    (fetched (audit st) + List.length (fetch_failed (audit st)))%nat
    = List.length (filter (fun c => negb (String.eqb c "USD")) done);
  tally_rates : List.length (Scraper.rates st) = S (validated (audit st));
  tally_keys : NoDup (Py.keys (Scraper.rates st));
  tally_covered :
    forall code, In code done -> code <> "USD" ->
                 In code (Py.keys (Scraper.rates st))
                 \/ In code (rejected_codes (audit st))
                 \/ In code (fetch_failed (audit st));
  tally_apart :
    forall code, In code (rejected_codes (audit st)) ->
                 ~ In code (fetch_failed (audit st))
}.

(** The downloads a turn of the loop over the registry may make are
    those of one currency, none for the base. *)
Definition weight (code : string) : nat :=
  if String.eqb code "USD" then 0%nat else 1%nat.

(** The same world with another ECB feed. *)
Definition with_feed (feed : option (list (string * float))) (w : World) : World :=
  {| provider := provider w; Scraper.ecb_xml := feed;
     calls := calls w; trace := trace w |}.

Definition state_with_feed (feed : option (list (string * float)))
    (st : Scraper.State) : Scraper.State :=
  {| Scraper.rates := Scraper.rates st; audit := audit st;
     world := with_feed feed (world st) |}.

(** The entry the cross-check of the scraper records under [code], from
    the reference rates and the accepted rates: none for the base, for
    a code without an accepted rate or without a positive reference,
    and for a deviation that is not above 2 %. *)
Definition deviation_entry (ecb_rates rates : Py.dict float) (code : string)
    : option Deviation :=
  if String.eqb code "USD" then None
  else
    match Py.get rates code, Py.get ecb_rates code with
    | Some scraped_rate, Some ecb_rate =>
        if Py.truthy ecb_rate && (0 <? ecb_rate)%float then
          let dev := (abs (scraped_rate - ecb_rate) / ecb_rate * 100)%float in
          if (2 <? dev)%float then
            Some {| scraped := scraped_rate;
                    ecb := Py.round ecb_rate 4;
                    deviation_pct := Py.round dev 2 |}
          else None
        else None
    | _, _ => None
    end.

(** [l] is [l'] with some elements left out, the order kept. *)
Inductive Subseq {A : Type} : list A -> list A -> Prop :=
| Subseq_nil : Subseq [] []
| Subseq_skip x l l' : Subseq l l' -> Subseq l (x :: l')
| Subseq_keep x l l' : Subseq l l' -> Subseq (x :: l) (x :: l').

(** The provider answered a download of [ticker], made between the
    states [w] and [w'], with a frame of which [fetch_with_retry] makes
    the quote [q]. *)
Definition served (w w' : World) (ticker : string) (q : Quote) : Prop :=
  exists n closes,
    (calls w <= n < calls w')%nat
    /\ provider w n ticker = Frame closes
    /\ quote_of closes = Some q.

(** The ticker and the label an item was built for. *)
Definition entry_of (item : Item) : string * string :=
  (item_ticker item, item_name item).

(** An item of the section of [category], built between [w] and [w']. *)
Definition item_from (category : string) (w w' : World) (item : Item) : Prop :=
  item_currency item = get_or_none CURRENCY_MAP category
  /\ item_unit item = get_or_none UNIT_MAP (item_ticker item)
  /\ served w w' (item_ticker item)
       {| price := item_price item; trend := item_trend item |}.

(** What holds of the items and the world of [build_section] once the
    tickers [done] have had their turn. *)
Definition section_inv (category : string) (w0 : World) (done : Py.dict string)
    (acc : list Item * World) : Prop :=
  costs w0 (snd acc) (3 * List.length done) (6 * Z.of_nat (List.length done))
  /\ Subseq (map entry_of (fst acc)) done
  /\ Forall (item_from category w0 (snd acc)) (fst acc).

(** The provider raises on every download. *)
Definition provider_down (w : World) : Prop :=
  forall n ticker, provider w n ticker = Raised.

(** The variables of [main] when its loop over [TICKERS] is over. *)
Definition sections_of (menv : MainEnv) (w : World) : Sections :=
  fold_left main_one TICKERS
    {| results := []; total := 0%nat;
       lines := [LineBanner; LineStarted (started menv)];
       sections_world := w |}.

(** What [main] does once its loop is over. *)
Definition main_finish (menv : MainEnv) (acc : Sections) : MainResult :=
  let results := results acc in
  let total := total acc in
  let '((exchanger_rates, exchanger_audit), w) :=
    fetch_exchanger_rates (sections_world acc) in
  let output :=
    {| out_last_update := now menv;
       out_totalItems := total;
       out_indices := section_of results "indices";
       out_currencies := section_of results "currencies";
       out_energy := section_of results "energy";
       out_metals := section_of results "metals";
       out_agriculture := section_of results "agriculture";
       out_rates := exchanger_rates;
       out_exchanger_audit := exchanger_audit |} in
  let out := lines acc
             ++ [LineSaved total (List.length exchanger_rates) (out_path menv)] in
  if (total =? 0)%nat then
    {| written := output; console := out ++ [LineNoData];
       exit_status := 1; main_world := w |}
  else if (validated exchanger_audit <? 10)%nat then
    {| written := output;
       console := out ++ [LineTooFewRates (validated exchanger_audit)];
       exit_status := 1; main_world := w |}
  else
    {| written := output; console := out; exit_status := 0; main_world := w |}.

(** The items of the five sections of a document. *)
Definition section_items (out : Output) : nat :=
  (List.length (out_indices out) + List.length (out_currencies out)
   + List.length (out_energy out) + List.length (out_metals out)
   + List.length (out_agriculture out))%nat.

(** The document [main] wrote, as the audit loads it: the JSON text
    gives back the floats, the integers and the texts it was made
    of. *)
Definition stored (out : Output) : MarketData :=
  {| Audit.last_update := out_last_update out;
     Audit.rates := out_rates out;
     exchanger_audit := Some (out_exchanger_audit out) |}.

(** The environment of an audit that finds the document [out] in the
    stored file. *)
Definition reading (out : Output) (env : Env) : Env :=
  {| MARKET_DATA := MARKET_DATA env;
     market_data := Some (stored out);
     strptime := strptime env;
     clock := clock env;
     now_iso := now_iso env;
     Audit.ecb_xml := Audit.ecb_xml env |}.

(** The check the audit records when the scraper reports no failure
    and no rejection. *)
Definition scraper_audit_pass : Check :=
  mk_check "scraper_audit" PASS "No scraper-level issues".

Definition example_main_env : Scraper.MainEnv :=
  {| Scraper.started := "2026-02-01T10:00:00+00:00";
     now := "2026-02-01T10:03:00+00:00";
     out_path := "/srv/Backend/market_data.json" |}.

(** Has every currency of the registry, the base apart, bounds in the
    table of the audit? *)
Definition registry_has_bounds : bool :=
  forallb (fun code => String.eqb code "USD" || Py.contains Audit.RATE_BOUNDS code)
    (Py.keys EXCHANGER_PAIRS).

End ScraperVocabulary.

(** * Properties *)

(** ** Dictionaries *)

Section DictFacts.
Context {V : Type}.
Implicit Types (d : Py.dict V) (k : string) (v : V).

Lemma get_set_same d k v : Py.get (Py.set d k v) k = Some v.
Proof.
  induction d as [|[k' v'] d IH]; simpl.
  - now rewrite String.eqb_refl.
  - destruct (String.eqb k k') eqn:E; simpl; rewrite E; auto.
Qed.

Lemma get_set_other d k k' v :
  k' <> k -> Py.get (Py.set d k v) k' = Py.get d k'.
Proof.
  intros Hne. induction d as [|[k0 v0] d IH]; simpl.
  - apply String.eqb_neq in Hne. now rewrite Hne.
  - destruct (String.eqb k k0) eqn:E; simpl.
    + apply String.eqb_eq in E. subst k0.
      apply String.eqb_neq in Hne. now rewrite Hne.
    + destruct (String.eqb k' k0); auto.
Qed.

Lemma get_none_not_in d k : Py.get d k = None <-> ~ In k (Py.keys d).
Proof.
  induction d as [|[k' v'] d IH]; simpl.
  - tauto.
  - destruct (String.eqb k k') eqn:E.
    + apply String.eqb_eq in E. subst. split; [discriminate | tauto].
    + apply String.eqb_neq in E. rewrite IH. split.
      * intros H [H1 | H1]; [congruence | tauto].
      * tauto.
Qed.

Lemma get_in d k v : Py.get d k = Some v -> In (k, v) d.
Proof.
  induction d as [|[k' v'] d IH]; simpl; [discriminate|].
  destruct (String.eqb k k') eqn:E.
  - apply String.eqb_eq in E. intros [= ->]. subst. now left.
  - intros H. right. auto.
Qed.

Lemma in_get d k v : NoDup (Py.keys d) -> In (k, v) d -> Py.get d k = Some v.
Proof.
  induction d as [|[k' v'] d IH]; simpl; [tauto|].
  intros Hnd [[= -> ->] | Hin].
  - now rewrite String.eqb_refl.
  - inversion Hnd as [|? ? Hk Hnd']; subst.
    destruct (String.eqb k k') eqn:E.
    + apply String.eqb_eq in E. subst k'. exfalso. apply Hk.
      change (In (fst (k, v)) (map fst d)). now apply in_map.
    + auto.
Qed.

Lemma keys_set_in d k v : In k (Py.keys d) -> Py.keys (Py.set d k v) = Py.keys d.
Proof.
  induction d as [|[k' v'] d IH]; simpl; [tauto|].
  intros H. destruct (String.eqb k k') eqn:E; simpl; [reflexivity|].
  f_equal. apply IH. destruct H as [H | H]; [|exact H].
  apply String.eqb_neq in E. congruence.
Qed.

Lemma keys_set_new d k v :
  ~ In k (Py.keys d) -> Py.keys (Py.set d k v) = Py.keys d ++ [k].
Proof.
  induction d as [|[k' v'] d IH]; simpl; [reflexivity|].
  intros H. destruct (String.eqb k k') eqn:E; simpl.
  - apply String.eqb_eq in E. subst. tauto.
  - f_equal. apply IH. tauto.
Qed.

Lemma is_empty_nil d : Py.is_empty d = true <-> d = [].
Proof. destruct d; simpl; split; congruence. Qed.

End DictFacts.

Lemma distinct_NoDup l : distinct l = true -> NoDup l.
Proof.
  induction l as [|k l IH]; simpl; [constructor|].
  intros H. apply andb_true_iff in H as [Hk Hl].
  constructor; [|auto].
  intros Hin. apply negb_true_iff in Hk.
  assert (existsb (String.eqb k) l = true); [|congruence].
  apply existsb_exists. exists k. split; [exact Hin | apply String.eqb_refl].
Qed.

(** The codes of the registry are pairwise distinct, as the keys of a
    dictionary are. *)
Lemma EXCHANGER_PAIRS_NoDup : NoDup (Py.keys Scraper.EXCHANGER_PAIRS).
Proof. apply distinct_NoDup. vm_compute. reflexivity. Qed.

Section AuditProperties.

Import Audit.

(** ** The audit: how the flags follow the checks *)

Lemma flags_new_state env : flags_mirror_checks (new_state env).
Proof. split; reflexivity. Qed.

Lemma flags_add_check name st det s :
  flags_mirror_checks s -> flags_mirror_checks (add_check name st det s).
Proof.
  intros [Hc Hw]. unfold flags_mirror_checks, add_check. simpl.
  rewrite existsb_app, filter_app, length_app. simpl.
  unfold is_critical at 2, is_warning at 2. simpl.
  destruct st; simpl; rewrite ?orb_false_r, ?orb_true_r; split; auto; lia.
Qed.

Lemma flags_set_details d s :
  flags_mirror_checks s -> flags_mirror_checks (set_details d s).
Proof. intros H. exact H. Qed.

Lemma flags_set_summary sm s :
  flags_mirror_checks s -> flags_mirror_checks (set_summary sm s).
Proof. intros H. exact H. Qed.

Lemma flags_set_status st s :
  flags_mirror_checks s -> flags_mirror_checks (set_status st s).
Proof. intros H. exact H. Qed.

Create HintDb audit_flags.
#[local] Hint Resolve flags_new_state flags_add_check flags_set_details
  flags_set_summary flags_set_status : audit_flags.

Lemma flags_check_freshness env data s :
  flags_mirror_checks s -> flags_mirror_checks (check_freshness env data s).
Proof.
  intros H. unfold check_freshness.
  destruct (parse_last_update env (last_update data)); [|auto with audit_flags].
  destruct (PrimFloat.ltb _ _); auto with audit_flags.
Qed.

Lemma flags_check_minimum_count rates s :
  flags_mirror_checks s -> flags_mirror_checks (check_minimum_count rates s).
Proof.
  intros H. unfold check_minimum_count.
  destruct (Nat.ltb _ _); auto with audit_flags.
Qed.

Lemma flags_check_usd_base rates s :
  flags_mirror_checks s -> flags_mirror_checks (check_usd_base rates s).
Proof.
  intros H. unfold check_usd_base.
  destruct (usd_differs _); auto with audit_flags.
Qed.

Lemma flags_check_required rates s :
  flags_mirror_checks s -> flags_mirror_checks (check_required rates s).
Proof.
  intros H. unfold check_required.
  destruct (filter _ _); auto with audit_flags.
Qed.

Lemma flags_check_bounds rates s :
  flags_mirror_checks s -> flags_mirror_checks (snd (check_bounds rates s)).
Proof.
  intros H. unfold check_bounds.
  destruct (fold_left bounds_one rates _) as [[|v vs] details]; simpl;
    auto with audit_flags.
Qed.

Lemma flags_check_ecb env rates s :
  flags_mirror_checks s -> flags_mirror_checks (check_ecb env rates s).
Proof.
  intros H. unfold check_ecb.
  destruct (Py.is_empty _); [auto with audit_flags|].
  destruct (cross_errors _); [destruct (cross_warnings _)|];
    auto with audit_flags.
Qed.

Lemma flags_check_scraper_audit data s :
  flags_mirror_checks s -> flags_mirror_checks (check_scraper_audit data s).
Proof.
  intros H. unfold check_scraper_audit.
  destruct (exchanger_audit data) as [a|]; [|exact H].
  destruct (Scraper.fetch_failed a), (Scraper.bounds_rejected a);
    auto with audit_flags.
Qed.

#[local] Hint Resolve flags_check_freshness flags_check_minimum_count
  flags_check_usd_base flags_check_required flags_check_bounds
  flags_check_ecb flags_check_scraper_audit : audit_flags.

Lemma final_status_overall s :
  flags_mirror_checks s -> final_status s = overall_status (checks (report s)).
Proof.
  intros [Hc Hw]. unfold final_status, overall_status.
  rewrite <- Hc. destruct (critical s); [reflexivity|].
  rewrite Hw.
  destruct (existsb is_warning (checks (report s))) eqn:E.
  - apply existsb_exists in E as [c [Hin Hc']].
    assert (In c (filter is_warning (checks (report s))))
      by (apply filter_In; auto).
    destruct (filter is_warning (checks (report s))); [contradiction|reflexivity].
  - destruct (filter is_warning (checks (report s))) as [|c l] eqn:F; [reflexivity|].
    assert (In c (filter is_warning (checks (report s)))) as Hin
      by (rewrite F; now left).
    apply filter_In in Hin as [Hin Hw'].
    assert (existsb is_warning (checks (report s)) = true)
      by (apply existsb_exists; eauto).
    congruence.
Qed.

(** The state [run_audit] ends in, before [report] is taken from it. *)
Lemma run_audit_flags env :
  exists s, run_audit env = report s /\ flags_mirror_checks s
            /\ report_status (report s) = final_status s.
Proof.
  unfold run_audit.
  destruct (load_market_data env) as [data|].
  - destruct (Py.is_empty (rates data)).
    + eexists. split; [reflexivity|]. split; [auto 10 with audit_flags|].
      reflexivity.
    + destruct (check_bounds _ _) as [bv s7] eqn:E7.
      eexists. split; [reflexivity|]. split; [|reflexivity].
      assert (flags_mirror_checks s7).
      { change s7 with (snd (bv, s7)). rewrite <- E7. auto 10 with audit_flags. }
      auto 10 with audit_flags.
  - eexists. split; [reflexivity|]. split; [auto with audit_flags|].
    reflexivity.
Qed.

Lemma report_status_overall env :
  report_status (run_audit env) = overall_status (checks (run_audit env)).
Proof.
  destruct (run_audit_flags env) as [s [-> [Hf Hst]]].
  rewrite Hst. now apply final_status_overall.
Qed.

(** C1. Whatever the audit reads, the status of its report is CRITICAL
    when at least one recorded check is CRITICAL, otherwise WARNING when
    at least one is WARNING, otherwise PASS; so one CRITICAL check makes
    the report CRITICAL whatever the other checks are. *)
Theorem run_audit_status_aggregates :
  forall env,
    report_status (run_audit env) = overall_status (checks (run_audit env))
    /\ forall c, In c (checks (run_audit env)) -> status c = CRITICAL ->
                 report_status (run_audit env) = CRITICAL.
Proof.
  intros env. pose proof (report_status_overall env) as H.
  split; [exact H|].
  intros c Hin Hc. rewrite H. unfold overall_status.
  assert (existsb is_critical (checks (run_audit env)) = true) as ->; [|reflexivity].
  apply existsb_exists. exists c. split; [exact Hin|].
  unfold is_critical. now rewrite Hc.
Qed.

Lemma run_audit_status_aggregates_witness :
  report_status (run_audit eur_off_env) = CRITICAL.
Proof.
  apply (proj2 (run_audit_status_aggregates eur_off_env)
           (mk_check "ecb_cross_check" CRITICAL "Critical deviations: EUR(15.0%)")).
  - vm_compute. do 7 right. left. reflexivity.
  - reflexivity.
Defined.

(** ** The audit: the checks a run records *)

Lemma extends_add_check name st det s :
  extends s (add_check name st det s) [mk_check name st det].
Proof. reflexivity. Qed.

Lemma extends_trans s1 s2 s3 l1 l2 :
  extends s1 s2 l1 -> extends s2 s3 l2 -> extends s1 s3 (l1 ++ l2).
Proof. unfold extends. intros H1 H2. now rewrite H2, H1, app_assoc. Qed.

Lemma extends_check_freshness env data s :
  exists c, check c = "freshness" /\ extends s (check_freshness env data s) [c].
Proof.
  unfold check_freshness.
  destruct (parse_last_update env (last_update data)).
  - destruct (PrimFloat.ltb _ _); eexists; (split; [|apply extends_add_check]);
      reflexivity.
  - eexists; (split; [|apply extends_add_check]); reflexivity.
Qed.

Lemma extends_check_minimum_count rates s :
  exists c, check c = "minimum_count" /\ extends s (check_minimum_count rates s) [c].
Proof.
  unfold check_minimum_count.
  destruct (Nat.ltb _ _); eexists; (split; [|apply extends_add_check]);
    reflexivity.
Qed.

Lemma extends_check_usd_base rates s :
  extends s (check_usd_base rates s) [usd_check rates].
Proof.
  unfold check_usd_base, usd_check, usd_differs, str_usd.
  destruct (Py.get rates "USD") as [v|]; [|apply extends_add_check].
  destruct (PrimFloat.eqb v 1); apply extends_add_check.
Qed.

Lemma extends_check_required rates s :
  exists c, check c = "required_currencies"
            /\ extends s (check_required rates s) [c].
Proof.
  unfold check_required.
  destruct (filter _ _); eexists; (split; [|apply extends_add_check]);
    reflexivity.
Qed.

Lemma extends_check_bounds rates s :
  exists c, check c = "bounds_validation"
            /\ extends s (snd (check_bounds rates s)) [c].
Proof.
  unfold check_bounds.
  destruct (fold_left bounds_one rates _) as [[|v vs] details]; simpl;
    eexists; (split; [|unfold extends; simpl; reflexivity]); reflexivity.
Qed.

(** The two lists of check 8 hold the deviations above each threshold,
    in the order of the stored rates. *)
Lemma cross_fold_lists ecb_rates rates :
  forall acc,
    let acc' := fold_left (cross_one ecb_rates) rates acc in
    let devs := compared ecb_rates rates in
    cross_errors acc' = cross_errors acc ++ map show (filter (exceeds 10) devs)
    /\ cross_warnings acc'
       = cross_warnings acc
           ++ map show (filter (fun d => negb (exceeds 10 d) && exceeds 3 d) devs).
Proof.
  induction rates as [|[code rate] rates IH]; intros acc; simpl.
  - now rewrite !app_nil_r.
  - specialize (IH (cross_one ecb_rates acc (code, rate))).
    simpl in IH. destruct IH as [IHe IHw]. rewrite IHe, IHw. clear IHe IHw.
    destruct (String.eqb code "USD"); [split; reflexivity|].
    destruct (Py.get ecb_rates code) as [ecb_rate|]; [|split; reflexivity].
    destruct (Py.truthy ecb_rate && (0 <? ecb_rate)%float); [|split; reflexivity].
    destruct (Py.setdefault _ _ _) as [entry details].
    rewrite !filter_app, !map_app.
    unfold deviation, CRITICAL_DEVIATION_PCT, WARN_DEVIATION_PCT.
    set (dev := (abs (rate - ecb_rate) / ecb_rate * 100)%float).
    change (10 <? dev)%float with (exceeds 10 (code, dev)).
    change (3 <? dev)%float with (exceeds 3 (code, dev)).
    cbn [filter].
    destruct (exceeds 10 (code, dev));
      cbn [negb andb cross_errors cross_warnings map app].
    + rewrite <- !app_assoc. split; reflexivity.
    + destruct (exceeds 3 (code, dev)); cbn [map app cross_errors cross_warnings];
        rewrite <- ?app_assoc; split; reflexivity.
Qed.

Lemma filter_warn_when_no_error (devs : list (string * float)) :
  filter (exceeds 10) devs = [] ->
  filter (fun d => negb (exceeds 10 d) && exceeds 3 d) devs = filter (exceeds 3) devs.
Proof.
  induction devs as [|d devs IH]; simpl; [reflexivity|].
  destruct (exceeds 10 d); [discriminate|]. simpl.
  intros H. rewrite (IH H). reflexivity.
Qed.

Lemma extends_check_ecb env rates s :
  extends s (check_ecb env rates s) [ecb_check env rates].
Proof.
  unfold check_ecb, ecb_check.
  destruct (Py.is_empty (fetch_ecb_rates env)); [apply extends_add_check|].
  match goal with |- context [fold_left _ _ ?a] => set (acc := a) end.
  destruct (cross_fold_lists (fetch_ecb_rates env) rates acc) as [He Hw].
  cbv zeta in He, Hw. unfold cross_check_outcome.
  set (acc' := fold_left (cross_one (fetch_ecb_rates env)) rates acc) in *.
  rewrite He, Hw. cbn [cross_errors cross_warnings acc app].
  destruct (filter (exceeds 10) _) as [|e es] eqn:Ee.
  - rewrite (filter_warn_when_no_error _ Ee).
    destruct (filter (exceeds 3) _) as [|w ws]; cbn [map];
      unfold extends; reflexivity.
  - unfold extends; reflexivity.
Qed.

Lemma extends_check_scraper_audit data s :
  extends s (check_scraper_audit data s) (scraper_checks data).
Proof.
  unfold check_scraper_audit, scraper_checks, extends.
  destruct (exchanger_audit data) as [a|]; [|now rewrite app_nil_r].
  destruct (Scraper.fetch_failed a), (Scraper.bounds_rejected a); simpl;
    rewrite <- ?app_assoc, ?app_nil_r; reflexivity.
Qed.

(** The checks of a run that finds the file and a non-empty rate
    mapping. *)
Lemma run_audit_checks env data :
  load_market_data env = Some data ->
  Py.is_empty (rates data) = false ->
  exists c2 c4 c6 c7,
    check c2 = "freshness" /\ check c4 = "minimum_count"
    /\ check c6 = "required_currencies" /\ check c7 = "bounds_validation"
    /\ checks (run_audit env)
       = [mk_check "file_exists" PASS ""; c2;
          mk_check "rates_present" PASS
            (Py.str_nat (List.length (rates data)) ++ " rates found");
          c4; usd_check (rates data); c6; c7; ecb_check env (rates data)]
         ++ scraper_checks data.
Proof.
  intros Hload Hne. unfold run_audit. rewrite Hload, Hne.
  set (s1 := add_check "file_exists" PASS "" (new_state env)).
  destruct (extends_check_freshness env data s1) as [c2 [N2 E2]].
  set (s2 := check_freshness env data s1) in *.
  set (s3 := add_check "rates_present" PASS _ s2).
  destruct (extends_check_minimum_count (rates data) s3) as [c4 [N4 E4]].
  set (s4 := check_minimum_count (rates data) s3) in *.
  pose proof (extends_check_usd_base (rates data) s4) as E5.
  set (s5 := check_usd_base (rates data) s4) in *.
  destruct (extends_check_required (rates data) s5) as [c6 [N6 E6]].
  set (s6 := check_required (rates data) s5) in *.
  destruct (extends_check_bounds (rates data) s6) as [c7 [N7 E7]].
  destruct (check_bounds (rates data) s6) as [bv s7]. simpl in E7.
  pose proof (extends_check_ecb env (rates data) s7) as E8.
  set (s8 := check_ecb env (rates data) s7) in *.
  pose proof (extends_check_scraper_audit data s8) as E9.
  set (s9 := check_scraper_audit data s8) in *.
  exists c2, c4, c6, c7. repeat (split; [assumption|]).
  simpl. unfold extends in *.
  rewrite E9, E8, E7, E6, E5, E4. subst s3. simpl. rewrite E2. subst s1. simpl.
  rewrite <- ?app_assoc. reflexivity.
Qed.

(** C2. The audit stops early in exactly two cases.  Without the stored
    file the report is CRITICAL and its only check is file_exists,
    CRITICAL.  With the file but an empty rate mapping the report is
    CRITICAL and its last check is rates_present, CRITICAL, right after
    file_exists and freshness.  In every other case the eight checks up
    to the ECB cross-check are all recorded, in order, followed by those
    on the scraper's own audit data. *)
Theorem run_audit_short_circuits :
  forall env,
    match load_market_data env with
    | None =>
        report_status (run_audit env) = CRITICAL
        /\ checks (run_audit env)
           = [mk_check "file_exists" CRITICAL (MARKET_DATA env ++ " not found")]
    | Some data =>
        if Py.is_empty (rates data) then
          report_status (run_audit env) = CRITICAL
          /\ exists fresh,
               check fresh = "freshness"
               /\ checks (run_audit env)
                  = [mk_check "file_exists" PASS ""; fresh;
                     mk_check "rates_present" CRITICAL
                       "No 'rates' block in market_data.json"]
        else
          map check (checks (run_audit env))
          = ["file_exists"; "freshness"; "rates_present"; "minimum_count";
             "usd_base"; "required_currencies"; "bounds_validation";
             "ecb_cross_check"]
            ++ map check (scraper_checks data)
    end.
Proof.
  intros env.
  destruct (load_market_data env) as [data|] eqn:Hload.
  - destruct (Py.is_empty (rates data)) eqn:Hne.
    + unfold run_audit. rewrite Hload, Hne. split; [reflexivity|].
      set (s1 := add_check "file_exists" PASS "" (new_state env)).
      destruct (extends_check_freshness env data s1) as [c2 [N2 E2]].
      exists c2. split; [exact N2|].
      simpl. unfold extends in E2. rewrite E2. reflexivity.
    + destruct (run_audit_checks env data Hload Hne)
        as [c2 [c4 [c6 [c7 [N2 [N4 [N6 [N7 E]]]]]]]].
      rewrite E, map_app. simpl. rewrite N2, N4, N6, N7.
      f_equal. unfold usd_check, ecb_check, cross_check_outcome.
      destruct (Py.get (rates data) "USD") as [v|];
        [destruct (PrimFloat.eqb v 1)|];
        (destruct (Py.is_empty (fetch_ecb_rates env));
         [reflexivity|];
         destruct (filter (exceeds 10) _);
         [destruct (filter (exceeds 3) _)|]; reflexivity).
  - unfold run_audit. rewrite Hload. split; reflexivity.
Qed.

(** ** The audit: the ECB cross-check *)

(** A run that gets as far as check 8 records it once, as [ecb_check]
    says, and check 5 as [usd_check] says. *)
Lemma run_audit_lookup env data :
  load_market_data env = Some data ->
  Py.is_empty (rates data) = false ->
  lookup_check "usd_base" (run_audit env) = Some (usd_check (rates data))
  /\ lookup_check "ecb_cross_check" (run_audit env)
     = Some (ecb_check env (rates data))
  /\ forall c, In c (checks (run_audit env)) ->
               check c = "ecb_cross_check" -> c = ecb_check env (rates data).
Proof.
  intros Hload Hne.
  destruct (run_audit_checks env data Hload Hne)
    as [c2 [c4 [c6 [c7 [N2 [N4 [N6 [N7 E]]]]]]]].
  assert (check (usd_check (rates data)) = "usd_base") as N5.
  { unfold usd_check. destruct (Py.get _ _) as [v|];
      [destruct (PrimFloat.eqb v 1)|]; reflexivity. }
  assert (check (ecb_check env (rates data)) = "ecb_cross_check") as N8.
  { unfold ecb_check, cross_check_outcome.
    destruct (Py.is_empty (fetch_ecb_rates env)); [reflexivity|].
    destruct (filter (exceeds 10) _); [destruct (filter (exceeds 3) _)|];
      reflexivity. }
  unfold lookup_check. rewrite E. cbn [app find check mk_check].
  rewrite N2, N4, N5, N6, N7, N8. cbn.
  repeat split.
  intros c Hin Hc.
  repeat (destruct Hin as [<- | Hin];
          [ try reflexivity; cbn in Hc; congruence |]).
  exfalso. revert Hin Hc. unfold scraper_checks.
  destruct (exchanger_audit data) as [a|]; [|intros []].
  destruct (Scraper.fetch_failed a), (Scraper.bounds_rejected a); cbn;
    intros Hin Hc;
    repeat (destruct Hin as [<- | Hin]; [cbn in Hc; discriminate|]);
    exact Hin.
Qed.

Lemma set_not_nil {V : Type} (d : Py.dict V) k v : Py.set d k v <> [].
Proof. destruct d as [|[k' v'] d]; simpl; [|destruct (String.eqb k k')]; discriminate. Qed.

Lemma fold_to_usd_not_nil eur_usd items :
  forall d, d <> [] -> fold_left (Audit.to_usd eur_usd) items d <> [].
Proof.
  induction items as [|[code val] items IH]; intros d Hd; simpl; [exact Hd|].
  apply IH. destruct (String.eqb code "USD"); simpl; [exact Hd|].
  apply set_not_nil.
Qed.

(** When the reference set is empty: the request or the parse failed, or
    the feed has no positive USD entry to convert with (as when it has
    no entry at all). *)
Lemma fetch_ecb_rates_empty env :
  fetch_ecb_rates env = [] <->
  match ecb_xml env with
  | None => True
  | Some cubes =>
      match Py.get (Scraper.eur_rates_of cubes) "USD" with
      | Some eur_usd => (eur_usd <=? 0)%float = true
      | None => True
      end
  end.
Proof.
  unfold fetch_ecb_rates, Scraper.eur_rates_of.
  destruct (ecb_xml env) as [cubes|]; [|tauto].
  set (eur_rates := fold_left _ cubes _).
  destruct (Py.get eur_rates "USD") as [eur_usd|].
  - destruct (eur_usd <=? 0)%float; [tauto|].
    split; [|discriminate]. intros H. exfalso.
    revert H. apply fold_to_usd_not_nil. discriminate.
  - replace (0 <=? 0)%float with true by reflexivity. tauto.
Qed.

(** C6. When the ECB request fails, or the feed comes back empty, or the
    reference set is empty for any other reason, a run that gets to the
    cross-check records it as WARNING, "skipped"; no check under that
    name is CRITICAL, and a CRITICAL report then owes its status to
    another check. *)
Theorem ecb_unavailable_is_a_warning :
  forall env data,
    load_market_data env = Some data ->
    Py.is_empty (rates data) = false ->
    ecb_xml env = None \/ ecb_xml env = Some [] \/ fetch_ecb_rates env = [] ->
    lookup_check "ecb_cross_check" (run_audit env)
    = Some (mk_check "ecb_cross_check" WARNING "ECB data unavailable — skipped")
    /\ (forall c, In c (checks (run_audit env)) ->
                  check c = "ecb_cross_check" -> status c = WARNING)
    /\ (report_status (run_audit env) = CRITICAL ->
        exists c, In c (checks (run_audit env))
                  /\ check c <> "ecb_cross_check" /\ status c = CRITICAL).
Proof.
  intros env data Hload Hne Hfeed.
  assert (fetch_ecb_rates env = []) as Hempty.
  { destruct Hfeed as [H | [H | H]]; [| |exact H];
      apply fetch_ecb_rates_empty; rewrite H; [exact I|].
    cbn. reflexivity. }
  destruct (run_audit_lookup env data Hload Hne) as [_ [Hlook Huniq]].
  assert (ecb_check env (rates data)
          = mk_check "ecb_cross_check" WARNING "ECB data unavailable — skipped")
    as Hcheck by (unfold ecb_check; rewrite Hempty; reflexivity).
  rewrite Hcheck in Hlook, Huniq.
  assert (forall c, In c (checks (run_audit env)) ->
                    check c = "ecb_cross_check" -> status c = WARNING) as Hwarn.
  { intros c Hin Hc. rewrite (Huniq c Hin Hc). reflexivity. }
  split; [exact Hlook|]. split; [exact Hwarn|].
  intros Hcrit.
  rewrite report_status_overall in Hcrit. unfold overall_status in Hcrit.
  destruct (existsb is_critical (checks (run_audit env))) eqn:Ex.
  - apply existsb_exists in Ex as [c [Hin Hc]].
    unfold is_critical in Hc.
    destruct (status c) eqn:Hs; try discriminate.
    exists c. split; [exact Hin|]. split; [|exact Hs].
    intros Hname. specialize (Hwarn c Hin Hname). congruence.
  - destruct (existsb is_warning _); discriminate.
Qed.

Lemma ecb_unavailable_is_a_warning_witness :
  lookup_check "ecb_cross_check" (run_audit offline_env)
  = Some (mk_check "ecb_cross_check" WARNING "ECB data unavailable — skipped")
  /\ (forall c, In c (checks (run_audit offline_env)) ->
                check c = "ecb_cross_check" -> status c = WARNING)
  /\ (report_status (run_audit offline_env) = CRITICAL ->
      exists c, In c (checks (run_audit offline_env))
                /\ check c <> "ecb_cross_check" /\ status c = CRITICAL).
Proof.
  apply (ecb_unavailable_is_a_warning offline_env
           {| last_update := "2026-02-01T10:00:00+00:00";
              rates := [("USD", 1.0%float)];
              exchanger_audit := None |}).
  - reflexivity.
  - reflexivity.
  - left. reflexivity.
Defined.

(** What [compared] holds. *)
Lemma in_compared ecb_rates rates code dev :
  In (code, dev) (compared ecb_rates rates) <->
  code <> "USD"
  /\ exists rate ecb_rate,
       In (code, rate) rates
       /\ Py.get ecb_rates code = Some ecb_rate
       /\ Py.truthy ecb_rate && (0 <? ecb_rate)%float = true
       /\ dev = (abs (rate - ecb_rate) / ecb_rate * 100)%float.
Proof.
  unfold compared. rewrite in_flat_map. split.
  - intros [[code' rate] [Hin H]].
    destruct (String.eqb code' "USD") eqn:Eusd; [destruct H|].
    destruct (Py.get ecb_rates code') as [ecb_rate|] eqn:Eget; [|destruct H].
    destruct (Py.truthy ecb_rate && (0 <? ecb_rate)%float) eqn:Epos; [|destruct H].
    destruct H as [[= <- <-] | []].
    split; [now apply String.eqb_neq|].
    exists rate, ecb_rate. auto.
  - intros [Hne [rate [ecb_rate [Hin [Hget [Hpos ->]]]]]].
    exists (code, rate). split; [exact Hin|].
    apply String.eqb_neq in Hne. rewrite Hne, Hget, Hpos. now left.
Qed.

Lemma filter_nil_iff {A : Type} (p : A -> bool) (l : list A) :
  filter p l = [] <-> forall x, In x l -> p x = false.
Proof.
  induction l as [|a l IH]; simpl; [tauto|].
  destruct (p a) eqn:E.
  - split; [discriminate|]. intros H. specialize (H a (or_introl eq_refl)).
    congruence.
  - rewrite IH. split.
    + intros H x [<- | Hx]; auto.
    + intros H x Hx. auto.
Qed.

Lemma filter_cons_iff {A : Type} (p : A -> bool) (l : list A) :
  filter p l <> [] <-> exists x, In x l /\ p x = true.
Proof.
  split.
  - destruct (filter p l) as [|x xs] eqn:E; [congruence|]. intros _.
    exists x. apply filter_In. rewrite E. now left.
  - intros [x Hx] E. apply filter_In in Hx. rewrite E in Hx. exact Hx.
Qed.

(** The status [cross_check_outcome] gives. *)
Lemma cross_check_outcome_status devs :
  (status (cross_check_outcome devs) = CRITICAL
   <-> exists d, In d devs /\ (10 <? snd d)%float = true)
  /\ (status (cross_check_outcome devs) = WARNING
      <-> (forall d, In d devs -> (10 <? snd d)%float = false)
          /\ exists d, In d devs /\ (3 <? snd d)%float = true)
  /\ (status (cross_check_outcome devs) = PASS
      <-> forall d, In d devs ->
            (10 <? snd d)%float = false /\ (3 <? snd d)%float = false).
Proof.
  pose proof (filter_nil_iff (exceeds 10) devs) as N10.
  pose proof (filter_nil_iff (exceeds 3) devs) as N3.
  pose proof (filter_cons_iff (exceeds 10) devs) as C10.
  pose proof (filter_cons_iff (exceeds 3) devs) as C3.
  unfold cross_check_outcome.
  destruct (filter (exceeds 10) devs) as [|e es] eqn:E10;
    rewrite ?E10 in N10, C10; unfold exceeds in N10, C10.
  - destruct (filter (exceeds 3) devs) as [|w ws] eqn:E3;
      rewrite ?E3 in N3, C3; unfold exceeds in N3, C3; cbn [status mk_check].
    + split; [|split].
      * split; [discriminate|]. intros H. apply C10 in H. congruence.
      * split; [discriminate|]. intros [_ H]. apply C3 in H. congruence.
      * split; [|reflexivity]. intros _ d Hd.
        split; [apply N10 | apply N3]; auto.
    + split; [|split].
      * split; [discriminate|]. intros H. apply C10 in H. congruence.
      * split; [|reflexivity]. intros _. split.
        -- apply N10. reflexivity.
        -- apply C3. discriminate.
      * split; [discriminate|]. intros H.
        assert (w :: ws = []) as F; [|discriminate F].
        apply N3. intros x Hx. now apply H.
  - cbn [status mk_check]. split; [|split].
    + split; [|reflexivity]. intros _. apply C10. discriminate.
    + split; [discriminate|]. intros [H _].
      assert (e :: es = []) as F; [|discriminate F]. now apply N10.
    + split; [discriminate|]. intros H.
      assert (e :: es = []) as F; [|discriminate F].
      apply N10. intros x Hx. now apply H.
Qed.

(** C5, as stated, fails on the base currency: USD is in the stored set
    (2.0) and in the converted reference set (1.0), 100 % apart, and the
    cross-check still records PASS. *)
Lemma cross_check_ignores_usd_deviation :
  Py.get (rates wrong_usd_data) "USD" = Some 2.0%float
  /\ Py.get (fetch_ecb_rates wrong_usd_env) "USD" = Some 1.0%float
  /\ deviation 2.0 1.0 = 100%float
  /\ (CRITICAL_DEVIATION_PCT <? deviation 2.0 1.0)%float = true
  /\ lookup_check "ecb_cross_check" (run_audit wrong_usd_env)
     = Some (mk_check "ecb_cross_check" PASS "All rates within 3.0% of ECB").
Proof. vm_compute. repeat split; reflexivity. Qed.

(** C5, amended.  In a run that gets to the cross-check, the check
    recorded is WARNING, skipped, when the converted reference set is
    empty.  Otherwise the currencies compared are the stored ones other
    than USD whose reference rate is there and positive, each with the
    deviation |stored - reference| / reference * 100, and the check is
    CRITICAL, and lists code and deviation of each, when some deviation
    exceeds 10; otherwise WARNING, listing those that exceed 3, when
    there are any; otherwise PASS. *)
Theorem cross_check_of_run :
  forall env data,
    load_market_data env = Some data ->
    Py.is_empty (rates data) = false ->
    let devs := compared (fetch_ecb_rates env) (rates data) in
    (forall code dev,
        In (code, dev) devs <->
        code <> "USD"
        /\ exists rate ecb_rate,
             In (code, rate) (rates data)
             /\ Py.get (fetch_ecb_rates env) code = Some ecb_rate
             /\ Py.truthy ecb_rate && (0 <? ecb_rate)%float = true
             /\ dev = (abs (rate - ecb_rate) / ecb_rate * 100)%float)
    /\ lookup_check "ecb_cross_check" (run_audit env)
       = Some (if Py.is_empty (fetch_ecb_rates env) then
                 mk_check "ecb_cross_check" WARNING
                   "ECB data unavailable — skipped"
               else cross_check_outcome devs)
    /\ (status (cross_check_outcome devs) = CRITICAL
        <-> exists d, In d devs /\ (10 <? snd d)%float = true)
    /\ (status (cross_check_outcome devs) = WARNING
        <-> (forall d, In d devs -> (10 <? snd d)%float = false)
            /\ exists d, In d devs /\ (3 <? snd d)%float = true)
    /\ (status (cross_check_outcome devs) = PASS
        <-> forall d, In d devs ->
              (10 <? snd d)%float = false /\ (3 <? snd d)%float = false)
    /\ (status (cross_check_outcome devs) = CRITICAL ->
        detail (cross_check_outcome devs)
        = ("Critical deviations: "
             ++ Py.join ", " (map show (filter (exceeds 10) devs)))%string)
    /\ (status (cross_check_outcome devs) = WARNING ->
        detail (cross_check_outcome devs)
        = ("Deviations: "
             ++ Py.join ", " (map show (filter (exceeds 3) devs)))%string).
Proof.
  intros env data Hload Hne devs.
  split; [intros code dev; apply in_compared|].
  split.
  { destruct (run_audit_lookup env data Hload Hne) as [_ [H _]].
    rewrite H. unfold ecb_check. reflexivity. }
  destruct (cross_check_outcome_status devs) as [Hc [Hw Hp]].
  repeat (split; [assumption|]).
  unfold cross_check_outcome.
  destruct (filter (exceeds 10) devs) as [|e es].
  - destruct (filter (exceeds 3) devs) as [|w ws]; cbn [status detail mk_check];
      split; intros; try discriminate; reflexivity.
  - cbn [status detail mk_check]. split; intros; try discriminate; reflexivity.
Qed.

Lemma cross_check_of_run_witness :
  lookup_check "ecb_cross_check" (run_audit eur_off_env)
  = Some (mk_check "ecb_cross_check" CRITICAL "Critical deviations: EUR(15.0%)")
  /\ lookup_check "ecb_cross_check" (run_audit offline_env)
     = Some (mk_check "ecb_cross_check" WARNING "ECB data unavailable — skipped").
Proof.
  split.
  - exact (proj1 (proj2 (cross_check_of_run eur_off_env eur_off_data
                           eq_refl eq_refl))).
  - exact (proj1 (proj2 (cross_check_of_run offline_env _ eq_refl eq_refl))).
Defined.

(** ** The audit: the base currency is left out of checks 7 and 8 *)

Lemma fold_left_skips {A B : Type} (f : A -> B -> A) (keep : B -> bool) (l : list B) :
  (forall a b, keep b = false -> f a b = a) ->
  forall a, fold_left f l a = fold_left f (filter keep l) a.
Proof.
  intros Hskip. induction l as [|b l IH]; intros a; simpl; [reflexivity|].
  destruct (keep b) eqn:E; simpl.
  - apply IH.
  - rewrite (Hskip a b E). apply IH.
Qed.

Lemma bounds_fold_without_usd rates acc :
  fold_left bounds_one rates acc = fold_left bounds_one (without_usd rates) acc.
Proof.
  apply fold_left_skips. intros [bv details] [code rate] H. simpl in H.
  apply negb_false_iff in H. unfold bounds_one. now rewrite H.
Qed.

Lemma cross_fold_without_usd ecb_rates rates acc :
  fold_left (cross_one ecb_rates) rates acc
  = fold_left (cross_one ecb_rates) (without_usd rates) acc.
Proof.
  apply fold_left_skips. intros a [code rate] H. simpl in H.
  apply negb_false_iff in H. unfold cross_one. now rewrite H.
Qed.

(** No turn of the two loops writes an entry for USD. *)
Lemma bounds_one_no_usd acc item :
  (Py.get (snd acc) "USD" = None -> Py.get (snd (bounds_one acc item)) "USD" = None)
  /\ (~ In "USD" (fst acc) -> ~ In "USD" (fst (bounds_one acc item))).
Proof.
  destruct acc as [bv details], item as [code rate]. unfold bounds_one.
  destruct (String.eqb code "USD") eqn:E; [tauto|].
  apply String.eqb_neq in E.
  destruct (Py.get RATE_BOUNDS code) as [[lo hi]|];
    [destruct (negb _)|]; cbn [fst snd];
    (split; [intros H; rewrite get_set_other; auto|]); try tauto.
  rewrite in_app_iff. simpl. intuition congruence.
Qed.

Lemma bounds_fold_no_usd rates :
  forall acc,
    (Py.get (snd acc) "USD" = None ->
     Py.get (snd (fold_left bounds_one rates acc)) "USD" = None)
    /\ (~ In "USD" (fst acc) -> ~ In "USD" (fst (fold_left bounds_one rates acc))).
Proof.
  induction rates as [|item rates IH]; intros acc; simpl; [tauto|].
  destruct (IH (bounds_one acc item)) as [IHd IHv].
  destruct (bounds_one_no_usd acc item) as [Hd Hv].
  split; auto.
Qed.

Lemma cross_fold_no_usd ecb_rates rates :
  forall acc,
    Py.get (cross_details acc) "USD" = None ->
    Py.get (cross_details (fold_left (cross_one ecb_rates) rates acc)) "USD" = None.
Proof.
  induction rates as [|[code rate] rates IH]; intros acc Hd; simpl; [auto|].
  apply IH. destruct (String.eqb code "USD") eqn:E; [exact Hd|].
  apply String.eqb_neq in E.
  destruct (Py.get ecb_rates code) as [ecb_rate|]; [|exact Hd].
  destruct (Py.truthy ecb_rate && (0 <? ecb_rate)%float); [|exact Hd].
  assert (forall entry,
             Py.get (let '(e, details) :=
                       Py.setdefault (cross_details acc) code entry in
                     Py.set details code
                       (with_ecb e (Py.round ecb_rate 4)
                          (Py.round (deviation rate ecb_rate) 2))) "USD" = None) as H.
  { intros entry. unfold Py.setdefault.
    destruct (Py.get (cross_details acc) code);
      rewrite !get_set_other; auto. }
  specialize (H {| rate := rate; bounds_status := None; bounds := None;
                   ecb_rate := None; ecb_deviation_pct := None |}).
  destruct (Py.setdefault _ _ _) as [entry details].
  destruct (CRITICAL_DEVIATION_PCT <? _)%float; [exact H|].
  destruct (WARN_DEVIATION_PCT <? _)%float; exact H.
Qed.

Lemma no_usd_add_check name st det s :
  no_usd_detail s -> no_usd_detail (add_check name st det s).
Proof. intros H. exact H. Qed.

Lemma no_usd_check_bounds rates s :
  (no_usd_detail s -> no_usd_detail (snd (check_bounds rates s)))
  /\ ~ In "USD" (fst (check_bounds rates s)).
Proof.
  unfold check_bounds, no_usd_detail.
  destruct (bounds_fold_no_usd rates ([], details_per_currency (report s)))
    as [Hd Hv].
  destruct (fold_left bounds_one rates _) as [[|v vs] details]; simpl in *;
    split; auto.
Qed.

Lemma no_usd_check_ecb env rates s :
  no_usd_detail s -> no_usd_detail (check_ecb env rates s).
Proof.
  intros H. unfold check_ecb.
  destruct (Py.is_empty _); [exact H|].
  match goal with |- context [fold_left _ _ ?a] => set (acc := a) end.
  pose proof (cross_fold_no_usd (fetch_ecb_rates env) rates acc H) as Hd.
  destruct (cross_errors _); [destruct (cross_warnings _)|]; exact Hd.
Qed.

Lemma no_usd_check_scraper_audit data s :
  no_usd_detail s -> no_usd_detail (check_scraper_audit data s).
Proof.
  intros H. unfold check_scraper_audit.
  destruct (exchanger_audit data) as [a|]; [|exact H].
  destruct (Scraper.fetch_failed a), (Scraper.bounds_rejected a); exact H.
Qed.

Lemma no_usd_before_bounds env data :
  no_usd_detail
    (check_required (rates data)
       (check_usd_base (rates data)
          (check_minimum_count (rates data)
             (add_check "rates_present" PASS
                (Py.str_nat (List.length (rates data)) ++ " rates found")
                (check_freshness env data
                   (add_check "file_exists" PASS "" (new_state env))))))).
Proof.
  unfold check_required, check_usd_base, check_minimum_count, check_freshness.
  destruct (filter _ _); destruct (usd_differs _); destruct (Nat.ltb _ _);
    destruct (parse_last_update _ _); try destruct (PrimFloat.ltb _ _);
    reflexivity.
Qed.

Lemma replace_usd_length v rates :
  List.length (replace_usd v rates) = List.length rates.
Proof. apply length_map. Qed.

Lemma replace_usd_contains v rates c :
  Py.contains (replace_usd v rates) c = Py.contains rates c.
Proof.
  unfold Py.contains.
  induction rates as [|[k x] rates IH]; simpl; [reflexivity|].
  destruct (String.eqb k "USD"); simpl; destruct (String.eqb c k); auto.
Qed.

Lemma replace_usd_without_usd v rates :
  without_usd (replace_usd v rates) = without_usd rates.
Proof.
  unfold without_usd.
  induction rates as [|[k x] rates IH]; simpl; [reflexivity|].
  destruct (String.eqb k "USD") eqn:E; simpl; rewrite E; simpl; now rewrite IH.
Qed.

Lemma replace_usd_is_empty v rates :
  Py.is_empty (replace_usd v rates) = Py.is_empty rates.
Proof. destruct rates; reflexivity. Qed.

Lemma agree_add_check name st det s s' :
  agree s s' -> agree (add_check name st det s) (add_check name st det s').
Proof.
  intros [Hc Hd]. split; [|exact Hd].
  simpl. rewrite !filter_app, Hc. reflexivity.
Qed.

Lemma agree_add_usd st det st' det' s s' :
  agree s s' ->
  agree (add_check "usd_base" st det s) (add_check "usd_base" st' det' s').
Proof.
  intros [Hc Hd]. split; [|exact Hd].
  simpl. rewrite !filter_app, Hc. reflexivity.
Qed.

Lemma agree_check_freshness v env data data' s s' :
  last_update data' = last_update data ->
  agree s s' ->
  agree (check_freshness env data s)
        (check_freshness (with_stored_usd v env) data' s').
Proof.
  intros Hl H. unfold check_freshness, parse_last_update. simpl. rewrite Hl.
  destruct (strptime env (last_update data)); [|now apply agree_add_check].
  destruct (PrimFloat.ltb _ _); now apply agree_add_check.
Qed.

Lemma agree_check_minimum_count v rates s s' :
  agree s s' ->
  agree (check_minimum_count rates s)
        (check_minimum_count (replace_usd v rates) s').
Proof.
  intros H. unfold check_minimum_count. rewrite replace_usd_length.
  destruct (Nat.ltb _ _); now apply agree_add_check.
Qed.

Lemma agree_check_usd_base rates rates' s s' :
  agree s s' -> agree (check_usd_base rates s) (check_usd_base rates' s').
Proof.
  intros H. unfold check_usd_base.
  destruct (usd_differs (Py.get rates "USD")),
           (usd_differs (Py.get rates' "USD")); now apply agree_add_usd.
Qed.

Lemma agree_check_required v rates s s' :
  agree s s' ->
  agree (check_required rates s) (check_required (replace_usd v rates) s').
Proof.
  intros H. unfold check_required.
  rewrite (filter_ext (fun c => negb (Py.contains (replace_usd v rates) c))
             (fun c => negb (Py.contains rates c)))
    by (intros c; now rewrite replace_usd_contains).
  destruct (filter _ _); now apply agree_add_check.
Qed.

Lemma agree_check_bounds v rates s s' :
  agree s s' ->
  fst (check_bounds rates s) = fst (check_bounds (replace_usd v rates) s')
  /\ agree (snd (check_bounds rates s))
           (snd (check_bounds (replace_usd v rates) s')).
Proof.
  intros [Hc Hd]. unfold check_bounds.
  rewrite (bounds_fold_without_usd (replace_usd v rates)),
    replace_usd_without_usd, <- bounds_fold_without_usd, <- Hd.
  destruct (fold_left bounds_one rates _) as [[|b bv] details]; simpl;
    (split; [reflexivity|]); apply agree_add_check; split; auto.
Qed.

Lemma agree_check_ecb v env rates s s' :
  agree s s' ->
  agree (check_ecb env rates s)
        (check_ecb (with_stored_usd v env) (replace_usd v rates) s').
Proof.
  intros [Hc Hd]. unfold check_ecb.
  change (fetch_ecb_rates (with_stored_usd v env)) with (fetch_ecb_rates env).
  destruct (Py.is_empty (fetch_ecb_rates env));
    [apply agree_add_check; split; auto|].
  rewrite (cross_fold_without_usd _ (replace_usd v rates)),
    replace_usd_without_usd, <- cross_fold_without_usd, <- Hd.
  destruct (cross_errors _); [destruct (cross_warnings _)|];
    apply agree_add_check; split; auto.
Qed.

Lemma agree_check_scraper_audit data data' s s' :
  exchanger_audit data' = exchanger_audit data ->
  agree s s' ->
  agree (check_scraper_audit data s) (check_scraper_audit data' s').
Proof.
  intros He H. unfold check_scraper_audit. rewrite He.
  destruct (exchanger_audit data) as [a|]; [|exact H].
  destruct (Scraper.fetch_failed a), (Scraper.bounds_rejected a);
    repeat apply agree_add_check; exact H.
Qed.

(** The report of an audit depends on the stored USD rate through the
    base check only. *)
Lemma run_audit_with_stored_usd v env :
  filter not_usd_base (checks (run_audit (with_stored_usd v env)))
  = filter not_usd_base (checks (run_audit env))
  /\ details_per_currency (run_audit (with_stored_usd v env))
     = details_per_currency (run_audit env).
Proof.
  unfold run_audit, load_market_data. cbn [market_data with_stored_usd].
  destruct (market_data env) as [data|]; [|split; reflexivity].
  set (data' := {| last_update := last_update data;
                   rates := replace_usd v (rates data);
                   exchanger_audit := exchanger_audit data |}).
  cbn [rates data']. rewrite replace_usd_is_empty, replace_usd_length.
  assert (agree (add_check "file_exists" PASS "" (new_state env))
                (add_check "file_exists" PASS "" (new_state (with_stored_usd v env))))
    as H1 by (split; reflexivity).
  apply (agree_check_freshness v env data data') in H1; [|reflexivity].
  destruct (Py.is_empty (rates data)).
  - apply (agree_add_check "rates_present" CRITICAL
             "No 'rates' block in market_data.json") in H1.
    destruct H1 as [Hc Hd]. split; [symmetry; exact Hc | symmetry; exact Hd].
  - apply (agree_add_check "rates_present" PASS
             (Py.str_nat (List.length (rates data)) ++ " rates found")) in H1.
    apply (agree_check_minimum_count v (rates data)) in H1.
    apply (agree_check_usd_base (rates data) (replace_usd v (rates data))) in H1.
    apply (agree_check_required v (rates data)) in H1.
    apply (agree_check_bounds v (rates data)) in H1 as [Hbv H1].
    destruct (check_bounds (rates data) _) as [bv s7].
    destruct (check_bounds (replace_usd v (rates data)) _) as [bv' s7'].
    cbn [fst snd] in Hbv, H1.
    apply (agree_check_ecb v env (rates data)) in H1.
    apply (agree_check_scraper_audit data data') in H1; [|reflexivity].
    destruct H1 as [Hc Hd]. split; [symmetry; exact Hc | symmetry; exact Hd].
Qed.

(** C10. Checks 7 and 8 leave the base currency out.  The report never
    has a per-currency entry under USD; the bounds check and the
    cross-check do on any stored rates what they do on those rates
    without the USD entry, so that the stored USD value, whatever it is,
    is no bounds violation and adds no deviation.  Changing the stored
    USD value changes no check of the report but the base check, and no
    per-currency detail. *)
Theorem audit_leaves_usd_out :
  (forall env, Py.get (details_per_currency (run_audit env)) "USD" = None)
  /\ (forall rates s,
         check_bounds rates s = check_bounds (without_usd rates) s
         /\ ~ In "USD" (fst (check_bounds rates s)))
  /\ (forall env rates s,
         check_ecb env rates s = check_ecb env (without_usd rates) s
         /\ compared (fetch_ecb_rates env) rates
            = compared (fetch_ecb_rates env) (without_usd rates))
  /\ (forall v env,
         filter not_usd_base (checks (run_audit (with_stored_usd v env)))
         = filter not_usd_base (checks (run_audit env))
         /\ details_per_currency (run_audit (with_stored_usd v env))
            = details_per_currency (run_audit env)).
Proof.
  split; [|split; [|split; [|exact run_audit_with_stored_usd]]].
  - intros env. unfold run_audit.
    destruct (load_market_data env) as [data|]; [|reflexivity].
    destruct (Py.is_empty (rates data)).
    + unfold check_freshness.
      destruct (parse_last_update _ _); try destruct (PrimFloat.ltb _ _);
        reflexivity.
    + pose proof (no_usd_before_bounds env data) as H6.
      apply (proj1 (no_usd_check_bounds (rates data) _)) in H6.
      destruct (check_bounds (rates data) _) as [bv s7]. simpl in H6.
      apply (no_usd_check_ecb env (rates data)) in H6.
      apply (no_usd_check_scraper_audit data) in H6.
      exact H6.
  - intros rates s. split.
    + unfold check_bounds. now rewrite bounds_fold_without_usd.
    + apply no_usd_check_bounds.
  - intros env rates s. split.
    + unfold check_ecb. now rewrite cross_fold_without_usd.
    + unfold compared, without_usd.
      induction rates as [|[code rate] rates IH]; simpl; [reflexivity|].
      destruct (String.eqb code "USD") eqn:E; simpl; [exact IH|].
      rewrite E. now rewrite IH.
Qed.

End AuditProperties.

Section ScraperProperties.

Import Audit.
Import Scraper.

(** ** The scraper: the retry loop *)

Lemma fetch_price_world code ticker attempts :
  forall delay w,
    let w' := snd (fetch_price code ticker attempts delay w) in
    provider w' = provider w /\ Scraper.ecb_xml w' = Scraper.ecb_xml w
    /\ (calls w <= calls w' <= calls w + List.length attempts)%nat.
Proof.
  induction attempts as [|attempt rest IH]; intros delay w; simpl.
  - repeat split; lia.
  - destruct (provider w (calls w) ticker) as [|[|c closes]].
    + destruct (attempt <? MAX_RETRIES)%nat;
        match goal with |- context [fetch_price _ _ rest ?d ?v] =>
          destruct (IH d v) as [Hp [He Hc]] end;
        simpl in *; rewrite Hp, He; repeat split; lia.
    + destruct (attempt <? MAX_RETRIES)%nat.
      * match goal with |- context [fetch_price _ _ rest ?d ?v] =>
          destruct (IH d v) as [Hp [He Hc]] end.
        simpl in *; rewrite Hp, He; repeat split; lia.
      * simpl. repeat split; lia.
    + destruct (iloc_last (c :: closes) <=? 0)%float.
      * match goal with |- context [fetch_price _ _ rest ?d ?v] =>
          destruct (IH d v) as [Hp [He Hc]] end.
        simpl in *; rewrite Hp, He; repeat split; lia.
      * simpl. repeat split; lia.
Qed.

(** A price the loop returns is a positive last close the provider gave
    during the loop. *)
Lemma fetch_price_quoted code ticker attempts :
  forall delay w price,
    fst (fetch_price code ticker attempts delay w) = Some price ->
    quoted w (snd (fetch_price code ticker attempts delay w)) ticker price.
Proof.
  induction attempts as [|attempt rest IH]; intros delay w price; simpl;
    [discriminate|].
  assert (forall d v,
             provider v = provider w -> calls v = S (calls w) ->
             fst (fetch_price code ticker rest d v) = Some price ->
             quoted w (snd (fetch_price code ticker rest d v)) ticker price)
    as Hnext.
  { intros d v Hp Hc H. destruct (IH d v price H) as [n [closes [Hn [Hq Hr]]]].
    exists n, closes. rewrite Hp in Hq. split; [lia|]. split; assumption. }
  destruct (provider w (calls w) ticker) as [|[|c closes]] eqn:Hans.
  - destruct (attempt <? MAX_RETRIES)%nat; apply Hnext; reflexivity.
  - destruct (attempt <? MAX_RETRIES)%nat; [apply Hnext; reflexivity|].
    discriminate.
  - destruct (iloc_last (c :: closes) <=? 0)%float eqn:Hpos;
      [apply Hnext; reflexivity|].
    simpl. intros H. injection H as Hprice. subst price.
    exists (calls w), (c :: closes). simpl.
    repeat split; try assumption; try lia. discriminate.
Qed.

(** What the loop adds to the trace: at most one download per attempt,
    all of its ticker, and sleeps whose delays start at [delay] and
    double. *)
Lemma fetch_price_trace code ticker attempts :
  forall delay w,
    exists evs k,
      trace (snd (fetch_price code ticker attempts delay w)) = trace w ++ evs
      /\ (List.length (downloads evs) <= List.length attempts)%nat
      /\ (forall t, In t (downloads evs) -> t = ticker)
      /\ sleeps evs = doubling delay k
      /\ (k <= List.length attempts)%nat.
Proof.
  induction attempts as [|attempt rest IH]; intros delay w; simpl.
  - exists [], 0%nat. rewrite app_nil_r. simpl. repeat split; auto. tauto.
  - assert (forall d pre kpre v,
               trace v = trace w ++ Download ticker :: pre ->
               downloads pre = [] ->
               (sleeps pre = [] /\ kpre = 0%nat /\ d = delay
                \/ sleeps pre = [delay] /\ kpre = 1%nat /\ d = (delay * 2)%Z) ->
               exists evs k,
                 trace (snd (fetch_price code ticker rest d v)) = trace w ++ evs
                 /\ (List.length (downloads evs) <= S (List.length rest))%nat
                 /\ (forall t, In t (downloads evs) -> t = ticker)
                 /\ sleeps evs = doubling delay k
                 /\ (k <= S (List.length rest))%nat) as Hnext.
    { intros d pre kpre v Hv Hdl Hsl.
      destruct (IH d v) as [evs [k [Ht [Hn [Hall [Hs Hk]]]]]].
      exists (Download ticker :: pre ++ evs), (kpre + k)%nat.
      split; [rewrite Ht, Hv, <- app_assoc; reflexivity|].
      unfold downloads, sleeps in *.
      cbn [flat_map app]. rewrite !flat_map_app, Hdl, Hs. cbn [app List.length].
      split; [lia|]. split; [intros t [<- | Hin]; auto|].
      split; [|destruct Hsl as [[_ [-> _]] | [_ [-> _]]]; lia].
      destruct Hsl as [[-> [-> ->]] | [-> [-> ->]]]; reflexivity. }
    destruct (provider w (calls w) ticker) as [|[|c closes]].
    + destruct (attempt <? MAX_RETRIES)%nat.
      * apply (Hnext _ [Print (MsgAttempt code ticker attempt); Sleep delay] 1%nat);
          [simpl; rewrite <- !app_assoc; reflexivity | reflexivity | right; auto].
      * apply (Hnext _ [Print (MsgAttempt code ticker attempt)] 0%nat);
          [simpl; rewrite <- !app_assoc; reflexivity | reflexivity | left; auto].
    + destruct (attempt <? MAX_RETRIES)%nat.
      * apply (Hnext _ [Sleep delay] 1%nat);
          [simpl; rewrite <- !app_assoc; reflexivity | reflexivity | right; auto].
      * exists [Download ticker], 0%nat. simpl.
        repeat split; auto; try lia. intros t [<- | []]; reflexivity.
    + destruct (iloc_last (c :: closes) <=? 0)%float.
      * apply (Hnext _ [] 0%nat); [reflexivity | reflexivity | left; auto].
      * exists [Download ticker], 0%nat. simpl.
        repeat split; auto; try lia. intros t [<- | []]; reflexivity.
Qed.

(** ** The scraper: one currency *)

(** One turn of the loop over the registry, case by case. *)
Lemma fetch_one_cases st code ticker invert :
  code <> "USD" ->
  let st' := fetch_one st (code, (ticker, invert)) in
  let found := fetch_price code ticker (seq 1 MAX_RETRIES) RETRY_DELAY (world st) in
  match fst found with
  | None =>
      Scraper.rates st' = Scraper.rates st
      /\ audit st' = append_failed code (audit st)
      /\ world st' = print (MsgExhausted code ticker) (snd found)
  | Some price =>
      let final_rate := Py.round (if invert then 1 / price else price)%float 6 in
      if in_bounds code final_rate then
        Scraper.rates st' = Py.set (Scraper.rates st) code (Py.round final_rate 4)
        /\ audit st' = incr_validated (incr_fetched (audit st))
        /\ world st' = snd found
      else
        exists lo hi,
          Py.get Scraper.RATE_BOUNDS code = Some (lo, hi)
          /\ Scraper.rates st' = Scraper.rates st
          /\ audit st'
             = append_rejected
                 {| Scraper.code := code; Scraper.rate := final_rate;
                    Scraper.bounds := (lo, hi) |}
                 (incr_fetched (audit st))
          /\ world st' = print (MsgOutOfBounds code final_rate lo hi) (snd found)
  end.
Proof.
  intros Hne. apply String.eqb_neq in Hne.
  cbv zeta. unfold fetch_one. rewrite Hne.
  destruct (fetch_price code ticker (seq 1 MAX_RETRIES) RETRY_DELAY (world st))
    as [[price|] w']; cbn [fst snd]; [|auto].
  unfold in_bounds, final_rate_of, out_of_bounds.
  destruct (Py.get Scraper.RATE_BOUNDS code) as [[lo hi]|]; [|auto].
  destruct ((lo <=? _)%float && (_ <=? hi)%float); cbn [negb]; [auto|].
  exists lo, hi. auto.
Qed.

(** ** The scraper: the whole loop *)

Lemma quoted_widen w0 w w' w'' ticker price :
  quoted w w' ticker price ->
  provider w = provider w0 -> (calls w0 <= calls w)%nat ->
  (calls w' <= calls w'')%nat ->
  quoted w0 w'' ticker price.
Proof.
  intros [n [closes [Hn [Hq Hr]]]] Hp Hc Hc'.
  exists n, closes. rewrite <- Hp. split; [lia|]. split; assumption.
Qed.

Lemma stored_widen w w' w'' code v :
  stored_from_quote w w' code v -> (calls w' <= calls w'')%nat ->
  stored_from_quote w w'' code v.
Proof.
  intros [ticker [invert [price [Hin [Hq H]]]]] Hc.
  exists ticker, invert, price. split; [exact Hin|]. split; [|exact H].
  eapply quoted_widen; eauto.
Qed.

Lemma rejected_widen w w' w'' r :
  rejected_from_quote w w' r -> (calls w' <= calls w'')%nat ->
  rejected_from_quote w w'' r.
Proof.
  intros [ticker [invert [price [lo [hi [Hin [Hq H]]]]]]] Hc.
  exists ticker, invert, price, lo, hi. split; [exact Hin|]. split; [|exact H].
  eapply quoted_widen; eauto.
Qed.

Lemma keys_set_subset {V : Type} (d : Py.dict V) k v k' :
  In k' (Py.keys (Py.set d k v)) -> k' = k \/ In k' (Py.keys d).
Proof.
  induction d as [|[k0 v0] d IH]; simpl.
  - intros [<- | []]. now left.
  - destruct (String.eqb k k0); simpl; [tauto|].
    intros [<- | H]; [tauto|]. destruct (IH H); tauto.
Qed.

Lemma get_some_in_keys {V : Type} (d : Py.dict V) k v :
  Py.get d k = Some v -> In k (Py.keys d).
Proof.
  intros H. apply get_in in H. change k with (fst (k, v)). now apply in_map.
Qed.

(** A turn of the loop keeps the invariant. *)
Lemma loop_inv_step w done st code ticker invert :
  loop_inv w done st ->
  In (code, (ticker, invert)) EXCHANGER_PAIRS ->
  ~ In code done ->
  loop_inv w (done ++ [code]) (fetch_one st (code, (ticker, invert))).
Proof.
  intros [Hp Hc Husd Hkeys Hst Hrej Hfail Hra Hfa] Hpair Hnew.
  destruct (String.eqb code "USD") eqn:Eusd.
  - unfold fetch_one. rewrite Eusd.
    constructor; auto.
    + intros c Hin. destruct (Hkeys c Hin); [now left|right].
      apply in_or_app. now left.
    + intros r Hin. destruct (Hrej r Hin) as [H1 H2].
      split; [apply in_or_app; now left | exact H2].
    + intros c Hin. destruct (Hfail c Hin) as [H1 H2].
      split; [apply in_or_app; now left | exact H2].
  - apply String.eqb_neq in Eusd.
    pose proof (fetch_one_cases st code ticker invert Eusd) as Hcases.
    cbv zeta in Hcases.
    pose proof (fetch_price_world code ticker (seq 1 MAX_RETRIES) RETRY_DELAY
                  (world st)) as [Hp' [_ Hc']].
    pose proof (fetch_price_quoted code ticker (seq 1 MAX_RETRIES) RETRY_DELAY
                  (world st)) as Hq.
    set (found := fetch_price code ticker (seq 1 MAX_RETRIES) RETRY_DELAY (world st)) in *.
    set (st' := fetch_one st (code, (ticker, invert))) in *.
    assert (Py.get (Scraper.rates st) code = None) as Habsent.
    { apply get_none_not_in. intros Hin. destruct (Hkeys code Hin); tauto. }
    destruct (fst found) as [price|] eqn:Efound.
    + specialize (Hq price eq_refl).
      assert (quoted w (snd found) ticker price) as Hq'
        by (eapply quoted_widen; eauto).
      destruct (in_bounds code _) eqn:Ebounds.
      * destruct Hcases as [Hr [Ha Hw]].
        constructor; rewrite ?Hr, ?Ha, ?Hw; cbn [bounds_rejected fetch_failed
          incr_validated incr_fetched].
        -- congruence.
        -- lia.
        -- rewrite get_set_other; auto.
        -- intros c Hin. apply keys_set_subset in Hin as [-> | Hin].
           ++ right. apply in_or_app. right. now left.
           ++ destruct (Hkeys c Hin); [now left|right]. apply in_or_app. now left.
        -- intros c v Hget Hne.
           destruct (String.eqb c code) eqn:Ec.
           ++ apply String.eqb_eq in Ec. subst c.
              rewrite get_set_same in Hget. injection Hget as Hv.
              exists ticker, invert, price. repeat split; auto.
           ++ apply String.eqb_neq in Ec. rewrite get_set_other in Hget by auto.
              eapply stored_widen; [apply Hst; eauto|lia].
        -- intros r Hin. destruct (Hrej r Hin) as [H1 [H2 H3]].
           split; [apply in_or_app; now left|]. split; [exact H2|].
           eapply rejected_widen; [exact H3|lia].
        -- intros c Hin. destruct (Hfail c Hin) as [H1 H2].
           split; [apply in_or_app; now left | exact H2].
        -- intros r Hin. destruct (Hrej r Hin) as [H1 _].
           rewrite get_set_other; [now apply Hra|]. congruence.
        -- intros c Hin. destruct (Hfail c Hin) as [H1 _].
           rewrite get_set_other; [now apply Hfa|]. congruence.
      * destruct Hcases as [lo [hi [Hb [Hr [Ha Hw]]]]].
        constructor; rewrite ?Hr, ?Ha, ?Hw; cbn [bounds_rejected fetch_failed
          append_rejected incr_fetched print emit provider calls].
        -- congruence.
        -- lia.
        -- exact Husd.
        -- intros c Hin. destruct (Hkeys c Hin); [now left|right].
           apply in_or_app. now left.
        -- intros c v Hget Hne. eapply stored_widen; [apply Hst; eauto|].
           simpl. lia.
        -- intros r Hin. apply in_app_or in Hin as [Hin | [<- | []]].
           ++ destruct (Hrej r Hin) as [H1 [H2 H3]].
              split; [apply in_or_app; now left|]. split; [exact H2|].
              eapply rejected_widen; [exact H3|simpl; lia].
           ++ cbn [Scraper.code]. split; [apply in_or_app; right; now left|].
              split; [exact Eusd|].
              exists ticker, invert, price, lo, hi. cbn [Scraper.code Scraper.rate Scraper.bounds].
              repeat split; auto.
              unfold in_bounds in Ebounds. rewrite Hb in Ebounds. exact Ebounds.
        -- intros c Hin. destruct (Hfail c Hin) as [H1 H2].
           split; [apply in_or_app; now left | exact H2].
        -- intros r Hin. apply in_app_or in Hin as [Hin | [<- | []]];
             [now apply Hra | exact Habsent].
        -- exact Hfa.
    + destruct Hcases as [Hr [Ha Hw]].
      constructor; rewrite ?Hr, ?Ha, ?Hw; cbn [bounds_rejected fetch_failed
        append_failed print emit provider calls].
      * congruence.
      * lia.
      * exact Husd.
      * intros c Hin. destruct (Hkeys c Hin); [now left|right].
        apply in_or_app. now left.
      * intros c v Hget Hne. eapply stored_widen; [apply Hst; eauto|].
        simpl. lia.
      * intros r Hin. destruct (Hrej r Hin) as [H1 [H2 H3]].
        split; [apply in_or_app; now left|]. split; [exact H2|].
        eapply rejected_widen; [exact H3|simpl; lia].
      * intros c Hin. apply in_app_or in Hin as [Hin | [<- | []]].
        -- destruct (Hfail c Hin) as [H1 H2].
           split; [apply in_or_app; now left | exact H2].
        -- split; [apply in_or_app; right; now left | exact Eusd].
      * exact Hra.
      * intros c Hin. apply in_app_or in Hin as [Hin | [<- | []]];
          [now apply Hfa | exact Habsent].
Qed.

Lemma loop_inv_fold w pairs :
  forall done st,
    loop_inv w done st ->
    (forall p, In p pairs -> In p EXCHANGER_PAIRS) ->
    NoDup (done ++ Py.keys pairs) ->
    loop_inv w (done ++ Py.keys pairs) (fold_left fetch_one pairs st).
Proof.
  induction pairs as [|[code [ticker invert]] pairs IH]; intros done st Hinv Hsub Hnd.
  - simpl. now rewrite app_nil_r.
  - assert (done ++ Py.keys ((code, (ticker, invert)) :: pairs)
            = (done ++ [code]) ++ Py.keys pairs) as E
      by (rewrite <- app_assoc; reflexivity).
    cbn [fold_left]. rewrite E. apply IH.
    + apply loop_inv_step; [exact Hinv | apply Hsub; now left |].
      intros Hin. apply NoDup_remove_2 in Hnd. apply Hnd.
      apply in_or_app. now left.
    + intros p Hp. apply Hsub. now right.
    + rewrite <- E. exact Hnd.
Qed.

Lemma loop_inv_after_loop w :
  loop_inv w (Py.keys EXCHANGER_PAIRS) (after_loop w).
Proof.
  unfold after_loop.
  apply (loop_inv_fold w EXCHANGER_PAIRS []).
  - constructor; simpl; auto; try tauto; try lia.
    + intros code [<- | []]. now left.
    + intros code v. destruct (String.eqb code "USD") eqn:E; [|discriminate].
      apply String.eqb_eq in E. congruence.
  - auto.
  - apply EXCHANGER_PAIRS_NoDup.
Qed.

Lemma cross_check_one_keeps ecb_rates acc item :
  same_loop_data acc (cross_check_one ecb_rates acc item).
Proof.
  destruct acc as [a w], item as [code scraped_rate]. unfold cross_check_one.
  destruct (String.eqb code "USD"); [repeat split|].
  destruct (Py.get ecb_rates code) as [ecb_rate|]; [|repeat split].
  destruct (Py.truthy ecb_rate && (0 <? ecb_rate)%float); [|repeat split].
  destruct (2 <? _)%float; [|repeat split].
  destruct (15 <? _)%float; repeat split.
Qed.

Lemma cross_check_fold_keeps ecb_rates items :
  forall acc, same_loop_data acc (fold_left (cross_check_one ecb_rates) items acc).
Proof.
  induction items as [|item items IH]; intros acc; simpl; [repeat split|].
  destruct (IH (cross_check_one ecb_rates acc item)) as [H1 [H2 [H3 [H4 H5]]]].
  destruct (cross_check_one_keeps ecb_rates acc item) as [K1 [K2 [K3 [K4 K5]]]].
  repeat split; congruence.
Qed.

Lemma fetch_ecb_reference_rates_calls w :
  calls (snd (fetch_ecb_reference_rates w)) = calls w
  /\ provider (snd (fetch_ecb_reference_rates w)) = provider w.
Proof.
  unfold fetch_ecb_reference_rates. simpl.
  destruct (Scraper.ecb_xml w) as [cubes|]; [|auto].
  destruct (Py.get (eur_rates_of cubes) "USD") as [eur_usd|]; [|auto].
  destruct (negb (Py.truthy eur_usd) || (eur_usd <=? 0)%float); auto.
Qed.

Lemma fetch_exchanger_rates_finish w :
  fetch_exchanger_rates w = finish (after_loop w).
Proof. unfold fetch_exchanger_rates, finish, after_loop. reflexivity. Qed.

Lemma finish_result st :
  let '((rates, audit), w') := finish st in
  rates = Scraper.rates st
  /\ bounds_rejected audit = bounds_rejected (Scraper.audit st)
  /\ fetch_failed audit = fetch_failed (Scraper.audit st)
  /\ validated audit = validated (Scraper.audit st)
  /\ final_count audit = Some (List.length rates)
  /\ calls w' = calls (world st)
  /\ provider w' = provider (world st).
Proof.
  unfold finish.
  pose proof (fetch_ecb_reference_rates_calls (world st)) as [Hc1 Hp1].
  destruct (fetch_ecb_reference_rates (world st)) as [ecb_rates w1].
  cbn [fst snd] in Hc1, Hp1.
  destruct (Py.is_empty ecb_rates).
  - cbn. repeat split; auto.
  - pose proof (cross_check_fold_keeps ecb_rates (Scraper.rates st)
                  (audit st, w1)) as H.
    destruct (fold_left _ _ _) as [a w2].
    destruct H as [H1 [H2 [H3 [H4 H5]]]]. cbn [fst snd] in *.
    cbn. repeat split; auto; congruence.
Qed.

(** ** The scraper: the rates of a run *)

Lemma fetch_exchanger_rates_rates w :
  fst (fst (fetch_exchanger_rates w)) = Scraper.rates (after_loop w).
Proof.
  rewrite fetch_exchanger_rates_finish.
  pose proof (finish_result (after_loop w)) as H.
  destruct (finish (after_loop w)) as [[r a] w']. apply H.
Qed.

Lemma all_raise_keeps_rates pairs :
  forall st,
    (forall n t, provider (world st) n t = Raised) ->
    Scraper.rates (fold_left fetch_one pairs st) = Scraper.rates st.
Proof.
  induction pairs as [|[code [ticker invert]] pairs IH]; intros st Hraise;
    [reflexivity|].
  cbn [fold_left].
  destruct (String.eqb code "USD") eqn:Eusd.
  - unfold fetch_one at 2. rewrite Eusd. now apply IH.
  - apply String.eqb_neq in Eusd.
    pose proof (fetch_one_cases st code ticker invert Eusd) as Hcases.
    cbv zeta in Hcases.
    pose proof (fetch_price_world code ticker (seq 1 MAX_RETRIES) RETRY_DELAY
                  (world st)) as [Hp _].
    pose proof (fetch_price_quoted code ticker (seq 1 MAX_RETRIES) RETRY_DELAY
                  (world st)) as Hq.
    destruct (fst (fetch_price code ticker (seq 1 MAX_RETRIES) RETRY_DELAY (world st)))
      as [price|].
    + destruct (Hq price eq_refl) as [n [closes [_ [Hans _]]]].
      rewrite Hraise in Hans. discriminate.
    + destruct Hcases as [Hr [_ Hw]]. rewrite IH; [exact Hr|].
      intros n t. rewrite Hw. cbn [print emit provider]. rewrite Hp. apply Hraise.
Qed.

(** C9. Every acquisition run returns a rate mapping in which USD is
    1.0, and when every download raises that entry is all the mapping
    holds.  In an audit that gets to the base check, the check is PASS
    exactly when the stored mapping has a USD entry equal to 1.0, and
    CRITICAL otherwise, also without a USD entry. *)
Theorem usd_is_the_base :
  (forall w, Py.get (fst (fst (fetch_exchanger_rates w))) "USD" = Some 1.0%float)
  /\ (forall w, (forall n t, provider w n t = Raised) ->
                fst (fst (fetch_exchanger_rates w)) = [("USD", 1.0%float)])
  /\ (forall env data,
         load_market_data env = Some data ->
         Py.is_empty (Audit.rates data) = false ->
         option_map status (lookup_check "usd_base" (run_audit env))
         = Some match Py.get (Audit.rates data) "USD" with
                | Some v => if (v =? 1.0)%float then PASS else CRITICAL
                | None => CRITICAL
                end).
Proof.
  split; [|split].
  - intros w. rewrite fetch_exchanger_rates_rates.
    apply (inv_usd _ _ _ (loop_inv_after_loop w)).
  - intros w Hraise. rewrite fetch_exchanger_rates_rates. unfold after_loop.
    rewrite all_raise_keeps_rates; [reflexivity|]. exact Hraise.
  - intros env data Hload Hne.
    destruct (run_audit_lookup env data Hload Hne) as [H _]. rewrite H.
    unfold usd_check. destruct (Py.get (Audit.rates data) "USD") as [v|];
      [destruct (v =? 1)%float|]; reflexivity.
Qed.

Lemma usd_is_the_base_witness :
  fst (fst (fetch_exchanger_rates all_fail_world)) = [("USD", 1.0%float)]
  /\ option_map status (lookup_check "usd_base" (run_audit wrong_usd_env))
     = Some CRITICAL.
Proof.
  split.
  - apply (proj1 (proj2 usd_is_the_base) all_fail_world). reflexivity.
  - apply (proj2 (proj2 usd_is_the_base) wrong_usd_env wrong_usd_data);
      reflexivity.
Defined.

(** C3. In the turn of a currency whose download gave the close
    [price], the rate is 1 / price for an inverted pair and price
    otherwise, rounded to six decimals; the bounds are checked on that
    value, and what enters the rate mapping is that value rounded to
    four decimals.  So in every run each stored rate other than the
    base comes this way from a positive close the provider gave for the
    ticker of its code. *)
Theorem stored_rate_is_normalized_and_rounded :
  (forall (st : Scraper.State) (code ticker : string) (invert : bool)
          (price : float),
      code <> "USD" ->
      fst (fetch_price code ticker (seq 1 MAX_RETRIES) RETRY_DELAY (world st))
      = Some price ->
      let normalized := (if invert then 1 / price else price)%float in
      let final_rate := Py.round normalized 6 in
      let st' := fetch_one st (code, (ticker, invert)) in
      if in_bounds code final_rate then
        Py.get (Scraper.rates st') code = Some (Py.round final_rate 4)
      else
        Scraper.rates st' = Scraper.rates st
        /\ exists lo hi,
             bounds_rejected (audit st')
             = bounds_rejected (audit st)
                 ++ [{| Scraper.code := code; Scraper.rate := final_rate;
                        Scraper.bounds := (lo, hi) |}])
  /\ (forall w code v,
         Py.get (fst (fst (fetch_exchanger_rates w))) code = Some v ->
         code <> "USD" ->
         exists ticker invert price,
           In (code, (ticker, invert)) EXCHANGER_PAIRS
           /\ quoted w (snd (fetch_exchanger_rates w)) ticker price
           /\ let normalized := (if invert then 1 / price else price)%float in
              let final_rate := Py.round normalized 6 in
              in_bounds code final_rate = true
              /\ v = Py.round final_rate 4).
Proof.
  split.
  - intros st code ticker invert price Hne Hfound. cbv zeta.
    pose proof (fetch_one_cases st code ticker invert Hne) as Hcases.
    cbv zeta in Hcases. rewrite Hfound in Hcases.
    destruct (in_bounds code _).
    + destruct Hcases as [Hr _]. rewrite Hr. apply get_set_same.
    + destruct Hcases as [lo [hi [_ [Hr [Ha _]]]]].
      split; [exact Hr|]. exists lo, hi. rewrite Ha. reflexivity.
  - intros w code v Hget Hne.
    rewrite fetch_exchanger_rates_rates in Hget.
    pose proof (inv_stored _ _ _ (loop_inv_after_loop w) code v Hget Hne) as Hs.
    rewrite fetch_exchanger_rates_finish.
    pose proof (finish_result (after_loop w)) as H.
    destruct (finish (after_loop w)) as [[r a] w'].
    destruct H as [_ [_ [_ [_ [_ [Hc _]]]]]].
    eapply stored_widen; [exact Hs|]. cbn [snd]. lia.
Qed.

Lemma stored_rate_is_normalized_and_rounded_witness :
  exists ticker invert price,
    In ("EUR", (ticker, invert)) EXCHANGER_PAIRS
    /\ quoted eur_world (snd (fetch_exchanger_rates eur_world)) ticker price
    /\ let normalized := (if invert then 1 / price else price)%float in
       let final_rate := Py.round normalized 6 in
       in_bounds "EUR" final_rate = true
       /\ 0.92%float = Py.round final_rate 4.
Proof.
  apply (proj2 stored_rate_is_normalized_and_rounded eur_world "EUR" 0.92%float).
  - vm_compute. reflexivity.
  - discriminate.
Defined.

(** ** The scraper: bounds validation *)

Lemma fetch_exchanger_rates_rejected w :
  bounds_rejected (snd (fst (fetch_exchanger_rates w)))
  = bounds_rejected (audit (after_loop w))
  /\ fetch_failed (snd (fst (fetch_exchanger_rates w)))
     = fetch_failed (audit (after_loop w)).
Proof.
  rewrite fetch_exchanger_rates_finish.
  pose proof (finish_result (after_loop w)) as H.
  destruct (finish (after_loop w)) as [[r a] w']. cbn [fst snd].
  split; apply H.
Qed.

(** A code whose retries were exhausted is listed in [fetch_failed] and
    has no entry in the rate mapping of the run. *)
Lemma failed_codes_are_excluded w c :
  In c (fetch_failed (snd (fst (fetch_exchanger_rates w)))) ->
  Py.get (fst (fst (fetch_exchanger_rates w))) c = None.
Proof.
  destruct (fetch_exchanger_rates_rejected w) as [_ Hf].
  rewrite Hf, fetch_exchanger_rates_rates.
  apply (inv_failed_absent _ _ _ (loop_inv_after_loop w)).
Qed.

(** C4. In the turn of a currency whose download gave a close, the
    rate, normalized and rounded to six decimals, is looked up in the
    bounds table.  With bounds [lo, hi] and lo <= rate <= hi it is
    validated and enters the rate mapping; outside of them it is
    appended to [bounds_rejected] with its code, the rate and the bounds,
    and the mapping stays as it is; a code without bounds is accepted
    as it is.  So after a run every entry of [bounds_rejected] is outside
    the bounds it records, which are those of the table, and its code
    has no entry in the rate mapping. *)
Theorem bounds_validation_at_acquisition :
  (forall (st : Scraper.State) (code ticker : string) (invert : bool)
          (price : float),
      code <> "USD" ->
      fst (fetch_price code ticker (seq 1 MAX_RETRIES) RETRY_DELAY (world st))
      = Some price ->
      let final_rate := Py.round (if invert then 1 / price else price)%float 6 in
      let st' := fetch_one st (code, (ticker, invert)) in
      let accepted :=
        Scraper.rates st' = Py.set (Scraper.rates st) code (Py.round final_rate 4)
        /\ validated (audit st') = S (validated (audit st))
        /\ bounds_rejected (audit st') = bounds_rejected (audit st) in
      match Py.get Scraper.RATE_BOUNDS code with
      | Some (lo, hi) =>
          if (lo <=? final_rate)%float && (final_rate <=? hi)%float then accepted
          else
            Scraper.rates st' = Scraper.rates st
            /\ validated (audit st') = validated (audit st)
            /\ bounds_rejected (audit st')
               = bounds_rejected (audit st)
                   ++ [{| Scraper.code := code; Scraper.rate := final_rate;
                          Scraper.bounds := (lo, hi) |}]
      | None => accepted
      end)
  /\ (forall w r,
         In r (bounds_rejected (snd (fst (fetch_exchanger_rates w)))) ->
         Py.get (fst (fst (fetch_exchanger_rates w))) (Scraper.code r) = None
         /\ exists lo hi,
              Py.get Scraper.RATE_BOUNDS (Scraper.code r) = Some (lo, hi)
              /\ Scraper.bounds r = (lo, hi)
              /\ ((lo <=? Scraper.rate r)%float && (Scraper.rate r <=? hi)%float)
                 = false).
Proof.
  split.
  - intros st code ticker invert price Hne Hfound. cbv zeta.
    pose proof (fetch_one_cases st code ticker invert Hne) as Hcases.
    cbv zeta in Hcases. rewrite Hfound in Hcases.
    unfold in_bounds in Hcases.
    destruct (Py.get Scraper.RATE_BOUNDS code) as [[lo hi]|].
    + destruct ((lo <=? _)%float && (_ <=? hi)%float).
      * destruct Hcases as [Hr [Ha _]]. rewrite Hr, Ha. auto.
      * destruct Hcases as [lo' [hi' [Hb [Hr [Ha _]]]]].
        injection Hb as <- <-. rewrite Hr, Ha. auto.
    + destruct Hcases as [Hr [Ha _]]. rewrite Hr, Ha. auto.
  - intros w r Hin.
    destruct (fetch_exchanger_rates_rejected w) as [Hrej _].
    rewrite Hrej in Hin. rewrite fetch_exchanger_rates_rates.
    pose proof (loop_inv_after_loop w) as Hinv.
    split; [apply (inv_rejected_absent _ _ _ Hinv r Hin)|].
    destruct (inv_rejected _ _ _ Hinv r Hin)
      as [_ [_ [ticker [invert [price [lo [hi [_ [_ [_ [Hb [Hbr Hout]]]]]]]]]]]].
    exists lo, hi. split; [exact Hb|]. split; [exact Hbr | exact Hout].
Qed.

Lemma bounds_validation_at_acquisition_witness :
  Py.get (fst (fst (fetch_exchanger_rates eur_high_world))) "EUR" = None
  /\ exists lo hi,
       Py.get Scraper.RATE_BOUNDS "EUR" = Some (lo, hi)
       /\ (0.5%float, 1.5%float) = (lo, hi)
       /\ ((lo <=? 2.0)%float && (2.0 <=? hi)%float) = false.
Proof.
  apply (proj2 bounds_validation_at_acquisition eur_high_world
           {| Scraper.code := "EUR"; Scraper.rate := 2.0%float;
              Scraper.bounds := (0.5%float, 1.5%float) |}).
  vm_compute. left. reflexivity.
Defined.

(** ** The scraper: retries *)

(** C7, at the inputs where the code departs from it.  A close of 0.0
    on the first download of EURUSD=X is followed by the second
    download at once: the trace of the retry loop has no sleep between
    the two.  With a close of 0.0 on every download the three attempts
    follow each other without any sleep, and EUR ends in
    [fetch_failed], outside the rate mapping.  An empty frame, by
    contrast, is followed by a sleep of the base delay. *)
Theorem nonpositive_close_is_retried_without_delay :
  (let r := fetch_price "EUR" "EURUSD=X" (seq 1 MAX_RETRIES) RETRY_DELAY
              zero_then_good_world in
   fst r = Some 1.087%float
   /\ trace (snd r) = [Download "EURUSD=X"; Download "EURUSD=X"])
  /\ (let r := fetch_price "EUR" "EURUSD=X" (seq 1 MAX_RETRIES) RETRY_DELAY
                 always_zero_world in
      fst r = None
      /\ trace (snd r)
         = [Download "EURUSD=X"; Download "EURUSD=X"; Download "EURUSD=X"])
  /\ (let r := fst (fetch_exchanger_rates always_zero_world) in
      In "EUR" (fetch_failed (snd r)) /\ Py.get (fst r) "EUR" = None)
  /\ (let r := fetch_price "EUR" "EURUSD=X" (seq 1 MAX_RETRIES) RETRY_DELAY
                 empty_then_good_world in
      fst r = Some 1.087%float
      /\ trace (snd r) = [Download "EURUSD=X"; Sleep 2; Download "EURUSD=X"]).
Proof. vm_compute. repeat split; try reflexivity. left. reflexivity. Qed.

(** The general rule behind it: after a close that is not positive the
    loop goes on with the attempts left from the state right after the
    download, with the delay unchanged and nothing slept. *)
Lemma nonpositive_close_step code ticker attempt rest delay w c closes :
  provider w (calls w) ticker = Frame (c :: closes) ->
  (iloc_last (c :: closes) <=? 0)%float = true ->
  fetch_price code ticker (attempt :: rest) delay w
  = fetch_price code ticker rest delay (snd (yf_download ticker w)).
Proof.
  intros Hans Hle. cbn [fetch_price yf_download snd]. rewrite Hans, Hle.
  reflexivity.
Qed.

(** [fetch_with_retry] gives up on the first frame with fewer than two
    rows, without another attempt. *)
Lemma fetch_with_retry_short_frame ticker w closes :
  provider w (calls w) ticker = Frame closes ->
  (List.length closes < 2)%nat ->
  fetch_with_retry ticker w
  = (None, print (MsgNotEnoughData ticker (List.length closes))
             (snd (yf_download ticker w))).
Proof.
  intros Hans Hlen. unfold fetch_with_retry. cbn [seq MAX_RETRIES fetch_with_retry_from yf_download snd].
  rewrite Hans. apply Nat.ltb_lt in Hlen. rewrite Hlen. reflexivity.
Qed.

(** ** The scraper: the deviation of exactly 15 % *)

(** C8, as stated, fails at acquisition time: with EUR scraped at 0.92
    and its reference at 0.8 the run records the deviation, 15.0, and
    prints no critical line. *)
Lemma deviation_of_15_is_not_logged_as_critical :
  Py.get (fst (fst (fetch_exchanger_rates eur_world))) "EUR" = Some 0.92%float
  /\ Py.get (cross_check_deviations (snd (fst (fetch_exchanger_rates eur_world))))
       "EUR"
     = Some {| scraped := 0.92%float; ecb := 0.8%float; deviation_pct := 15.0%float |}
  /\ existsb is_critical_message (trace (snd (fetch_exchanger_rates eur_world)))
     = false.
Proof. vm_compute. repeat split; reflexivity. Qed.

(** C8, amended.  With EUR at 0.92 against a reference of 0.80 the
    deviation is exactly 15.0.  At acquisition time it is recorded among
    the cross-check deviations, and no critical line is printed, since
    15.0 does not exceed 15; at audit time the cross-check is CRITICAL,
    since 15.0 exceeds 10. *)
Theorem deviation_of_15_scenario :
  (abs (0.92 - 0.80) / 0.80 * 100)%float = 15.0%float
  /\ (15 <? abs (0.92 - 0.80) / 0.80 * 100)%float = false
  /\ (CRITICAL_DEVIATION_PCT <? Audit.deviation 0.92 0.80)%float = true
  /\ (let r := fetch_exchanger_rates eur_world in
      Py.get (fst (fst r)) "EUR" = Some 0.92%float
      /\ Py.get (cross_check_deviations (snd (fst r))) "EUR"
         = Some {| scraped := 0.92%float; ecb := 0.8%float;
                   deviation_pct := 15.0%float |}
      /\ existsb is_critical_message (trace (snd r)) = false)
  /\ Py.get (Audit.rates eur_off_data) "EUR" = Some 0.92%float
  /\ Py.get (fetch_ecb_rates eur_off_env) "EUR" = Some 0.80%float
  /\ lookup_check "ecb_cross_check" (run_audit eur_off_env)
     = Some (mk_check "ecb_cross_check" CRITICAL "Critical deviations: EUR(15.0%)").
Proof. vm_compute. repeat split; reflexivity. Qed.

End ScraperProperties.

Section RetryProperties.

Import Audit.
Import Scraper.

(** ** The scraper: what the retry loop returns and costs *)

Lemma good_close_cases r :
  match r with
  | Raised => good_close r = None
  | Frame [] => good_close r = None
  | Frame (c :: closes) =>
      good_close r
      = if (iloc_last (c :: closes) <=? 0)%float then None
        else Some (iloc_last (c :: closes))
  end.
Proof. destruct r as [|[|c closes]]; reflexivity. Qed.

(** X1. The price the retry loop of a currency returns is the last
    close of the first of the three answers that is a frame with rows
    and a close that is not [<= 0]; without such an answer it returns
    no price. *)
Theorem fetch_price_first_good :
  forall code ticker w,
    fst (fetch_price code ticker (seq 1 MAX_RETRIES) RETRY_DELAY w)
    = first_good (answers_at (provider w) ticker (calls w) MAX_RETRIES).
Proof.
  intros code ticker w.
  unfold MAX_RETRIES. cbn [seq answers_at first_good].
  cbn [fetch_price yf_download provider calls Nat.ltb Nat.leb].
  pose proof (good_close_cases (provider w (calls w) ticker)) as H1.
  destruct (provider w (calls w) ticker) as [|[|c1 cl1]]; rewrite H1;
    [ | | destruct (iloc_last (c1 :: cl1) <=? 0)%float; [|reflexivity] ];
    cbn [fetch_price yf_download provider calls Nat.ltb Nat.leb print sleep emit];
    pose proof (good_close_cases (provider w (S (calls w)) ticker)) as H2;
    (destruct (provider w (S (calls w)) ticker) as [|[|c2 cl2]]; rewrite H2;
     [ | | destruct (iloc_last (c2 :: cl2) <=? 0)%float; [|reflexivity] ];
     cbn [fetch_price yf_download provider calls Nat.ltb Nat.leb print sleep emit];
     pose proof (good_close_cases (provider w (S (S (calls w))) ticker)) as H3;
     (destruct (provider w (S (S (calls w))) ticker) as [|[|c3 cl3]]; rewrite H3;
      [ | | destruct (iloc_last (c3 :: cl3) <=? 0)%float ];
      reflexivity)).
Qed.

End RetryProperties.

Section CostProperties.

Import Audit.
Import Scraper.

(** ** The scraper: downloads and sleeps of a run *)

Lemma downloads_app evs evs' : downloads (evs ++ evs') = downloads evs ++ downloads evs'.
Proof. apply flat_map_app. Qed.

Lemma sleeps_app evs evs' : sleeps (evs ++ evs') = sleeps evs ++ sleeps evs'.
Proof. apply flat_map_app. Qed.

Lemma slept_app evs evs' : slept (evs ++ evs') = (slept evs + slept evs')%Z.
Proof.
  unfold slept. rewrite sleeps_app.
  induction (sleeps evs) as [|d l IH]; simpl; [reflexivity|]. rewrite IH. lia.
Qed.

Lemma costs_refl w : costs w w 0 0.
Proof.
  split; [reflexivity|]. split; [reflexivity|].
  exists []. rewrite app_nil_r. unfold slept. cbn.
  split; [reflexivity|]. split; [lia|]. split; [lia|]. split; [lia|].
  intros d [].
Qed.

Lemma costs_trans w w1 w2 d1 d2 s1 s2 :
  costs w w1 d1 s1 -> costs w1 w2 d2 s2 -> costs w w2 (d1 + d2) (s1 + s2).
Proof.
  intros [Hp1 [He1 [evs1 [Ht1 [Hc1 [Hd1 [Hs1 Hz1]]]]]]]
         [Hp2 [He2 [evs2 [Ht2 [Hc2 [Hd2 [Hs2 Hz2]]]]]]].
  split; [congruence|]. split; [congruence|].
  exists (evs1 ++ evs2).
  rewrite downloads_app, sleeps_app, slept_app, length_app.
  split; [rewrite Ht2, Ht1, app_assoc; reflexivity|].
  split; [lia|]. split; [lia|]. split; [lia|].
  intros d Hin. apply in_app_or in Hin as [Hin | Hin]; auto.
Qed.

Lemma costs_weaken w w' d s d' s' :
  costs w w' d s -> (d <= d')%nat -> (s <= s')%Z -> costs w w' d' s'.
Proof.
  intros [Hp [He [evs [Ht [Hc [Hd [Hs Hz]]]]]]] Hle Hle'.
  split; [exact Hp|]. split; [exact He|].
  exists evs. split; [exact Ht|]. split; [exact Hc|]. split; [lia|].
  split; [lia | exact Hz].
Qed.

Lemma costs_print m w : costs w (print m w) 0 0.
Proof.
  split; [reflexivity|]. split; [reflexivity|].
  exists [Print m]. unfold slept. cbn.
  split; [reflexivity|]. split; [lia|]. split; [lia|]. split; [lia|].
  intros d [].
Qed.

Lemma costs_ecb_request w : costs w (emit EcbRequest w) 0 0.
Proof.
  split; [reflexivity|]. split; [reflexivity|].
  exists [EcbRequest]. unfold slept. cbn.
  split; [reflexivity|]. split; [lia|]. split; [lia|]. split; [lia|].
  intros d [].
Qed.

Lemma costs_download ticker w : costs w (snd (yf_download ticker w)) 1 0.
Proof.
  split; [reflexivity|]. split; [reflexivity|].
  exists [Download ticker]. unfold slept. cbn.
  split; [reflexivity|]. split; [lia|]. split; [lia|]. split; [lia|].
  intros d [].
Qed.

Lemma costs_sleep delay w :
  delay = 2%Z \/ delay = 4%Z -> costs w (sleep delay w) 0 delay.
Proof.
  intros Hd. split; [reflexivity|]. split; [reflexivity|].
  exists [Sleep delay]. unfold slept. cbn.
  split; [reflexivity|]. split; [lia|]. split; [lia|]. split; [lia|].
  intros d [<- | []]. exact Hd.
Qed.

(** Composition with the costs summed up by [lia]. *)
Lemma costs_step w w1 w2 d1 d2 s1 s2 d s :
  costs w w1 d1 s1 -> costs w1 w2 d2 s2 ->
  (d1 + d2 <= d)%nat -> (s1 + s2 <= s)%Z -> costs w w2 d s.
Proof.
  intros H1 H2 Hd Hs. eapply costs_weaken; [eapply costs_trans; eassumption|..];
    assumption.
Qed.

(** The retry loop from its last, from its second and from its first
    attempt. *)
Lemma costs_fetch_price_3 code ticker delay w :
  costs w (snd (fetch_price code ticker [3] delay w)) 1 0.
Proof.
  cbn [fetch_price]. unfold MAX_RETRIES. cbn [Nat.ltb Nat.leb].
  pose proof (costs_download ticker w) as H.
  destruct (yf_download ticker w) as [data w1]. cbn [snd] in H.
  destruct data as [|[|c closes]]; cbn [snd].
  - eapply (costs_step _ _ _ 1 0 0 0); [exact H | apply costs_print | lia | lia].
  - exact H.
  - destruct (iloc_last (c :: closes) <=? 0)%float; exact H.
Qed.

Lemma costs_fetch_price_2 code ticker delay w :
  delay = 2%Z \/ delay = 4%Z ->
  costs w (snd (fetch_price code ticker [2; 3] delay w)) 2 4.
Proof.
  intros Hdelay.
  change (fetch_price code ticker [2; 3] delay w)
    with (let (data, w1) := yf_download ticker w in
          match data with
          | Frame [] => fetch_price code ticker [3] (delay * 2)%Z (sleep delay w1)
          | Frame closes =>
              if (iloc_last closes <=? 0)%float
              then fetch_price code ticker [3] delay w1
              else (Some (iloc_last closes), w1)
          | Raised =>
              fetch_price code ticker [3] (delay * 2)%Z
                (sleep delay (print (MsgAttempt code ticker 2) w1))
          end).
  pose proof (costs_download ticker w) as H.
  destruct (yf_download ticker w) as [data w1]. cbn [snd] in H.
  assert (delay <= 4)%Z as Hle by (destruct Hdelay; lia).
  destruct data as [|[|c closes]].
  - eapply (costs_step _ _ _ 1 1 0 delay); [exact H | | lia | lia].
    eapply (costs_step _ _ _ 0 1 0 delay); [apply costs_print | | lia | lia].
    eapply (costs_step _ _ _ 0 1 delay 0); [apply (costs_sleep delay); exact Hdelay | | lia | lia].
    apply costs_fetch_price_3.
  - eapply (costs_step _ _ _ 1 1 0 delay); [exact H | | lia | lia].
    eapply (costs_step _ _ _ 0 1 delay 0); [apply (costs_sleep delay); exact Hdelay | | lia | lia].
    apply costs_fetch_price_3.
  - destruct (iloc_last (c :: closes) <=? 0)%float.
    + eapply (costs_step _ _ _ 1 1 0 0); [exact H | | lia | lia].
      apply costs_fetch_price_3.
    + cbn [snd]. eapply costs_weaken; [exact H | lia | lia].
Qed.

Lemma costs_fetch_price code ticker w :
  costs w (snd (fetch_price code ticker (seq 1 MAX_RETRIES) RETRY_DELAY w)) 3 6.
Proof.
  change (fetch_price code ticker (seq 1 MAX_RETRIES) RETRY_DELAY w)
    with (let (data, w1) := yf_download ticker w in
          match data with
          | Frame [] => fetch_price code ticker [2; 3] 4%Z (sleep 2 w1)
          | Frame closes =>
              if (iloc_last closes <=? 0)%float
              then fetch_price code ticker [2; 3] 2%Z w1
              else (Some (iloc_last closes), w1)
          | Raised =>
              fetch_price code ticker [2; 3] 4%Z
                (sleep 2 (print (MsgAttempt code ticker 1) w1))
          end).
  pose proof (costs_download ticker w) as H.
  destruct (yf_download ticker w) as [data w1]. cbn [snd] in H.
  assert (2 = 2 \/ 2 = 4)%Z as H2 by now left.
  assert (4 = 2 \/ 4 = 4)%Z as H4 by now right.
  destruct data as [|[|c closes]].
  - eapply (costs_step _ _ _ 1 2 0 6); [exact H | | lia | lia].
    eapply (costs_step _ _ _ 0 2 0 6); [apply costs_print | | lia | lia].
    eapply (costs_step _ _ _ 0 2 2 4); [apply (costs_sleep 2); exact H2 | | lia | lia].
    apply costs_fetch_price_2. exact H4.
  - eapply (costs_step _ _ _ 1 2 0 6); [exact H | | lia | lia].
    eapply (costs_step _ _ _ 0 2 2 4); [apply (costs_sleep 2); exact H2 | | lia | lia].
    apply costs_fetch_price_2. exact H4.
  - destruct (iloc_last (c :: closes) <=? 0)%float.
    + eapply (costs_step _ _ _ 1 2 0 4); [exact H | | lia | lia].
      apply costs_fetch_price_2. exact H2.
    + cbn [snd]. eapply costs_weaken; [exact H | lia | lia].
Qed.



Lemma costs_fetch_one st pair :
  costs (world st) (world (fetch_one st pair))
    (3 * weight (fst pair)) (6 * Z.of_nat (weight (fst pair))).
Proof.
  destruct pair as [code [ticker invert]]. unfold fetch_one, weight. cbn [fst].
  destruct (String.eqb code "USD"); [apply costs_refl|].
  pose proof (costs_fetch_price code ticker (world st)) as H.
  destruct (fetch_price code ticker (seq 1 MAX_RETRIES) RETRY_DELAY (world st))
    as [[price|] w']; cbn [snd] in H.
  - destruct (Py.get Scraper.RATE_BOUNDS code) as [[lo hi]|]; [|exact H].
    destruct (out_of_bounds lo hi _); [|exact H].
    cbn [world]. eapply (costs_step _ _ _ 3 0 6 0);
      [exact H | apply costs_print | lia | lia].
  - cbn [world]. eapply (costs_step _ _ _ 3 0 6 0);
      [exact H | apply costs_print | lia | lia].
Qed.

Lemma costs_fetch_loop pairs :
  forall st,
    let n := List.length (filter (fun c => negb (String.eqb c "USD")) (Py.keys pairs)) in
    costs (world st) (world (fold_left fetch_one pairs st)) (3 * n) (6 * Z.of_nat n).
Proof.
  induction pairs as [|pair pairs IH]; intros st; cbn [fold_left].
  - apply costs_refl.
  - pose proof (costs_fetch_one st pair) as H1.
    specialize (IH (fetch_one st pair)). cbv zeta in IH |- *.
    unfold Py.keys in *. cbn [map filter]. unfold weight in H1.
    destruct (String.eqb (fst pair) "USD"); cbn [negb List.length];
      (eapply costs_step; [exact H1 | exact IH | lia | lia]).
Qed.

Lemma costs_fetch_ecb_reference_rates w :
  costs w (snd (fetch_ecb_reference_rates w)) 0 0.
Proof.
  unfold fetch_ecb_reference_rates.
  pose proof (costs_ecb_request w) as H.
  change (Scraper.ecb_xml (emit EcbRequest w)) with (Scraper.ecb_xml w).
  destruct (Scraper.ecb_xml w) as [cubes|]; cbn [snd].
  - destruct (Py.get (eur_rates_of cubes) "USD") as [eur_usd|]; [|exact H].
    destruct (negb (Py.truthy eur_usd) || (eur_usd <=? 0)%float); [exact H|].
    cbn [snd]. eapply (costs_step _ _ _ 0 0 0 0);
      [exact H | apply costs_print | lia | lia].
  - eapply (costs_step _ _ _ 0 0 0 0); [exact H | apply costs_print | lia | lia].
Qed.

Lemma costs_cross_check_one ecb_rates acc item :
  costs (snd acc) (snd (cross_check_one ecb_rates acc item)) 0 0.
Proof.
  destruct acc as [a w], item as [code scraped_rate]. unfold cross_check_one.
  destruct (String.eqb code "USD"); [apply costs_refl|].
  destruct (Py.get ecb_rates code) as [ecb_rate|]; [|apply costs_refl].
  destruct (Py.truthy ecb_rate && (0 <? ecb_rate)%float); [|apply costs_refl].
  destruct (2 <? _)%float; [|apply costs_refl].
  destruct (15 <? _)%float; [apply costs_print | apply costs_refl].
Qed.

Lemma costs_cross_check ecb_rates items :
  forall acc,
    costs (snd acc) (snd (fold_left (cross_check_one ecb_rates) items acc)) 0 0.
Proof.
  induction items as [|item items IH]; intros acc; cbn [fold_left].
  - apply costs_refl.
  - eapply (costs_step _ _ _ 0 0 0 0);
      [apply costs_cross_check_one | apply IH | lia | lia].
Qed.

Lemma costs_finish st : costs (world st) (snd (finish st)) 0 0.
Proof.
  unfold finish.
  pose proof (costs_fetch_ecb_reference_rates (world st)) as H.
  destruct (fetch_ecb_reference_rates (world st)) as [ecb_rates w1].
  cbn [snd] in H.
  destruct (Py.is_empty ecb_rates).
  - cbn [snd]. eapply (costs_step _ _ _ 0 0 0 0);
      [exact H | apply costs_print | lia | lia].
  - pose proof (costs_cross_check ecb_rates (Scraper.rates st) (audit st, w1)) as H2.
    destruct (fold_left _ _ _) as [a w2]. cbn [snd] in H2 |- *.
    eapply (costs_step _ _ _ 0 0 0 0); [exact H | | lia | lia].
    eapply (costs_step _ _ _ 0 0 0 0); [exact H2 | apply costs_print | lia | lia].
Qed.

Lemma costs_fetch_exchanger_rates w :
  costs w (snd (fetch_exchanger_rates w)) 99 198.
Proof.
  rewrite fetch_exchanger_rates_finish.
  eapply (costs_step _ (world (after_loop w)) _ 99 0 198 0);
    [ | apply costs_finish | lia | lia].
  unfold after_loop.
  set (st0 := {| Scraper.rates := [("USD", 1.0%float)]; audit := new_audit;
                 world := print (MsgFetching (List.length EXCHANGER_PAIRS)) w |}).
  pose proof (costs_fetch_loop EXCHANGER_PAIRS st0) as H. cbv zeta in H.
  change (List.length (filter (fun c => negb (String.eqb c "USD"))
                         (Py.keys EXCHANGER_PAIRS))) with 33%nat in H.
  eapply (costs_step w (world st0) _ 0 99 0 198);
    [apply costs_print | exact H | lia | lia].
Qed.

(** X2. The retry loop of one currency makes at most three downloads
    and sleeps at most six seconds, in sleeps of two or four seconds;
    it leaves the provider and the feed as they are. *)
Theorem fetch_price_costs :
  forall code ticker w,
    costs w (snd (fetch_price code ticker (seq 1 MAX_RETRIES) RETRY_DELAY w)) 3 6.
Proof. exact costs_fetch_price. Qed.

(** X3. One call of [fetch_exchanger_rates] makes at most 99 downloads,
    three for each of the 33 currencies it asks for, and sleeps at most
    198 seconds, in sleeps of two or four seconds. *)
Theorem fetch_exchanger_rates_costs :
  forall w, costs w (snd (fetch_exchanger_rates w)) 99 198.
Proof. exact costs_fetch_exchanger_rates. Qed.

End CostProperties.

Section SectionProperties.

Import Audit.
Import Scraper.

(** ** The scraper: [fetch_with_retry] and the market sections *)

(** X4. [fetch_with_retry] retries after an exception only: what it
    returns is decided by the first of the three answers that is a
    frame, and it returns nothing when all three raise. *)
Theorem fetch_with_retry_first_frame :
  forall ticker w,
    fst (fetch_with_retry ticker w)
    = match first_frame (answers_at (provider w) ticker (calls w) MAX_RETRIES) with
      | Some closes => quote_of closes
      | None => None
      end.
Proof.
  intros ticker w. unfold fetch_with_retry, MAX_RETRIES, quote_of.
  cbn [seq answers_at first_frame].
  cbn [fetch_with_retry_from yf_download provider calls].
  change (1 <? 3)%nat with true.
  destruct (provider w (calls w) ticker) as [|closes1].
  - cbn [fetch_with_retry_from yf_download provider calls print sleep emit].
    change (2 <? 3)%nat with true.
    destruct (provider w (S (calls w)) ticker) as [|closes2].
    + cbn [fetch_with_retry_from yf_download provider calls print sleep emit].
      change (3 <? 3)%nat with false.
      destruct (provider w (S (S (calls w))) ticker) as [|closes3].
      * reflexivity.
      * destruct (List.length closes3 <? 2)%nat; [reflexivity|].
        destruct ((_ <=? 0)%float || (_ <=? 0)%float); reflexivity.
    + destruct (List.length closes2 <? 2)%nat; [reflexivity|].
      destruct ((_ <=? 0)%float || (_ <=? 0)%float); reflexivity.
  - destruct (List.length closes1 <? 2)%nat; [reflexivity|].
    destruct ((_ <=? 0)%float || (_ <=? 0)%float); reflexivity.
Qed.

Lemma costs_fetch_with_retry_3 ticker delay w :
  costs w (snd (fetch_with_retry_from ticker 3 [3] delay w)) 1 0.
Proof.
  cbn [fetch_with_retry_from]. change (3 <? 3)%nat with false.
  pose proof (costs_download ticker w) as H.
  destruct (yf_download ticker w) as [data w1]. cbn [snd] in H.
  destruct data as [|closes].
  - cbn [snd]. eapply (costs_step _ _ _ 1 0 0 0);
      [exact H | apply costs_print | lia | lia].
  - destruct (List.length closes <? 2)%nat.
    + cbn [snd]. eapply (costs_step _ _ _ 1 0 0 0);
        [exact H | apply costs_print | lia | lia].
    + destruct ((_ <=? 0)%float || (_ <=? 0)%float); exact H.
Qed.

Lemma costs_fetch_with_retry_2 ticker w :
  costs w (snd (fetch_with_retry_from ticker 3 [2; 3] 4%Z w)) 2 4.
Proof.
  change (fetch_with_retry_from ticker 3 [2; 3] 4%Z w)
    with (let (data, w1) := yf_download ticker w in
          match data with
          | Frame closes =>
              if (List.length closes <? 2)%nat then
                (None, print (MsgNotEnoughData ticker (List.length closes)) w1)
              else
                let latest := iloc_last closes in
                let prev := iloc_prev closes in
                if (latest <=? 0)%float || (prev <=? 0)%float then (None, w1)
                else
                  (Some {| price := Py.round latest 4;
                           trend := Py.round (((latest - prev) / prev) * 100)%float 2 |},
                   w1)
          | Raised =>
              fetch_with_retry_from ticker 3 [3] 8%Z
                (sleep 4 (print (MsgTickerAttempt ticker 2 3) w1))
          end).
  pose proof (costs_download ticker w) as H.
  destruct (yf_download ticker w) as [data w1]. cbn [snd] in H.
  assert (4 = 2 \/ 4 = 4)%Z as H4 by now right.
  destruct data as [|closes].
  - eapply (costs_step _ _ _ 1 1 0 4); [exact H | | lia | lia].
    eapply (costs_step _ _ _ 0 1 0 4); [apply costs_print | | lia | lia].
    eapply (costs_step _ _ _ 0 1 4 0);
      [apply (costs_sleep 4); exact H4 | apply costs_fetch_with_retry_3 | lia | lia].
  - destruct (List.length closes <? 2)%nat.
    + cbn [snd]. eapply (costs_step _ _ _ 1 0 0 0);
        [exact H | apply costs_print | lia | lia].
    + cbv zeta. destruct ((_ <=? 0)%float || (_ <=? 0)%float); cbn [snd];
        (eapply costs_weaken; [exact H | lia | lia]).
Qed.

Lemma costs_fetch_with_retry ticker w :
  costs w (snd (fetch_with_retry ticker w)) 3 6.
Proof.
  change (fetch_with_retry ticker w)
    with (let (data, w1) := yf_download ticker w in
          match data with
          | Frame closes =>
              if (List.length closes <? 2)%nat then
                (None, print (MsgNotEnoughData ticker (List.length closes)) w1)
              else
                let latest := iloc_last closes in
                let prev := iloc_prev closes in
                if (latest <=? 0)%float || (prev <=? 0)%float then (None, w1)
                else
                  (Some {| price := Py.round latest 4;
                           trend := Py.round (((latest - prev) / prev) * 100)%float 2 |},
                   w1)
          | Raised =>
              fetch_with_retry_from ticker 3 [2; 3] 4%Z
                (sleep 2 (print (MsgTickerAttempt ticker 1 3) w1))
          end).
  pose proof (costs_download ticker w) as H.
  destruct (yf_download ticker w) as [data w1]. cbn [snd] in H.
  assert (2 = 2 \/ 2 = 4)%Z as H2 by now left.
  destruct data as [|closes].
  - eapply (costs_step _ _ _ 1 2 0 6); [exact H | | lia | lia].
    eapply (costs_step _ _ _ 0 2 0 6); [apply costs_print | | lia | lia].
    eapply (costs_step _ _ _ 0 2 2 4);
      [apply (costs_sleep 2); exact H2 | apply costs_fetch_with_retry_2 | lia | lia].
  - destruct (List.length closes <? 2)%nat.
    + cbn [snd]. eapply (costs_step _ _ _ 1 0 0 0);
        [exact H | apply costs_print | lia | lia].
    + cbv zeta. destruct ((_ <=? 0)%float || (_ <=? 0)%float); cbn [snd];
        (eapply costs_weaken; [exact H | lia | lia]).
Qed.

(** X5. A call of [fetch_with_retry] makes at most three downloads and
    sleeps at most six seconds, two after the first exception and four
    after the second. *)
Theorem fetch_with_retry_costs :
  forall ticker w, costs w (snd (fetch_with_retry ticker w)) 3 6.
Proof. exact costs_fetch_with_retry. Qed.

End SectionProperties.

Section TallyProperties.

Import Audit.
Import Scraper.

(** ** The scraper: how a run accounts for the currencies *)

Lemma loop_fold_with w (Q : list string -> Scraper.State -> Prop) :
  (forall done st code ticker invert,
      loop_inv w done st -> Q done st ->
      In (code, (ticker, invert)) EXCHANGER_PAIRS -> ~ In code done ->
      Q (done ++ [code]) (fetch_one st (code, (ticker, invert)))) ->
  forall pairs done st,
    loop_inv w done st -> Q done st ->
    (forall p, In p pairs -> In p EXCHANGER_PAIRS) ->
    NoDup (done ++ Py.keys pairs) ->
    Q (done ++ Py.keys pairs) (fold_left fetch_one pairs st).
Proof.
  intros Hstep.
  induction pairs as [|[code [ticker invert]] pairs IH];
    intros done st Hinv HQ Hsub Hnd.
  - simpl. now rewrite app_nil_r.
  - assert (done ++ Py.keys ((code, (ticker, invert)) :: pairs)
            = (done ++ [code]) ++ Py.keys pairs) as E
      by (rewrite <- app_assoc; reflexivity).
    assert (~ In code done) as Hnew.
    { intros Hin. apply NoDup_remove_2 in Hnd. apply Hnd.
      apply in_or_app. now left. }
    cbn [fold_left]. rewrite E. apply IH.
    + apply loop_inv_step; [exact Hinv | apply Hsub; now left | exact Hnew].
    + apply Hstep; [exact Hinv | exact HQ | apply Hsub; now left | exact Hnew].
    + intros p Hp. apply Hsub. now right.
    + rewrite <- E. exact Hnd.
Qed.

Lemma length_set_new {V : Type} (d : Py.dict V) k v :
  ~ In k (Py.keys d) -> List.length (Py.set d k v) = S (List.length d).
Proof.
  intros H. pose proof (keys_set_new d k v H) as E.
  apply (f_equal (@List.length string)) in E.
  unfold Py.keys in E. rewrite length_app, !length_map in E. simpl in E. lia.
Qed.

Lemma filter_app_one (p : string -> bool) l c :
  List.length (filter p (l ++ [c]))
  = (List.length (filter p l) + if p c then 1 else 0)%nat.
Proof.
  rewrite filter_app, length_app. simpl. destruct (p c); reflexivity.
Qed.

Lemma tally_step w done st code ticker invert :
  loop_inv w done st -> tally done st ->
  In (code, (ticker, invert)) EXCHANGER_PAIRS -> ~ In code done ->
  tally (done ++ [code]) (fetch_one st (code, (ticker, invert))).
Proof.
  intros Hinv [Ht Hf Ha Hr Hk Hcov Hap] Hpair Hnew.
  assert (forall c, In c (rejected_codes (audit st)) -> In c done) as Hrd.
  { intros c Hin. unfold rejected_codes in Hin. apply in_map_iff in Hin as [r [<- Hin]].
    apply (inv_rejected _ _ _ Hinv r Hin). }
  assert (forall c, In c (fetch_failed (audit st)) -> In c done) as Hfd
    by (intros c Hin; apply (inv_failed _ _ _ Hinv c Hin)).
  destruct (String.eqb code "USD") eqn:Eusd.
  - unfold fetch_one. rewrite Eusd.
    constructor; auto.
    + rewrite filter_app_one, Eusd. cbn [negb]. lia.
    + intros c Hin Hne. apply in_app_or in Hin as [Hin | [<- | []]]; [auto|].
      apply String.eqb_eq in Eusd. congruence.
  - pose proof Eusd as Hneq. apply String.eqb_neq in Hneq.
    pose proof (fetch_one_cases st code ticker invert Hneq) as Hcases.
    cbv zeta in Hcases.
    assert (~ In code (Py.keys (Scraper.rates st))) as Habsent.
    { intros Hin. destruct (inv_keys _ _ _ Hinv code Hin); tauto. }
    set (st' := fetch_one st (code, (ticker, invert))) in *.
    destruct (fst (fetch_price code ticker (seq 1 MAX_RETRIES) RETRY_DELAY (world st)))
      as [price|].
    + destruct (in_bounds code _).
      * destruct Hcases as [Hr' [Ha' _]].
        constructor; rewrite ?Hr', ?Ha'; unfold rejected_codes in *;
          cbn [total_requested fetched validated bounds_rejected fetch_failed
               incr_validated incr_fetched].
        -- exact Ht.
        -- lia.
        -- rewrite filter_app_one, Eusd. cbn [negb]. lia.
        -- rewrite length_set_new by exact Habsent. lia.
        -- rewrite keys_set_new by exact Habsent.
           apply NoDup_app; [exact Hk | repeat constructor; intros [] | ].
           intros c Hc [<- | []]. tauto.
        -- intros c Hin Hne. rewrite keys_set_new by exact Habsent.
           apply in_app_or in Hin as [Hin | [<- | []]].
           ++ destruct (Hcov c Hin Hne) as [H | H]; [|tauto].
              left. apply in_or_app. now left.
           ++ left. apply in_or_app. right. now left.
        -- exact Hap.
      * destruct Hcases as [lo [hi [_ [Hr' [Ha' _]]]]].
        constructor; rewrite ?Hr', ?Ha'; unfold rejected_codes in *;
          cbn [total_requested fetched validated bounds_rejected fetch_failed
               append_rejected incr_fetched].
        -- exact Ht.
        -- rewrite length_app. simpl. lia.
        -- rewrite filter_app_one, Eusd. cbn [negb]. lia.
        -- exact Hr.
        -- exact Hk.
        -- intros c Hin Hne. rewrite map_app, in_app_iff. cbn [map Scraper.code In].
           apply in_app_or in Hin as [Hin | [<- | []]].
           ++ destruct (Hcov c Hin Hne) as [H | [H | H]]; tauto.
           ++ tauto.
        -- intros c Hin. rewrite map_app, in_app_iff in Hin.
           cbn [map Scraper.code In] in Hin.
           destruct Hin as [Hin | [<- | []]]; [now apply Hap|].
           intros Hin. apply Hnew. now apply Hfd.
    + destruct Hcases as [Hr' [Ha' _]].
      constructor; rewrite ?Hr', ?Ha'; unfold rejected_codes in *;
        cbn [total_requested fetched validated bounds_rejected fetch_failed
             append_failed].
      * exact Ht.
      * exact Hf.
      * rewrite filter_app_one, Eusd, length_app. cbn [negb List.length]. lia.
      * exact Hr.
      * exact Hk.
      * intros c Hin Hne. rewrite in_app_iff. cbn [In].
        apply in_app_or in Hin as [Hin | [<- | []]].
        -- destruct (Hcov c Hin Hne) as [H | [H | H]]; tauto.
        -- tauto.
      * intros c Hin Hin'. apply in_app_or in Hin' as [Hin' | [<- | []]].
        -- now apply (Hap c).
        -- apply Hnew. now apply Hrd.
Qed.

Lemma tally_after_loop w : tally (Py.keys EXCHANGER_PAIRS) (after_loop w).
Proof.
  unfold after_loop.
  apply (loop_fold_with w tally (tally_step w) EXCHANGER_PAIRS []).
  - pose proof (loop_inv_after_loop w) as _.
    constructor; cbn; auto; try tauto; try lia.
    + intros code [<- | []]. now left.
    + intros code v. destruct (String.eqb code "USD") eqn:E; [|discriminate].
      apply String.eqb_eq in E. congruence.
  - constructor; cbn; auto; try tauto.
    repeat constructor. intros [].
  - auto.
  - apply EXCHANGER_PAIRS_NoDup.
Qed.


Lemma cross_check_one_counters ecb_rates acc item :
  fetched (fst (cross_check_one ecb_rates acc item)) = fetched (fst acc)
  /\ total_requested (fst (cross_check_one ecb_rates acc item))
     = total_requested (fst acc).
Proof.
  destruct acc as [a w], item as [code scraped_rate]. unfold cross_check_one.
  destruct (String.eqb code "USD"); [split; reflexivity|].
  destruct (Py.get ecb_rates code) as [ecb_rate|]; [|split; reflexivity].
  destruct (Py.truthy ecb_rate && (0 <? ecb_rate)%float); [|split; reflexivity].
  destruct (2 <? _)%float; [|split; reflexivity].
  destruct (15 <? _)%float; split; reflexivity.
Qed.

Lemma cross_check_fold_counters ecb_rates items :
  forall acc,
    fetched (fst (fold_left (cross_check_one ecb_rates) items acc)) = fetched (fst acc)
    /\ total_requested (fst (fold_left (cross_check_one ecb_rates) items acc))
       = total_requested (fst acc).
Proof.
  induction items as [|item items IH]; intros acc; cbn [fold_left];
    [split; reflexivity|].
  destruct (IH (cross_check_one ecb_rates acc item)) as [H1 H2].
  destruct (cross_check_one_counters ecb_rates acc item) as [K1 K2].
  split; congruence.
Qed.

Lemma finish_counters st :
  fetched (snd (fst (finish st))) = fetched (audit st)
  /\ total_requested (snd (fst (finish st))) = total_requested (audit st).
Proof.
  unfold finish.
  destruct (fetch_ecb_reference_rates (world st)) as [ecb_rates w1].
  destruct (Py.is_empty ecb_rates).
  - cbn. split; reflexivity.
  - pose proof (cross_check_fold_counters ecb_rates (Scraper.rates st)
                  (audit st, w1)) as H.
    destruct (fold_left _ _ _) as [a w2]. cbn [fst snd] in *. cbn.
    exact H.
Qed.

(** The rates and the audit data of a run, as the loop leaves them. *)
Lemma run_is_after_loop w :
  let r := fst (fetch_exchanger_rates w) in
  fst r = Scraper.rates (after_loop w)
  /\ bounds_rejected (snd r) = bounds_rejected (audit (after_loop w))
  /\ fetch_failed (snd r) = fetch_failed (audit (after_loop w))
  /\ validated (snd r) = validated (audit (after_loop w))
  /\ fetched (snd r) = fetched (audit (after_loop w))
  /\ total_requested (snd r) = total_requested (audit (after_loop w))
  /\ final_count (snd r) = Some (List.length (fst r)).
Proof.
  cbv zeta. rewrite fetch_exchanger_rates_finish.
  pose proof (finish_result (after_loop w)) as H.
  pose proof (finish_counters (after_loop w)) as [Hf Ht].
  destruct (finish (after_loop w)) as [[r a] w']. cbn [fst snd] in *.
  destruct H as [H1 [H2 [H3 [H4 [H5 _]]]]].
  repeat (split; [assumption|]). exact H5.
Qed.

Lemma run_length w :
  List.length (fst (fst (fetch_exchanger_rates w)))
  = S (validated (snd (fst (fetch_exchanger_rates w)))).
Proof.
  destruct (run_is_after_loop w) as [Hr [_ [_ [Hv _]]]].
  destruct (tally_after_loop w) as [_ _ _ T4 _ _ _].
  rewrite Hr, Hv. exact T4.
Qed.

Lemma run_counters w :
    let rates := fst (fst (fetch_exchanger_rates w)) in
    let audit := snd (fst (fetch_exchanger_rates w)) in
    total_requested audit = 33%nat
    /\ (fetched audit + List.length (fetch_failed audit))%nat = 33%nat
    /\ fetched audit
       = (validated audit + List.length (bounds_rejected audit))%nat
    /\ List.length rates = S (validated audit)
    /\ final_count audit = Some (S (validated audit))
    /\ NoDup (Py.keys rates).
Proof.
  cbv zeta.
  destruct (run_is_after_loop w) as [Hr [Hb [Hf [Hv [Hfe [Ht Hc]]]]]].
  destruct (tally_after_loop w) as [T1 T2 T3 T4 T5 _ _].
  change (List.length (filter (fun c => negb (String.eqb c "USD"))
                         (Py.keys EXCHANGER_PAIRS))) with 33%nat in T3.
  rewrite Hc, Hr, Hb, Hf, Hv, Hfe, Ht.
  repeat split; try assumption. now rewrite T4.
Qed.

(** X6. The counters of a run add up: 33 currencies are asked for, each
    is either fetched or listed in [fetch_failed], each fetched one is
    either validated or listed in [bounds_rejected], and the rate
    mapping, whose keys are distinct, holds the base currency and the
    validated ones, which is what [final_count] says. *)
Theorem fetch_exchanger_rates_tally :
  forall w,
    let rates := fst (fst (fetch_exchanger_rates w)) in
    let audit := snd (fst (fetch_exchanger_rates w)) in
    total_requested audit = 33%nat
    /\ (fetched audit + List.length (fetch_failed audit))%nat = 33%nat
    /\ fetched audit
       = (validated audit + List.length (bounds_rejected audit))%nat
    /\ List.length rates = S (validated audit)
    /\ final_count audit = Some (S (validated audit))
    /\ NoDup (Py.keys rates).
Proof. exact run_counters. Qed.

Lemma accounted_for w done st :
  loop_inv w done st -> tally done st ->
  forall code, In code done -> code <> "USD" ->
    (Py.get (Scraper.rates st) code <> None
     /\ ~ In code (rejected_codes (audit st))
     /\ ~ In code (fetch_failed (audit st)))
    \/ (Py.get (Scraper.rates st) code = None
        /\ In code (rejected_codes (audit st))
        /\ ~ In code (fetch_failed (audit st)))
    \/ (Py.get (Scraper.rates st) code = None
        /\ ~ In code (rejected_codes (audit st))
        /\ In code (fetch_failed (audit st))).
Proof.
  intros Hinv [_ _ _ _ _ Hcov Hap] code Hin Hne.
  assert (forall c, In c (rejected_codes (audit st)) ->
                    Py.get (Scraper.rates st) c = None) as Hra.
  { intros c Hc. unfold rejected_codes in Hc.
    apply in_map_iff in Hc as [r [<- Hc]].
    apply (inv_rejected_absent _ _ _ Hinv r Hc). }
  pose proof (inv_failed_absent _ _ _ Hinv) as Hfa.
  destruct (Hcov code Hin Hne) as [H | [H | H]].
  - left.
    assert (Py.get (Scraper.rates st) code <> None) as Hs
      by (intros E; apply get_none_not_in in E; contradiction).
    split; [exact Hs|].
    split; intros Hc; apply Hs; [apply Hra | apply Hfa]; exact Hc.
  - right. left. split; [apply Hra; exact H|].
    split; [exact H | apply Hap; exact H].
  - right. right. split; [apply Hfa; exact H|]. split; [|exact H].
    intros Hc. exact (Hap code Hc H).
Qed.

Lemma run_rejected_codes w :
  rejected_codes (snd (fst (fetch_exchanger_rates w)))
  = rejected_codes (audit (after_loop w)).
Proof.
  destruct (run_is_after_loop w) as [_ [Hb _]].
  unfold rejected_codes. rewrite Hb. reflexivity.
Qed.

(** X7. A run accounts for every currency of the registry in exactly
    one way: its code has a rate in the mapping, or an entry in
    [bounds_rejected], or is listed in [fetch_failed]. *)
Theorem every_currency_is_accounted_for :
  forall w code,
    In code (Py.keys EXCHANGER_PAIRS) -> code <> "USD" ->
    let rates := fst (fst (fetch_exchanger_rates w)) in
    let audit := snd (fst (fetch_exchanger_rates w)) in
    (Py.get rates code <> None
     /\ ~ In code (rejected_codes audit) /\ ~ In code (fetch_failed audit))
    \/ (Py.get rates code = None
        /\ In code (rejected_codes audit) /\ ~ In code (fetch_failed audit))
    \/ (Py.get rates code = None
        /\ ~ In code (rejected_codes audit) /\ In code (fetch_failed audit)).
Proof.
  intros w code Hin Hne. cbv zeta.
  destruct (run_is_after_loop w) as [Hr [_ [Hf _]]].
  rewrite (run_rejected_codes w), Hr, Hf.
  exact (accounted_for w _ _ (loop_inv_after_loop w) (tally_after_loop w)
           code Hin Hne).
Qed.

Lemma every_currency_is_accounted_for_witness :
  In "EUR" (Py.keys EXCHANGER_PAIRS)
  /\ Py.get (fst (fst (fetch_exchanger_rates eur_world))) "EUR" <> None.
Proof.
  split; [right; left; reflexivity|].
  destruct (every_currency_is_accounted_for eur_world "EUR")
    as [[H _] | [[H _] | [H _]]].
  - right. left. reflexivity.
  - discriminate.
  - exact H.
  - vm_compute in H. discriminate H.
  - vm_compute in H. discriminate H.
Defined.

End TallyProperties.

Section FeedProperties.

Import Audit.
Import Scraper.

(** ** The scraper: what the ECB feed can and cannot change *)

Lemma yf_download_with_feed feed ticker w :
  yf_download ticker (with_feed feed w)
  = (fst (yf_download ticker w), with_feed feed (snd (yf_download ticker w))).
Proof. reflexivity. Qed.

Lemma print_with_feed feed m w :
  print m (with_feed feed w) = with_feed feed (print m w).
Proof. reflexivity. Qed.

Lemma sleep_with_feed feed delay w :
  sleep delay (with_feed feed w) = with_feed feed (sleep delay w).
Proof. reflexivity. Qed.

Lemma fetch_price_with_feed feed code ticker attempts :
  forall delay w,
    fetch_price code ticker attempts delay (with_feed feed w)
    = (fst (fetch_price code ticker attempts delay w),
       with_feed feed (snd (fetch_price code ticker attempts delay w))).
Proof.
  induction attempts as [|attempt rest IH]; intros delay w; [reflexivity|].
  cbn [fetch_price]. rewrite yf_download_with_feed.
  destruct (yf_download ticker w) as [data w1]. cbn [fst snd].
  destruct data as [|[|c closes]].
  - rewrite print_with_feed.
    destruct (attempt <? MAX_RETRIES)%nat; rewrite ?sleep_with_feed; apply IH.
  - destruct (attempt <? MAX_RETRIES)%nat;
      [rewrite sleep_with_feed; apply IH | reflexivity].
  - destruct (iloc_last (c :: closes) <=? 0)%float; [apply IH | reflexivity].
Qed.

Lemma fetch_one_with_feed feed st pair :
  fetch_one (state_with_feed feed st) pair
  = state_with_feed feed (fetch_one st pair).
Proof.
  destruct pair as [code [ticker invert]]. unfold fetch_one.
  destruct (String.eqb code "USD"); [reflexivity|].
  cbn [state_with_feed world Scraper.rates audit].
  rewrite fetch_price_with_feed.
  destruct (fetch_price code ticker (seq 1 MAX_RETRIES) RETRY_DELAY (world st))
    as [[price|] w']; cbn [fst snd]; [|reflexivity].
  destruct (Py.get Scraper.RATE_BOUNDS code) as [[lo hi]|]; [|reflexivity].
  destruct (out_of_bounds lo hi _); reflexivity.
Qed.

Lemma fold_fetch_one_with_feed feed pairs :
  forall st,
    fold_left fetch_one pairs (state_with_feed feed st)
    = state_with_feed feed (fold_left fetch_one pairs st).
Proof.
  induction pairs as [|pair pairs IH]; intros st; cbn [fold_left]; [reflexivity|].
  rewrite fetch_one_with_feed. apply IH.
Qed.

Lemma after_loop_with_feed feed w :
  after_loop (with_feed feed w) = state_with_feed feed (after_loop w).
Proof.
  unfold after_loop. rewrite <- fold_fetch_one_with_feed. reflexivity.
Qed.

Lemma rates_state_with_feed feed st :
  Scraper.rates (state_with_feed feed st) = Scraper.rates st.
Proof. reflexivity. Qed.

Lemma audit_state_with_feed feed st :
  audit (state_with_feed feed st) = audit st.
Proof. reflexivity. Qed.

(** X8. The rates, the counters and the two lists of a run do not depend on
    the ECB feed: the cross-check only observes. *)
Theorem rates_do_not_depend_on_the_feed :
  forall w feed,
    let r := fst (fetch_exchanger_rates w) in
    let r' := fst (fetch_exchanger_rates (with_feed feed w)) in
    fst r' = fst r
    /\ total_requested (snd r') = total_requested (snd r)
    /\ fetched (snd r') = fetched (snd r)
    /\ validated (snd r') = validated (snd r)
    /\ bounds_rejected (snd r') = bounds_rejected (snd r)
    /\ fetch_failed (snd r') = fetch_failed (snd r)
    /\ final_count (snd r') = final_count (snd r).
Proof.
  intros w feed. cbv zeta.
  destruct (run_is_after_loop w) as [H1 [H2 [H3 [H4 [H5 [H6 H7]]]]]].
  destruct (run_is_after_loop (with_feed feed w))
    as [K1 [K2 [K3 [K4 [K5 [K6 K7]]]]]].
  rewrite after_loop_with_feed in K1, K2, K3, K4, K5, K6.
  rewrite rates_state_with_feed in K1.
  rewrite audit_state_with_feed in K2, K3, K4, K5, K6.
  rewrite K7, H7, K1, K2, K3, K4, K5, K6, H1, H2, H3, H4, H5, H6.
  repeat split; reflexivity.
Qed.

(** ** The scraper: the deviations a run records *)

Lemma deviation_entry_absent ecb_rates rates code :
  Py.get rates code = None -> deviation_entry ecb_rates rates code = None.
Proof.
  intros H. unfold deviation_entry. rewrite H.
  destruct (String.eqb code "USD"); reflexivity.
Qed.

Lemma cross_check_one_deviations ecb_rates a w c v code :
  Py.get (cross_check_deviations (fst (cross_check_one ecb_rates (a, w) (c, v)))) code
  = if String.eqb code c then
      match deviation_entry ecb_rates [(c, v)] c with
      | Some d => Some d
      | None => Py.get (cross_check_deviations a) code
      end
    else Py.get (cross_check_deviations a) code.
Proof.
  unfold cross_check_one, deviation_entry. cbn [Py.get].
  rewrite String.eqb_refl.
  destruct (String.eqb code c) eqn:E.
  - apply String.eqb_eq in E. subst code.
    destruct (String.eqb c "USD"); [reflexivity|].
    destruct (Py.get ecb_rates c) as [ecb_rate|]; [|reflexivity].
    destruct (Py.truthy ecb_rate && (0 <? ecb_rate)%float); [|reflexivity].
    destruct (2 <? _)%float; [|reflexivity].
    destruct (15 <? _)%float; cbn [fst cross_check_deviations record_deviation];
      apply get_set_same.
  - apply String.eqb_neq in E.
    destruct (String.eqb c "USD"); [reflexivity|].
    destruct (Py.get ecb_rates c) as [ecb_rate|]; [|reflexivity].
    destruct (Py.truthy ecb_rate && (0 <? ecb_rate)%float); [|reflexivity].
    destruct (2 <? _)%float; [|reflexivity].
    destruct (15 <? _)%float; cbn [fst cross_check_deviations record_deviation];
      apply get_set_other; exact E.
Qed.

Lemma deviation_entry_here ecb_rates c v items :
  deviation_entry ecb_rates ((c, v) :: items) c
  = deviation_entry ecb_rates [(c, v)] c.
Proof.
  unfold deviation_entry. cbn [Py.get]. rewrite String.eqb_refl. reflexivity.
Qed.

Lemma deviation_entry_there ecb_rates c v items code :
  code <> c ->
  deviation_entry ecb_rates ((c, v) :: items) code
  = deviation_entry ecb_rates items code.
Proof.
  intros H. apply String.eqb_neq in H.
  unfold deviation_entry. cbn [Py.get]. rewrite H. reflexivity.
Qed.

Lemma cross_check_fold_deviations ecb_rates items :
  forall acc code,
    NoDup (Py.keys items) ->
    Py.get (cross_check_deviations
              (fst (fold_left (cross_check_one ecb_rates) items acc))) code
    = match deviation_entry ecb_rates items code with
      | Some d => Some d
      | None => Py.get (cross_check_deviations (fst acc)) code
      end.
Proof.
  induction items as [|[c v] items IH]; intros [a w] code Hnd.
  - cbn [fold_left]. unfold deviation_entry. cbn [Py.get].
    destruct (String.eqb code "USD"); reflexivity.
  - cbn [fold_left]. inversion Hnd as [|? ? Hc Hnd']; subst.
    rewrite (IH _ code Hnd').
    pose proof (cross_check_one_deviations ecb_rates a w c v code) as H.
    destruct (cross_check_one ecb_rates (a, w) (c, v)) as [a' w'].
    cbn [fst] in H |- *. rewrite H.
    destruct (String.eqb code c) eqn:E.
    + apply String.eqb_eq in E. subst code.
      rewrite (deviation_entry_here ecb_rates c v items).
      rewrite (deviation_entry_absent ecb_rates items c); [reflexivity|].
      apply get_none_not_in. exact Hc.
    + apply String.eqb_neq in E.
      rewrite (deviation_entry_there _ _ _ _ _ E). reflexivity.
Qed.

Lemma finish_deviations st code :
  NoDup (Py.keys (Scraper.rates st)) ->
  cross_check_deviations (audit st) = [] ->
  Py.get (cross_check_deviations (snd (fst (finish st)))) code
  = deviation_entry (fst (fetch_ecb_reference_rates (world st)))
      (Scraper.rates st) code.
Proof.
  intros Hnd Hnil. unfold finish.
  destruct (fetch_ecb_reference_rates (world st)) as [ecb_rates w1].
  cbn [fst].
  destruct (Py.is_empty ecb_rates) eqn:E.
  - cbn [fst snd cross_check_deviations set_final_count]. rewrite Hnil.
    apply is_empty_nil in E. subst ecb_rates.
    unfold deviation_entry. cbn [Py.get].
    destruct (String.eqb code "USD"); [reflexivity|].
    destruct (Py.get (Scraper.rates st) code); reflexivity.
  - pose proof (cross_check_fold_deviations ecb_rates (Scraper.rates st)
                  (audit st, w1) code Hnd) as H.
    destruct (fold_left _ _ _) as [a w2]. cbn [fst snd] in *.
    cbn [cross_check_deviations set_final_count]. rewrite H, Hnil.
    destruct (deviation_entry _ _ _); reflexivity.
Qed.

Lemma fetch_ecb_reference_rates_feed w w' :
  Scraper.ecb_xml w' = Scraper.ecb_xml w ->
  fst (fetch_ecb_reference_rates w') = fst (fetch_ecb_reference_rates w).
Proof.
  intros H. unfold fetch_ecb_reference_rates.
  change (Scraper.ecb_xml (emit EcbRequest w')) with (Scraper.ecb_xml w').
  change (Scraper.ecb_xml (emit EcbRequest w)) with (Scraper.ecb_xml w).
  rewrite H.
  destruct (Scraper.ecb_xml w) as [cubes|]; [|reflexivity].
  destruct (Py.get (eur_rates_of cubes) "USD") as [eur_usd|]; [|reflexivity].
  destruct (negb (Py.truthy eur_usd) || (eur_usd <=? 0)%float); reflexivity.
Qed.

Lemma fold_fetch_one_deviations pairs :
  forall st,
    cross_check_deviations (audit (fold_left fetch_one pairs st))
    = cross_check_deviations (audit st).
Proof.
  induction pairs as [|[code [ticker invert]] pairs IH]; intros st;
    cbn [fold_left]; [reflexivity|].
  rewrite IH. unfold fetch_one.
  destruct (String.eqb code "USD"); [reflexivity|].
  destruct (fetch_price code ticker (seq 1 MAX_RETRIES) RETRY_DELAY (world st))
    as [[price|] w']; [|reflexivity].
  destruct (Py.get Scraper.RATE_BOUNDS code) as [[lo hi]|]; [|reflexivity].
  destruct (out_of_bounds lo hi _); reflexivity.
Qed.

Lemma after_loop_feed w : Scraper.ecb_xml (world (after_loop w)) = Scraper.ecb_xml w.
Proof.
  unfold after_loop.
  set (st0 := {| Scraper.rates := [("USD", 1%float)]; audit := new_audit;
                 world := print (MsgFetching (List.length EXCHANGER_PAIRS)) w |}).
  pose proof (costs_fetch_loop EXCHANGER_PAIRS st0) as [_ [H _]].
  exact H.
Qed.

Lemma run_deviations w code :
    let rates := fst (fst (fetch_exchanger_rates w)) in
    let audit := snd (fst (fetch_exchanger_rates w)) in
    Py.get (cross_check_deviations audit) code
    = deviation_entry (fst (fetch_ecb_reference_rates w)) rates code.
Proof.
  cbv zeta.
  rewrite fetch_exchanger_rates_rates, fetch_exchanger_rates_finish.
  rewrite (finish_deviations (after_loop w) code).
  - rewrite (fetch_ecb_reference_rates_feed w _ (after_loop_feed w)).
    reflexivity.
  - destruct (tally_after_loop w) as [_ _ _ _ Hk _ _]. exact Hk.
  - unfold after_loop. rewrite fold_fetch_one_deviations. reflexivity.
Qed.

(** X9. The entries of [cross_check_deviations] are determined by the
    accepted rates and the reference rates of the feed: a code has an
    entry exactly when it is not the base, has an accepted rate and a
    positive reference rate, and deviates by more than 2 %; the entry
    holds the accepted rate, the reference rounded to four decimals and
    the deviation rounded to two. *)
Theorem recorded_deviations :
  forall w code,
    let rates := fst (fst (fetch_exchanger_rates w)) in
    let audit := snd (fst (fetch_exchanger_rates w)) in
    Py.get (cross_check_deviations audit) code
    = deviation_entry (fst (fetch_ecb_reference_rates w)) rates code.
Proof. exact run_deviations. Qed.

End FeedProperties.

Section MarketProperties.

Import Audit.
Import Scraper.

(** ** The scraper: the market sections *)

Lemma costs_calls w w' d s : costs w w' d s -> (calls w <= calls w' <= calls w + d)%nat.
Proof.
  intros [_ [_ [evs [_ [Hc [Hd _]]]]]]. lia.
Qed.

Lemma costs_provider w w' d s : costs w w' d s -> provider w' = provider w.
Proof. intros [H _]. exact H. Qed.

Lemma served_widen w0 w w' w'' ticker q :
  provider w = provider w0 ->
  (calls w0 <= calls w)%nat -> (calls w' <= calls w'')%nat ->
  served w w' ticker q -> served w0 w'' ticker q.
Proof.
  intros Hp H1 H2 [n [closes [Hn [Ha Hq]]]].
  exists n, closes. split; [lia|]. split; [congruence | exact Hq].
Qed.

(** The quote [fetch_with_retry] returns comes from a frame the provider
    gave during the call. *)
Lemma fetch_with_retry_served ticker w q :
  fst (fetch_with_retry ticker w) = Some q ->
  served w (snd (fetch_with_retry ticker w)) ticker q.
Proof.
  unfold fetch_with_retry, MAX_RETRIES, served, quote_of.
  cbn [seq]. cbn [fetch_with_retry_from yf_download provider calls].
  change (1 <? 3)%nat with true.
  destruct (provider w (calls w) ticker) as [|closes1] eqn:E1.
  - cbn [fetch_with_retry_from yf_download provider calls print sleep emit].
    change (2 <? 3)%nat with true.
    destruct (provider w (S (calls w)) ticker) as [|closes2] eqn:E2.
    + cbn [fetch_with_retry_from yf_download provider calls print sleep emit].
      change (3 <? 3)%nat with false.
      destruct (provider w (S (S (calls w))) ticker) as [|closes3] eqn:E3.
      * cbn [fst]. discriminate.
      * intros H. exists (S (S (calls w))), closes3.
        destruct (List.length closes3 <? 2)%nat; [discriminate H|].
        destruct ((_ <=? 0)%float || (_ <=? 0)%float); [discriminate H|].
        cbn [fst snd calls] in *. split; [lia|]. split; [exact E3 | exact H].
    + intros H. exists (S (calls w)), closes2.
      destruct (List.length closes2 <? 2)%nat; [discriminate H|].
      destruct ((_ <=? 0)%float || (_ <=? 0)%float); [discriminate H|].
      cbn [fst snd calls] in *. split; [lia|]. split; [exact E2 | exact H].
  - intros H. exists (calls w), closes1.
    destruct (List.length closes1 <? 2)%nat; [discriminate H|].
    destruct ((_ <=? 0)%float || (_ <=? 0)%float); [discriminate H|].
    cbn [fst snd calls] in *. split; [lia|]. split; [exact E1 | exact H].
Qed.

Lemma Subseq_refl {A : Type} (l : list A) : Subseq l l.
Proof. induction l; constructor; assumption. Qed.

Lemma Subseq_app_skip {A : Type} (l l' : list A) x :
  Subseq l l' -> Subseq l (l' ++ [x]).
Proof.
  induction 1; cbn [app].
  - apply Subseq_skip. constructor.
  - apply Subseq_skip. assumption.
  - apply Subseq_keep. assumption.
Qed.

Lemma Subseq_app_keep {A : Type} (l l' : list A) x :
  Subseq l l' -> Subseq (l ++ [x]) (l' ++ [x]).
Proof.
  induction 1; cbn [app].
  - apply Subseq_keep. constructor.
  - apply Subseq_skip. assumption.
  - apply Subseq_keep. assumption.
Qed.

Lemma Subseq_length {A : Type} (l l' : list A) :
  Subseq l l' -> (List.length l <= List.length l')%nat.
Proof. induction 1; cbn [List.length]; lia. Qed.

Lemma Subseq_In {A : Type} (l l' : list A) x : Subseq l l' -> In x l -> In x l'.
Proof.
  induction 1; cbn [In]; [tauto | tauto |].
  intros [H1 | H1]; [left; exact H1 | right; auto].
Qed.

Lemma item_from_widen category w0 w w' item d s :
  costs w w' d s -> item_from category w0 w item -> item_from category w0 w' item.
Proof.
  intros Hc [H1 [H2 H3]]. split; [exact H1|]. split; [exact H2|].
  apply (served_widen w0 w0 w w'); [reflexivity | lia | | exact H3].
  apply costs_calls in Hc. lia.
Qed.

Lemma section_inv_step category w0 done acc entry :
  section_inv category w0 done acc ->
  section_inv category w0 (done ++ [entry])
    (build_one (get_or_none CURRENCY_MAP category) acc entry).
Proof.
  destruct acc as [items w], entry as [symbol label].
  intros [Hc [Hs Hf]]. cbn [fst snd] in *.
  unfold build_one.
  pose proof (costs_fetch_with_retry symbol w) as Hc1.
  pose proof (fetch_with_retry_served symbol w) as Hq.
  destruct (fetch_with_retry symbol w) as [[q|] w1];
    unfold section_inv; cbn [fst snd] in *.
  - split; [|split].
    + rewrite length_app. cbn [List.length].
      eapply costs_step; [exact Hc | exact Hc1 | lia | lia].
    + rewrite map_app. cbn [map entry_of item_ticker item_name].
      apply Subseq_app_keep. exact Hs.
    + apply Forall_app. split.
      * eapply Forall_impl; [|exact Hf].
        intros item. apply (item_from_widen category w0 w w1 item _ _ Hc1).
      * constructor; [|constructor].
        split; [reflexivity|]. split; [reflexivity|].
        cbn [item_ticker item_price item_trend].
        apply (served_widen w0 w w1 w1);
          [apply (costs_provider _ _ _ _ Hc)
          | apply (costs_calls _ _ _ _ Hc) | lia |].
        destruct q as [p t]. apply Hq. reflexivity.
  - split; [|split].
    + rewrite length_app. cbn [List.length].
      eapply costs_step; [exact Hc | exact Hc1 | lia | lia].
    + apply Subseq_app_skip. exact Hs.
    + eapply Forall_impl; [|exact Hf].
      intros item. apply (item_from_widen category w0 w w1 item _ _ Hc1).
Qed.

Lemma section_inv_fold category w0 rest :
  forall done acc,
    section_inv category w0 done acc ->
    section_inv category w0 (done ++ rest)
      (fold_left (build_one (get_or_none CURRENCY_MAP category)) rest acc).
Proof.
  induction rest as [|entry rest IH]; intros done acc H; cbn [fold_left].
  - rewrite app_nil_r. exact H.
  - replace (done ++ entry :: rest) with ((done ++ [entry]) ++ rest)
      by (rewrite <- app_assoc; reflexivity).
    apply IH. apply section_inv_step. exact H.
Qed.

Lemma build_section_inv category tickers w :
  section_inv category w tickers (build_section category tickers w).
Proof.
  unfold build_section.
  apply (section_inv_fold category w tickers [] ([], w)).
  split; [apply costs_refl|]. split; [constructor | constructor].
Qed.

(** X10. The items of a section are built for tickers of the category,
    in the order of the registry and with their labels, at most one per
    ticker; each holds the currency of the category, the unit of its
    ticker, and the price and trend made of a frame the provider gave
    for that ticker during the call. *)
Theorem build_section_items :
  forall category tickers w,
    let items := fst (build_section category tickers w) in
    let w' := snd (build_section category tickers w) in
    Subseq (map entry_of items) tickers
    /\ (List.length items <= List.length tickers)%nat
    /\ Forall (item_from category w w') items.
Proof.
  intros category tickers w. cbv zeta.
  destruct (build_section_inv category tickers w) as [_ [Hs Hf]].
  split; [exact Hs|]. split; [|exact Hf].
  apply Subseq_length in Hs. rewrite length_map in Hs. exact Hs.
Qed.

(** X11. A section costs at most three downloads and six seconds of
    sleep per ticker. *)
Theorem build_section_costs :
  forall category tickers w,
    costs w (snd (build_section category tickers w))
      (3 * List.length tickers) (6 * Z.of_nat (List.length tickers)).
Proof.
  intros category tickers w.
  destruct (build_section_inv category tickers w) as [Hc _]. exact Hc.
Qed.

End MarketProperties.

Section MainProperties.

Import Audit.
Import Scraper.

(** ** The scraper: [main] *)

Lemma main_is_finish menv w :
  Scraper.main menv w = main_finish menv (sections_of menv w).
Proof. unfold Scraper.main, main_finish, sections_of. reflexivity. Qed.

Lemma set_new {V : Type} (d : Py.dict V) k v :
  ~ In k (Py.keys d) -> Py.set d k v = d ++ [(k, v)].
Proof.
  induction d as [|[k' v'] d IH]; cbn [Py.set Py.keys map fst In app];
    [reflexivity|].
  intros H. destruct (String.eqb k k') eqn:E.
  - apply String.eqb_eq in E. subst. tauto.
  - f_equal. apply IH. tauto.
Qed.

Lemma count_items_app results results' :
  count_items (results ++ results')
  = (count_items results + count_items results')%nat.
Proof.
  unfold count_items. induction results as [|entry results IH]; cbn [app fold_right].
  - reflexivity.
  - rewrite IH. lia.
Qed.

Lemma main_one_fields acc category tickers :
  let section := fst (build_section category tickers (sections_world acc)) in
  let acc' := main_one acc (category, tickers) in
  results acc' = Py.set (results acc) category section
  /\ total acc' = (total acc + List.length section)%nat
  /\ sections_world acc'
     = snd (build_section category tickers (sections_world acc)).
Proof.
  cbv zeta. unfold main_one.
  destruct (build_section category tickers (sections_world acc)) as [section w1].
  repeat split.
Qed.

Lemma sections_fold categories :
  forall acc,
    NoDup (Py.keys (results acc) ++ Py.keys categories) ->
    total acc = count_items (results acc) ->
    let acc' := fold_left main_one categories acc in
    total acc' = count_items (results acc')
    /\ Py.keys (results acc') = Py.keys (results acc) ++ Py.keys categories
    /\ costs (sections_world acc) (sections_world acc')
         (3 * count_tickers categories) (6 * Z.of_nat (count_tickers categories)).
Proof.
  induction categories as [|[category tickers] categories IH];
    intros acc Hnd Ht; cbv zeta; cbn [fold_left].
  - rewrite app_nil_r. split; [exact Ht|]. split; [reflexivity | apply costs_refl].
  - assert (~ In category (Py.keys (results acc))) as Hnew.
    { intros Hin. apply NoDup_remove_2 in Hnd. apply Hnd.
      apply in_or_app. now left. }
    pose proof (build_section_inv category tickers (sections_world acc)) as [Hc _].
    destruct (main_one_fields acc category tickers) as [Hr [Htot Hw]].
    set (acc1 := main_one acc (category, tickers)) in *. clearbody acc1.
    set (section := fst (build_section category tickers (sections_world acc))) in *.
    rewrite <- Hw in Hc.
    assert (Py.keys (results acc1) = Py.keys (results acc) ++ [category]) as Hk
      by (rewrite Hr; apply keys_set_new; exact Hnew).
    destruct (IH acc1) as [IH1 [IH2 IH3]].
    + rewrite Hk, <- app_assoc. exact Hnd.
    + rewrite Htot, Hr, (set_new _ _ _ Hnew), count_items_app, Ht.
      change (count_items [(category, section)])
        with (List.length section + 0)%nat. lia.
    + split; [exact IH1|]. split.
      * rewrite IH2, Hk, <- app_assoc. reflexivity.
      * change (count_tickers ((category, tickers) :: categories))
          with (List.length tickers + count_tickers categories)%nat.
        eapply costs_step; [exact Hc | exact IH3 | lia | lia].
Qed.

Lemma sections_of_facts menv w :
  let acc := sections_of menv w in
  total acc = count_items (results acc)
  /\ Py.keys (results acc)
     = ["indices"; "currencies"; "energy"; "metals"; "agriculture"]
  /\ costs w (sections_world acc) 93 186.
Proof.
  unfold sections_of.
  set (acc0 := {| results := []; total := 0%nat; lines := _; sections_world := w |}).
  apply (sections_fold TICKERS acc0).
  - apply distinct_NoDup. vm_compute. reflexivity.
  - reflexivity.
Qed.

Lemma total_is_section_items results :
  Py.keys results = ["indices"; "currencies"; "energy"; "metals"; "agriculture"] ->
  count_items results
  = (List.length (section_of results "indices")
     + List.length (section_of results "currencies")
     + List.length (section_of results "energy")
     + List.length (section_of results "metals")
     + List.length (section_of results "agriculture"))%nat.
Proof.
  intros H.
  destruct results as [|[k1 s1] [|[k2 s2] [|[k3 s3] [|[k4 s4] [|[k5 s5] [|]]]]]];
    try discriminate H.
  cbn [Py.keys map fst] in H. injection H as -> -> -> -> ->.
  unfold count_items, section_of. cbn. lia.
Qed.

Lemma main_finish_written menv acc :
  let r := main_finish menv acc in
  let run := fetch_exchanger_rates (sections_world acc) in
  out_totalItems (written r) = total acc
  /\ section_items (written r)
     = (List.length (section_of (results acc) "indices")
        + List.length (section_of (results acc) "currencies")
        + List.length (section_of (results acc) "energy")
        + List.length (section_of (results acc) "metals")
        + List.length (section_of (results acc) "agriculture"))%nat
  /\ out_rates (written r) = fst (fst run)
  /\ out_exchanger_audit (written r) = snd (fst run)
  /\ main_world r = snd run
  /\ exit_status r
     = (if (total acc =? 0)%nat then 1
        else if (validated (snd (fst run)) <? 10)%nat then 1 else 0)%Z.
Proof.
  cbv zeta. unfold main_finish.
  destruct (fetch_exchanger_rates (sections_world acc)) as [[rates audit] w'].
  cbn [fst snd].
  destruct (total acc =? 0)%nat; [repeat split|].
  destruct (validated audit <? 10)%nat; repeat split.
Qed.

(** X12. The count [totalItems] of the document [main] writes is the
    number of items in its five sections. *)
Theorem main_counts_the_items :
  forall menv w,
    out_totalItems (written (Scraper.main menv w))
    = section_items (written (Scraper.main menv w)).
Proof.
  intros menv w. rewrite main_is_finish.
  destruct (sections_of_facts menv w) as [Ht [Hk _]].
  destruct (main_finish_written menv (sections_of menv w)) as [H1 [H2 _]].
  rewrite H1, H2, Ht. apply total_is_section_items. exact Hk.
Qed.

(** X13. A run of [main] makes at most 192 downloads, three for each of
    the 31 market tickers and of the 33 currencies, and sleeps at most
    384 seconds. *)
Theorem main_costs :
  forall menv w, costs w (main_world (Scraper.main menv w)) 192 384.
Proof.
  intros menv w. rewrite main_is_finish.
  destruct (sections_of_facts menv w) as [_ [_ Hc]].
  destruct (main_finish_written menv (sections_of menv w)) as [_ [_ [_ [_ [Hw _]]]]].
  rewrite Hw.
  eapply (costs_step _ _ _ 93 99 186 198);
    [exact Hc | apply costs_fetch_exchanger_rates | lia | lia].
Qed.

Lemma main_exit menv acc :
  let r := main_finish menv acc in
  (exit_status r = 0%Z \/ exit_status r = 1%Z)
  /\ (exit_status r = 0%Z
      <-> (0 < out_totalItems (written r))%nat
          /\ (11 <= List.length (out_rates (written r)))%nat).
Proof.
  cbv zeta.
  destruct (main_finish_written menv acc) as [H1 [_ [H3 [_ [_ H6]]]]].
  rewrite H6, H1, H3, run_length.
  destruct (total acc =? 0)%nat eqn:E.
  - apply Nat.eqb_eq in E. split; [now right|]. split; [discriminate | lia].
  - apply Nat.eqb_neq in E.
    destruct (validated _ <? 10)%nat eqn:E'.
    + apply Nat.ltb_lt in E'. split; [now right|]. split; [discriminate | lia].
    + apply Nat.ltb_ge in E'. split; [now left|]. split; [lia | reflexivity].
Qed.

(** X14. The process of [main] ends with status 0 or 1, and with 0
    exactly when the document it wrote counts at least one market item
    and holds at least eleven rates, the base and ten validated
    ones. *)
Theorem main_exit_status :
  forall menv w,
    let r := Scraper.main menv w in
    (exit_status r = 0%Z \/ exit_status r = 1%Z)
    /\ (exit_status r = 0%Z
        <-> (0 < out_totalItems (written r))%nat
            /\ (11 <= List.length (out_rates (written r)))%nat).
Proof.
  intros menv w. cbv zeta. rewrite main_is_finish. apply main_exit.
Qed.

Lemma run_usd w :
  Py.get (fst (fst (fetch_exchanger_rates w))) "USD" = Some 1%float.
Proof.
  rewrite fetch_exchanger_rates_rates.
  apply (inv_usd _ _ _ (loop_inv_after_loop w)).
Qed.

Lemma run_final_count w :
  final_count (snd (fst (fetch_exchanger_rates w)))
  = Some (List.length (fst (fst (fetch_exchanger_rates w)))).
Proof.
  destruct (run_is_after_loop w) as [_ [_ [_ [_ [_ [_ H]]]]]]. exact H.
Qed.

(** X15. The document [main] writes, whatever status the process ends
    with, carries the time it was built, the base rate 1.0 under USD,
    and an audit block whose [final_count] is the number of rates
    written and whose [total_requested] is 33. *)
Theorem main_document :
  forall menv w,
    let out := written (Scraper.main menv w) in
    out_last_update out = now menv
    /\ Py.get (out_rates out) "USD" = Some 1%float
    /\ final_count (out_exchanger_audit out) = Some (List.length (out_rates out))
    /\ total_requested (out_exchanger_audit out) = 33%nat.
Proof.
  intros menv w. cbv zeta. rewrite main_is_finish.
  generalize (sections_of menv w). intros acc.
  destruct (main_finish_written menv acc) as [_ [_ [H3 [H4 _]]]].
  rewrite H3, H4.
  split.
  - unfold main_finish.
    destruct (fetch_exchanger_rates (sections_world acc)) as [[rates audit] w'].
    destruct (total acc =? 0)%nat; [reflexivity|].
    destruct (validated audit <? 10)%nat; reflexivity.
  - split; [apply run_usd|]. split; [apply run_final_count|].
    destruct (run_is_after_loop (sections_world acc)) as [_ [_ [_ [_ [_ [Ht _]]]]]].
    destruct (tally_after_loop (sections_world acc)) as [T1 _ _ _ _ _ _].
    rewrite Ht. exact T1.
Qed.

Lemma served_needs_a_frame w w' ticker q :
  provider_down w -> ~ served w w' ticker q.
Proof.
  intros Hd [n [closes [_ [H _]]]]. rewrite Hd in H. discriminate.
Qed.

Lemma build_section_down category tickers w :
  provider_down w -> fst (build_section category tickers w) = [].
Proof.
  intros Hd. destruct (build_section_inv category tickers w) as [_ [_ Hf]].
  destruct (fst (build_section category tickers w)) as [|item items];
    [reflexivity|].
  inversion Hf as [|? ? [_ [_ Hs]] _]; subst.
  exfalso. exact (served_needs_a_frame _ _ _ _ Hd Hs).
Qed.

Lemma sections_down categories :
  forall acc,
    provider_down (sections_world acc) ->
    total (fold_left main_one categories acc) = total acc.
Proof.
  induction categories as [|[category tickers] categories IH]; intros acc Hd;
    cbn [fold_left]; [reflexivity|].
  destruct (main_one_fields acc category tickers) as [_ [Htot Hw]].
  pose proof (build_section_inv category tickers (sections_world acc)) as [Hc _].
  rewrite IH.
  - rewrite Htot, (build_section_down _ _ _ Hd). cbn [List.length]. lia.
  - intros n t. rewrite Hw, (costs_provider _ _ _ _ Hc). apply Hd.
Qed.

Lemma run_down w :
  provider_down w ->
  let r := fst (fetch_exchanger_rates w) in
  fst r = [("USD", 1%float)]
  /\ validated (snd r) = 0%nat
  /\ bounds_rejected (snd r) = []
  /\ List.length (fetch_failed (snd r)) = 33%nat.
Proof.
  intros Hd. cbv zeta.
  assert (fst (fst (fetch_exchanger_rates w)) = [("USD", 1%float)]) as Hr.
  { rewrite fetch_exchanger_rates_rates. unfold after_loop.
    rewrite all_raise_keeps_rates; [reflexivity|]. exact Hd. }
  pose proof (run_length w) as Hl. rewrite Hr in Hl. cbn [List.length] in Hl.
  destruct (run_is_after_loop w) as [_ [Hb [Hf [Hv [Hfe _]]]]].
  destruct (tally_after_loop w) as [_ T2 T3 _ _ _ _].
  change (List.length (filter (fun c => negb (String.eqb c "USD"))
                         (Py.keys EXCHANGER_PAIRS))) with 33%nat in T3.
  assert (bounds_rejected (audit (after_loop w)) = []) as Hnil.
  { destruct (bounds_rejected (audit (after_loop w))) as [|r rs] eqn:E;
      [reflexivity|].
    destruct (inv_rejected _ _ _ (loop_inv_after_loop w) r) as [_ [_ Hq]];
      [rewrite E; now left|].
    destruct Hq as [ticker [invert [price [lo [hi [_ [[n [closes [_ [Ha _]]]] _]]]]]]].
    rewrite Hd in Ha. discriminate. }
  split; [exact Hr|]. split; [lia|]. split; [rewrite Hb; exact Hnil|].
  rewrite Hf. rewrite Hnil in T2. cbn [List.length] in T2. lia.
Qed.

(** X16. When the provider raises on every download, [main] still
    writes its document, with no market item, the base rate alone, no
    rejected rate and all 33 currencies listed as failed, and the
    process ends with status 1. *)
Theorem main_with_the_provider_down :
  forall menv w,
    provider_down w ->
    let r := Scraper.main menv w in
    exit_status r = 1%Z
    /\ out_totalItems (written r) = 0%nat
    /\ out_rates (written r) = [("USD", 1%float)]
    /\ bounds_rejected (out_exchanger_audit (written r)) = []
    /\ List.length (fetch_failed (out_exchanger_audit (written r))) = 33%nat.
Proof.
  intros menv w Hd. cbv zeta. rewrite main_is_finish.
  assert (total (sections_of menv w) = 0%nat) as Ht
    by (unfold sections_of; rewrite sections_down; [reflexivity | exact Hd]).
  assert (provider_down (sections_world (sections_of menv w))) as Hd'.
  { destruct (sections_of_facts menv w) as [_ [_ Hc]].
    intros n t. rewrite (costs_provider _ _ _ _ Hc). apply Hd. }
  revert Ht Hd'. generalize (sections_of menv w). intros acc Ht Hd'.
  destruct (main_finish_written menv acc) as [H1 [_ [H3 [H4 [_ H6]]]]].
  destruct (run_down (sections_world acc) Hd') as [R1 [_ [R3 R4]]].
  rewrite H6, H1, H3, H4, Ht. cbn [Nat.eqb].
  split; [reflexivity|]. split; [reflexivity|]. split; [exact R1|].
  split; [exact R3 | exact R4].
Qed.

Lemma main_with_the_provider_down_witness :
  provider_down all_fail_world
  /\ exit_status
       (Scraper.main {| started := "2026-02-01T10:00:00+00:00";
                        now := "2026-02-01T10:03:00+00:00";
                        out_path := "/srv/Backend/market_data.json" |}
          all_fail_world) = 1%Z.
Proof.
  split; [intros n t; reflexivity|].
  apply (main_with_the_provider_down _ all_fail_world).
  intros n t. reflexivity.
Defined.

End MainProperties.

Section AuditRunProperties.

Import Audit.

(** ** The audit: the summary and the checks that can block *)

Create HintDb audit_run.
#[local] Hint Resolve flags_new_state flags_add_check flags_set_details
  flags_set_summary flags_set_status flags_check_freshness
  flags_check_minimum_count flags_check_usd_base flags_check_required
  flags_check_bounds flags_check_ecb flags_check_scraper_audit : audit_run.

Lemma bounds_fold_violations rates :
  forall acc,
    fst (fold_left bounds_one rates acc) = fst acc ++ violations rates.
Proof.
  unfold violations.
  induction rates as [|[code rate] rates IH]; intros [bv details];
    cbn [fold_left].
  - cbn. now rewrite app_nil_r.
  - rewrite IH. unfold bounds_one, out_of_range. cbn [filter fst snd].
    destruct (String.eqb code "USD"); cbn [negb andb]; [reflexivity|].
    destruct (Py.get RATE_BOUNDS code) as [[lo hi]|]; [|reflexivity].
    destruct (negb ((lo <=? rate)%float && (rate <=? hi)%float));
      cbn [fst map]; [|reflexivity].
    rewrite <- app_assoc. reflexivity.
Qed.

Lemma check_bounds_violations rates s :
  fst (check_bounds rates s) = violations rates.
Proof.
  unfold check_bounds.
  pose proof (bounds_fold_violations rates ([], details_per_currency (report s)))
    as H.
  destruct (fold_left bounds_one rates _) as [bv details].
  cbn [fst app] in H. subst bv.
  destruct (violations rates); reflexivity.
Qed.

Lemma flags_snd_check_bounds rates s :
  flags_mirror_checks s -> flags_mirror_checks (snd (check_bounds rates s)).
Proof. apply flags_check_bounds. Qed.

Lemma summary_check_freshness env data s :
  summary (report (check_freshness env data s)) = summary (report s).
Proof.
  unfold check_freshness.
  destruct (parse_last_update env (last_update data)); [|reflexivity].
  destruct (PrimFloat.ltb _ _); reflexivity.
Qed.

Lemma run_audit_early env :
  stops_early env = true ->
  summary (run_audit env) = None
  /\ report_status (run_audit env) = CRITICAL
  /\ existsb is_critical (checks (run_audit env)) = true.
Proof.
  unfold stops_early, run_audit.
  destruct (load_market_data env) as [data|]; [|intros _; repeat split].
  intros ->.
  set (s2 := check_freshness env data _).
  assert (summary (report s2) = None) as Hs
    by (subst s2; rewrite summary_check_freshness; reflexivity).
  clearbody s2.
  cbn [report set_status summary report_status checks add_check].
  split; [exact Hs|]. split; [reflexivity|].
  rewrite existsb_app. cbn. apply orb_true_r.
Qed.

Lemma run_audit_complete env data :
  load_market_data env = Some data ->
  Py.is_empty (rates data) = false ->
  summary (run_audit env)
  = Some (summary_of (rates data) (checks (run_audit env))).
Proof.
  intros Hload Hne. unfold run_audit. rewrite Hload, Hne.
  set (s6 := check_required _ _).
  assert (flags_mirror_checks s6) as H6
    by (subst s6; auto 10 with audit_run).
  pose proof (check_bounds_violations (rates data) s6) as Hbv.
  pose proof (flags_snd_check_bounds (rates data) s6 H6) as H7.
  destruct (check_bounds (rates data) s6) as [bv s7]. cbn [fst snd] in Hbv, H7.
  subst bv.
  set (s9 := check_scraper_audit data (check_ecb env (rates data) s7)).
  assert (flags_mirror_checks s9) as [Hc Hw]
    by (subst s9; auto 10 with audit_run).
  cbn [report set_status set_summary summary checks].
  unfold summary_of. rewrite Hc, Hw. reflexivity.
Qed.

(** X17. The summary of the report is missing exactly when the audit
    returns early, without the file or without rates; otherwise it
    counts the stored rates, the codes check 7 found out of bounds, and
    the WARNING checks of the report, and its flag says whether a check
    is CRITICAL. *)
Theorem run_audit_summary :
  forall env,
    summary (run_audit env)
    = match load_market_data env with
      | None => None
      | Some data =>
          if Py.is_empty (rates data) then None
          else Some (summary_of (rates data) (checks (run_audit env)))
      end.
Proof.
  intros env.
  destruct (load_market_data env) as [data|] eqn:Hload.
  - destruct (Py.is_empty (rates data)) eqn:Hne.
    + apply run_audit_early. unfold stops_early. rewrite Hload. exact Hne.
    + apply (run_audit_complete env data Hload Hne).
  - apply run_audit_early. unfold stops_early. rewrite Hload. reflexivity.
Qed.

Lemma status_check_required rates s :
  exists c, check c = "required_currencies" /\ status c <> CRITICAL
            /\ extends s (check_required rates s) [c].
Proof.
  unfold check_required.
  destruct (filter _ _); eexists;
    (split; [|split; [|apply extends_add_check]]); try reflexivity;
    discriminate.
Qed.

Lemma status_check_bounds rates s :
  exists c, check c = "bounds_validation" /\ status c <> CRITICAL
            /\ extends s (snd (check_bounds rates s)) [c].
Proof.
  unfold check_bounds.
  destruct (fold_left bounds_one rates _) as [[|v vs] details]; cbn [snd];
    eexists; (split; [|split; [|unfold extends; cbn; reflexivity]]);
    try reflexivity; discriminate.
Qed.

Lemma extends_minimum_check rates s :
  extends s (check_minimum_count rates s) [minimum_check rates].
Proof.
  unfold check_minimum_count, minimum_check.
  destruct (Nat.ltb _ _); apply extends_add_check.
Qed.

Lemma scraper_checks_warn data c :
  In c (scraper_checks data) -> status c <> CRITICAL.
Proof.
  unfold scraper_checks.
  destruct (exchanger_audit data) as [a|]; [|intros []].
  destruct (Scraper.fetch_failed a), (Scraper.bounds_rejected a); cbn;
    intros Hin;
    repeat (destruct Hin as [<- | Hin]; [discriminate|]);
    destruct Hin.
Qed.

(** The checks of a run that gets past the two early returns, with
    what is known of the third, the sixth and the seventh. *)
Lemma run_audit_checks_status env data :
  load_market_data env = Some data ->
  Py.is_empty (rates data) = false ->
  exists c2 c6 c7,
    check c2 = "freshness"
    /\ check c6 = "required_currencies" /\ status c6 <> CRITICAL
    /\ check c7 = "bounds_validation" /\ status c7 <> CRITICAL
    /\ checks (run_audit env)
       = [mk_check "file_exists" PASS ""; c2;
          mk_check "rates_present" PASS
            (Py.str_nat (List.length (rates data)) ++ " rates found");
          minimum_check (rates data); usd_check (rates data); c6; c7;
          ecb_check env (rates data)]
         ++ scraper_checks data.
Proof.
  intros Hload Hne. unfold run_audit. rewrite Hload, Hne.
  set (s1 := add_check "file_exists" PASS "" (new_state env)).
  destruct (extends_check_freshness env data s1) as [c2 [N2 E2]].
  set (s2 := check_freshness env data s1) in *.
  set (s3 := add_check "rates_present" PASS _ s2).
  pose proof (extends_minimum_check (rates data) s3) as E4.
  set (s4 := check_minimum_count (rates data) s3) in *.
  pose proof (extends_check_usd_base (rates data) s4) as E5.
  set (s5 := check_usd_base (rates data) s4) in *.
  destruct (status_check_required (rates data) s5) as [c6 [N6 [S6 E6]]].
  set (s6 := check_required (rates data) s5) in *.
  destruct (status_check_bounds (rates data) s6) as [c7 [N7 [S7 E7]]].
  destruct (check_bounds (rates data) s6) as [bv s7]. cbn [snd] in E7.
  pose proof (extends_check_ecb env (rates data) s7) as E8.
  set (s8 := check_ecb env (rates data) s7) in *.
  pose proof (extends_check_scraper_audit data s8) as E9.
  set (s9 := check_scraper_audit data s8) in *.
  exists c2, c6, c7. repeat (split; [assumption|]).
  cbn [report set_status set_summary checks]. unfold extends in *.
  rewrite E9, E8, E7, E6, E5, E4. subst s3.
  cbn [report add_check checks]. rewrite E2. subst s1.
  cbn [report add_check checks new_state app].
  rewrite <- ?app_assoc. reflexivity.
Qed.

Lemma check_names env data :
  check (minimum_check (rates data)) = "minimum_count"
  /\ check (usd_check (rates data)) = "usd_base"
  /\ check (ecb_check env (rates data)) = "ecb_cross_check".
Proof.
  split; [|split].
  - unfold minimum_check. destruct (Nat.ltb _ _); reflexivity.
  - unfold usd_check. destruct (Py.get _ _) as [v|];
      [destruct (PrimFloat.eqb v 1)|]; reflexivity.
  - unfold ecb_check, cross_check_outcome.
    destruct (Py.is_empty (fetch_ecb_rates env)); [reflexivity|].
    destruct (filter (exceeds 10) _); [destruct (filter (exceeds 3) _)|];
      reflexivity.
Qed.

(** X18. Only six checks can be CRITICAL: the file, the freshness, the
    presence of rates, their number, the base rate and the ECB
    cross-check.  A stored rate out of its bounds, a missing required
    currency and the failures the scraper reports are never more than
    a WARNING. *)
Theorem only_six_checks_can_block :
  forall env c,
    In c (checks (run_audit env)) -> status c = CRITICAL ->
    In (check c) blocking_checks.
Proof.
  intros env c Hin Hc. unfold blocking_checks.
  destruct (load_market_data env) as [data|] eqn:Hload.
  - destruct (Py.is_empty (rates data)) eqn:Hne.
    + revert Hin. unfold run_audit. rewrite Hload, Hne.
      cbn [report set_status checks add_check].
      pose proof (extends_check_freshness env data
                    (add_check "file_exists" PASS "" (new_state env)))
        as [c2 [N2 E2]].
      unfold extends in E2. rewrite E2. cbn [report add_check checks new_state app].
      intros [<- | [<- | [<- | []]]]; [discriminate Hc | |];
        [rewrite N2|]; cbn; tauto.
    + destruct (run_audit_checks_status env data Hload Hne)
        as [c2 [c6 [c7 [N2 [N6 [S6 [N7 [S7 E]]]]]]]].
      destruct (check_names env data) as [N4 [N5 N8]].
      rewrite E in Hin. apply in_app_or in Hin as [Hin | Hin].
      * cbn [In] in Hin.
        destruct Hin as [<- | [<- | [<- | [<- | [<- | [<- | [<- | [<- | []]]]]]]]];
          try discriminate Hc; try contradiction;
          rewrite ?N2, ?N4, ?N5, ?N8; cbn; tauto.
      * exfalso. exact (scraper_checks_warn data c Hin Hc).
  - revert Hin. unfold run_audit. rewrite Hload.
    cbn [report set_status checks add_check new_state app].
    intros [<- | []]. cbn. tauto.
Qed.

Lemma only_six_checks_can_block_witness :
  In "ecb_cross_check" blocking_checks.
Proof.
  apply (only_six_checks_can_block eur_off_env
           (mk_check "ecb_cross_check" CRITICAL "Critical deviations: EUR(15.0%)")).
  - vm_compute. do 7 right. left. reflexivity.
  - reflexivity.
Defined.

(** ** The audit: [main] *)

Lemma summary_none_early env :
  summary (run_audit env) = None -> stops_early env = true.
Proof.
  unfold stops_early.
  destruct (load_market_data env) as [data|] eqn:Hload; [|reflexivity].
  destruct (Py.is_empty (rates data)) eqn:Hne; [reflexivity|].
  rewrite (run_audit_complete env data Hload Hne). discriminate.
Qed.

Lemma critical_status_iff env :
  existsb is_critical (checks (run_audit env))
  = match report_status (run_audit env) with CRITICAL => true | _ => false end.
Proof.
  rewrite report_status_overall. unfold overall_status.
  destruct (existsb is_critical _); [reflexivity|].
  destruct (existsb is_warning _); reflexivity.
Qed.

(** X19. [main] saves the report of [run_audit], and its process ends
    with status 1 when a check of that report is CRITICAL and with
    status 0 otherwise, a report with WARNING checks included. *)
Theorem audit_main_status :
  forall menv,
    let r := Audit.main menv in
    saved r = run_audit (env menv)
    /\ process_status (ending r)
       = if existsb is_critical (checks (saved r)) then 1%Z else 0%Z.
Proof.
  intros menv. cbv zeta. unfold Audit.main.
  pose proof (critical_status_iff (env menv)) as Hs.
  pose proof (run_audit_early (env menv)) as He.
  pose proof (summary_none_early (env menv)) as Hn.
  destruct (summary (run_audit (env menv))) as [s|].
  - destruct (report_status (run_audit (env menv)));
      cbn [saved ending process_status]; rewrite Hs; split; reflexivity.
  - cbn [saved ending process_status].
    destruct (He (Hn eq_refl)) as [_ [_ ->]]. split; reflexivity.
Qed.

Lemma ecb_console_early menv :
  stops_early (env menv) = true -> ecb_console menv = [].
Proof.
  unfold stops_early, ecb_console.
  destruct (load_market_data (env menv)) as [data|]; [|reflexivity].
  intros ->. reflexivity.
Qed.

(** X20. When the audit returns early, [main] saves the report, prints
    the status line, and then fails on the missing summary with a
    [KeyError]: the lines of the checks and the verdict are never
    printed.  On every other run it ends through [sys.exit]. *)
Theorem audit_main_without_summary :
  forall menv,
    let r := Audit.main menv in
    if stops_early (env menv) then
      ending r = KeyError "total_rates" /\ console r = early_console menv
    else
      ending r = Exit 0 \/ ending r = Exit 1.
Proof.
  intros menv. cbv zeta.
  destruct (stops_early (env menv)) eqn:E.
  - destruct (run_audit_early (env menv) E) as [Hs [Hst _]].
    unfold Audit.main. rewrite Hs, Hst, (ecb_console_early menv E).
    split; reflexivity.
  - unfold Audit.main.
    destruct (summary (run_audit (env menv))) as [s|] eqn:Hs.
    + destruct (report_status (run_audit (env menv))); cbn [ending]; auto.
    + apply summary_none_early in Hs. congruence.
Qed.

End AuditRunProperties.

Section AuditTableProperties.

Import Audit.

(** ** The audit: the reference rates and the table of the currencies *)

Lemma NoDup_keys_set {V : Type} (d : Py.dict V) k v :
  NoDup (Py.keys d) -> NoDup (Py.keys (Py.set d k v)).
Proof.
  intros H. destruct (in_dec string_dec k (Py.keys d)) as [Hin | Hnew].
  - rewrite (keys_set_in d k v Hin). exact H.
  - rewrite (keys_set_new d k v Hnew).
    apply NoDup_app; [exact H | repeat constructor; intros [] |].
    intros c Hc [<- | []]. contradiction.
Qed.

Lemma eur_rates_NoDup cubes : NoDup (Py.keys (eur_rates cubes)).
Proof.
  unfold eur_rates.
  assert (NoDup (Py.keys [("EUR", 1%float)])) as H
    by (repeat constructor; intros []).
  revert H. generalize [("EUR", 1%float)].
  induction cubes as [|cube cubes IH]; intros d H; cbn [fold_left];
    [exact H|].
  apply IH. apply NoDup_keys_set. exact H.
Qed.

Lemma to_usd_fold eur_usd items :
  forall acc,
    NoDup (Py.keys acc ++ Py.keys (without_usd items)) ->
    fold_left (to_usd eur_usd) items acc
    = acc ++ map (fun item => (fst item, Py.round (snd item / eur_usd)%float 6))
               (without_usd items).
Proof.
  induction items as [|[code val] items IH]; intros acc Hnd; cbn [fold_left].
  - cbn. now rewrite app_nil_r.
  - unfold without_usd in *. cbn [filter fst] in *. unfold to_usd at 2.
    destruct (String.eqb code "USD"); cbn [negb] in *.
    + apply IH. exact Hnd.
    + assert (~ In code (Py.keys acc)) as Hnew.
      { intros Hin. apply NoDup_remove_2 in Hnd. apply Hnd.
        apply in_or_app. now left. }
      rewrite IH.
      * rewrite (set_new _ _ _ Hnew), <- app_assoc. reflexivity.
      * rewrite (keys_set_new _ _ _ Hnew), <- app_assoc. exact Hnd.
Qed.

Lemma NoDup_keys_filter {V : Type} (p : string * V -> bool) (d : Py.dict V) :
  NoDup (Py.keys d) -> NoDup (Py.keys (filter p d)).
Proof.
  unfold Py.keys. induction d as [|[k v] d IH]; cbn [filter map fst];
    [constructor|].
  intros H. inversion H as [|? ? Hk Hd]; subst.
  destruct (p (k, v)); cbn [map fst]; [|auto].
  constructor; [|auto].
  intros Hin. apply Hk. apply in_map_iff in Hin as [[k' v'] [E Hin]].
  cbn [fst] in E. subst k'. apply filter_In in Hin as [Hin _].
  change (In (fst (k, v')) (map fst d)). now apply in_map.
Qed.

Lemma without_usd_no_usd rates : ~ In "USD" (Py.keys (without_usd rates)).
Proof.
  unfold Py.keys, without_usd. intros Hin.
  apply in_map_iff in Hin as [[k v] [E Hin]]. cbn [fst] in E. subst k.
  apply filter_In in Hin as [_ H]. discriminate H.
Qed.

(** X21. The reference rates of the audit are the base rate 1.0 under
    USD, then one entry for each currency of the feed other than USD,
    EUR included, in the order of the feed: its rate divided by the
    rate of the dollar and rounded to six decimals.  Without the feed,
    without the dollar in it, or with a dollar rate that is [<= 0], the
    mapping is empty. *)
Theorem reference_rates_structure :
  forall env,
    fetch_ecb_rates env
    = match ecb_xml env with
      | None => []
      | Some cubes =>
          match Py.get (eur_rates cubes) "USD" with
          | Some eur_usd =>
              if (eur_usd <=? 0)%float then []
              else converted eur_usd (eur_rates cubes)
          | None => []
          end
      end.
Proof.
  intros env. unfold fetch_ecb_rates.
  destruct (ecb_xml env) as [cubes|]; [|reflexivity].
  fold (eur_rates cubes).
  destruct (Py.get (eur_rates cubes) "USD") as [eur_usd|]; [|reflexivity].
  destruct (eur_usd <=? 0)%float; [reflexivity|].
  apply (to_usd_fold eur_usd (eur_rates cubes) [("USD", 1%float)]).
  cbn [Py.keys map fst app]. constructor.
  - apply without_usd_no_usd.
  - apply NoDup_keys_filter. apply eur_rates_NoDup.
Qed.

Lemma get_app_here {V : Type} (a b : Py.dict V) k v :
  ~ In k (Py.keys a) -> Py.get (a ++ (k, v) :: b) k = Some v.
Proof.
  induction a as [|[k' v'] a IH]; cbn [app Py.get Py.keys map fst In].
  - intros _. now rewrite String.eqb_refl.
  - intros H. destruct (String.eqb k k') eqn:E.
    + apply String.eqb_eq in E. subst. tauto.
    + apply IH. tauto.
Qed.

Lemma set_app_here {V : Type} (a b : Py.dict V) k v v' :
  ~ In k (Py.keys a) -> Py.set (a ++ (k, v) :: b) k v' = a ++ (k, v') :: b.
Proof.
  induction a as [|[k0 v0] a IH]; cbn [app Py.set Py.keys map fst In].
  - intros _. now rewrite String.eqb_refl.
  - intros H. destruct (String.eqb k k0) eqn:E.
    + apply String.eqb_eq in E. subst. tauto.
    + f_equal. apply IH. tauto.
Qed.

Lemma bounds_one_detail bv details code rate :
  String.eqb code "USD" = false ->
  snd (bounds_one (bv, details) (code, rate))
  = Py.set details code (bounds_detail code rate).
Proof.
  intros H. unfold bounds_one, bounds_detail. rewrite H.
  destruct (Py.get RATE_BOUNDS code) as [[lo hi]|]; [|reflexivity].
  destruct (negb ((lo <=? rate)%float && (rate <=? hi)%float)); reflexivity.
Qed.

Lemma bounds_fold_details rates :
  forall acc,
    NoDup (Py.keys (snd acc) ++ Py.keys (without_usd rates)) ->
    snd (fold_left bounds_one rates acc)
    = snd acc
      ++ map (fun item => (fst item, bounds_detail (fst item) (snd item)))
           (without_usd rates).
Proof.
  induction rates as [|[code rate] rates IH]; intros [bv details] Hnd;
    cbn [fold_left].
  - cbn. now rewrite app_nil_r.
  - unfold without_usd in *. cbn [filter fst snd] in *.
    destruct (String.eqb code "USD") eqn:E; cbn [negb] in *.
    + unfold bounds_one at 2. rewrite E. apply IH. exact Hnd.
    + assert (~ In code (Py.keys details)) as Hnew.
      { intros Hin. apply NoDup_remove_2 in Hnd. apply Hnd.
        apply in_or_app. now left. }
      pose proof (bounds_one_detail bv details code rate E) as H1.
      destruct (bounds_one (bv, details) (code, rate)) as [bv' details'].
      cbn [snd] in H1. subst details'.
      rewrite IH; cbn [snd].
      * rewrite (set_new _ _ _ Hnew), <- app_assoc. reflexivity.
      * rewrite (keys_set_new _ _ _ Hnew), <- app_assoc. exact Hnd.
Qed.

Lemma keys_map_detail (f : string * float -> CurrencyDetail) items :
  Py.keys (map (fun item => (fst item, f item)) items) = Py.keys items.
Proof.
  unfold Py.keys. rewrite map_map. reflexivity.
Qed.

Lemma detail_of_fst ecb_rates item : fst (detail_of ecb_rates item) = fst item.
Proof. destruct item. reflexivity. Qed.

Lemma keys_map_detail_of ecb_rates items :
  Py.keys (map (detail_of ecb_rates) items) = Py.keys items.
Proof.
  unfold Py.keys. rewrite map_map. apply map_ext. apply detail_of_fst.
Qed.

Lemma cross_one_detail ecb_rates acc code rate done rest :
  String.eqb code "USD" = false ->
  ~ In code (Py.keys done) ->
  cross_details acc
  = map (detail_of ecb_rates) done
    ++ (code, bounds_detail code rate)
       :: map (fun item => (fst item, bounds_detail (fst item) (snd item))) rest ->
  cross_details (cross_one ecb_rates acc (code, rate))
  = map (detail_of ecb_rates) (done ++ [(code, rate)])
    ++ map (fun item => (fst item, bounds_detail (fst item) (snd item))) rest.
Proof.
  intros E Hnew Hd.
  assert (~ In code (Py.keys (map (detail_of ecb_rates) done))) as Hnew'
    by (rewrite keys_map_detail_of; exact Hnew).
  rewrite map_app, <- app_assoc. cbn [map app detail_of].
  unfold cross_one. rewrite E.
  destruct (Py.get ecb_rates code) as [ecb_rate|]; [|exact Hd].
  destruct (Py.truthy ecb_rate && (0 <? ecb_rate)%float); [|exact Hd].
  unfold Py.setdefault. rewrite Hd, (get_app_here _ _ _ _ Hnew').
  rewrite (set_app_here _ _ _ _ _ Hnew').
  destruct (CRITICAL_DEVIATION_PCT <? _)%float; [reflexivity|].
  destruct (WARN_DEVIATION_PCT <? _)%float; reflexivity.
Qed.

Lemma cross_fold_details ecb_rates rates :
  forall done acc,
    NoDup (Py.keys done ++ Py.keys (without_usd rates)) ->
    cross_details acc
    = map (detail_of ecb_rates) done
      ++ map (fun item => (fst item, bounds_detail (fst item) (snd item)))
           (without_usd rates) ->
    cross_details (fold_left (cross_one ecb_rates) rates acc)
    = map (detail_of ecb_rates) (done ++ without_usd rates).
Proof.
  induction rates as [|[code rate] rates IH]; intros done acc Hnd Hd;
    cbn [fold_left].
  - cbn in Hd |- *. rewrite app_nil_r in *. exact Hd.
  - unfold without_usd in *. cbn [filter fst] in *.
    destruct (String.eqb code "USD") eqn:E; cbn [negb] in *.
    + unfold cross_one at 2. rewrite E. apply IH; assumption.
    + assert (~ In code (Py.keys done)) as Hnew.
      { intros Hin. apply NoDup_remove_2 in Hnd. apply Hnd.
        apply in_or_app. now left. }
      cbn [map fst snd] in Hd.
      pose proof (cross_one_detail ecb_rates acc code rate done _ E Hnew Hd) as H1.
      replace (done ++ (code, rate) :: filter _ rates)
        with ((done ++ [(code, rate)]) ++ filter
                (fun item : string * float => negb (String.eqb (fst item) "USD"))
                rates)
        by (rewrite <- app_assoc; reflexivity).
      apply IH; [|exact H1].
      unfold Py.keys in *. rewrite map_app, <- app_assoc. exact Hnd.
Qed.

Lemma details_add_check name st det s :
  details_per_currency (report (add_check name st det s))
  = details_per_currency (report s).
Proof. reflexivity. Qed.

Lemma details_check_freshness env data s :
  details_per_currency (report (check_freshness env data s))
  = details_per_currency (report s).
Proof.
  unfold check_freshness.
  destruct (parse_last_update env (last_update data)); [|reflexivity].
  destruct (PrimFloat.ltb _ _); reflexivity.
Qed.

Lemma details_check_minimum_count rates s :
  details_per_currency (report (check_minimum_count rates s))
  = details_per_currency (report s).
Proof. unfold check_minimum_count. destruct (Nat.ltb _ _); reflexivity. Qed.

Lemma details_check_usd_base rates s :
  details_per_currency (report (check_usd_base rates s))
  = details_per_currency (report s).
Proof. unfold check_usd_base. destruct (usd_differs _); reflexivity. Qed.

Lemma details_check_required rates s :
  details_per_currency (report (check_required rates s))
  = details_per_currency (report s).
Proof. unfold check_required. destruct (filter _ _); reflexivity. Qed.

Lemma details_before_bounds env data :
  details_per_currency
    (report
       (check_required (rates data)
          (check_usd_base (rates data)
             (check_minimum_count (rates data)
                (add_check "rates_present" PASS
                   (Py.str_nat (List.length (rates data)) ++ " rates found")
                   (check_freshness env data
                      (add_check "file_exists" PASS "" (new_state env))))))))
  = [].
Proof.
  rewrite details_check_required, details_check_usd_base,
    details_check_minimum_count, details_add_check, details_check_freshness.
  reflexivity.
Qed.

Lemma details_check_bounds rates s :
  details_per_currency (report s) = [] ->
  NoDup (Py.keys rates) ->
  details_per_currency (report (snd (check_bounds rates s)))
  = map (fun item => (fst item, bounds_detail (fst item) (snd item)))
      (without_usd rates).
Proof.
  intros Hnil Hnd. unfold check_bounds. rewrite Hnil.
  match goal with
  | |- context [fold_left bounds_one rates ?a] =>
      pose proof (bounds_fold_details rates a) as H;
      destruct (fold_left bounds_one rates a) as [bv details]
  end.
  cbn [snd app Py.keys map] in H.
  assert (details
          = map (fun item => (fst item, bounds_detail (fst item) (snd item)))
              (without_usd rates)) as ->
    by (apply H; apply NoDup_keys_filter; exact Hnd).
  destruct bv; reflexivity.
Qed.

Lemma details_check_ecb env rates s :
  NoDup (Py.keys rates) ->
  details_per_currency (report s)
  = map (fun item => (fst item, bounds_detail (fst item) (snd item)))
      (without_usd rates) ->
  details_per_currency (report (check_ecb env rates s))
  = map (detail_of (fetch_ecb_rates env)) (without_usd rates).
Proof.
  intros Hnd Hd. unfold check_ecb.
  destruct (Py.is_empty (fetch_ecb_rates env)) eqn:E.
  - rewrite details_add_check, Hd. apply is_empty_nil in E. rewrite E.
    apply map_ext. intros [code rate]. reflexivity.
  - match goal with |- context [fold_left _ _ ?a] => set (acc := a) end.
    pose proof (cross_fold_details (fetch_ecb_rates env) rates [] acc) as H.
    cbn [app map Py.keys] in H.
    assert (cross_details (fold_left (cross_one (fetch_ecb_rates env)) rates acc)
            = map (detail_of (fetch_ecb_rates env)) (without_usd rates)) as H'
      by (apply H; [apply NoDup_keys_filter; exact Hnd | exact Hd]).
    clearbody acc.
    destruct (cross_errors _); [destruct (cross_warnings _)|];
      rewrite details_add_check; exact H'.
Qed.

Lemma details_check_scraper_audit data s :
  details_per_currency (report (check_scraper_audit data s))
  = details_per_currency (report s).
Proof.
  unfold check_scraper_audit.
  destruct (exchanger_audit data) as [a|]; [|reflexivity].
  destruct (Scraper.fetch_failed a), (Scraper.bounds_rejected a); reflexivity.
Qed.

Lemma details_of_run env data :
    load_market_data env = Some data ->
    Py.is_empty (rates data) = false ->
    NoDup (Py.keys (rates data)) ->
    details_per_currency (run_audit env)
    = map (detail_of (fetch_ecb_rates env)) (without_usd (rates data)).
Proof.
  intros Hload Hne Hnd. unfold run_audit. rewrite Hload, Hne.
  pose proof (details_before_bounds env data) as H6.
  set (s6 := check_required _ _) in *.
  pose proof (details_check_bounds (rates data) s6 H6 Hnd) as H7.
  clearbody s6.
  destruct (check_bounds (rates data) s6) as [bv s7]. cbn [snd] in H7.
  pose proof (details_check_ecb env (rates data) s7 Hnd H7) as H8.
  cbn [report set_status set_summary details_per_currency].
  rewrite details_check_scraper_audit. exact H8.
Qed.

(** X22. When the stored codes are distinct, as the keys of a JSON
    object read into a dictionary are, [details_per_currency] holds
    one entry for each stored currency other than USD, in the order of
    the stored rates: the rate, the verdict of the bounds check with
    the bounds when it fails, and, when the reference rate is there and
    positive, that rate rounded to four decimals and the deviation
    rounded to two. *)
Theorem details_of_the_stored_currencies :
  forall env data,
    load_market_data env = Some data ->
    Py.is_empty (rates data) = false ->
    NoDup (Py.keys (rates data)) ->
    details_per_currency (run_audit env)
    = map (detail_of (fetch_ecb_rates env)) (without_usd (rates data)).
Proof. exact details_of_run. Qed.

Lemma details_of_the_stored_currencies_witness :
  NoDup (Py.keys (rates eur_off_data))
  /\ details_per_currency (run_audit eur_off_env)
     = map (detail_of (fetch_ecb_rates eur_off_env))
         (without_usd (rates eur_off_data)).
Proof.
  assert (NoDup (Py.keys (rates eur_off_data))) as H
    by (apply distinct_NoDup; reflexivity).
  split; [exact H|].
  apply (details_of_the_stored_currencies eur_off_env eur_off_data).
  - reflexivity.
  - reflexivity.
  - exact H.
Defined.

End AuditTableProperties.

Section PipelineProperties.

Import Audit.
Import Scraper.

(** ** The two programs together *)

Lemma eqb_zero_leb x : (x =? 0)%float = true -> (x <=? 0)%float = true.
Proof.
  rewrite eqb_spec, leb_spec. change (Prim2SF 0) with (S754_zero false).
  unfold SFeqb, SFleb.
  destruct (Prim2SF x) as [s|s| |s m e]; cbn; try discriminate; try reflexivity;
    destruct s; discriminate.
Qed.

Lemma above_3_above_2 d : (3 <? d)%float = true -> (2 <? d)%float = true.
Proof.
  rewrite !ltb_spec.
  change (Prim2SF 3) with (S754_finite false 6755399441055744 (-51)).
  change (Prim2SF 2) with (S754_finite false 4503599627370496 (-51)).
  unfold SFltb, SFcompare.
  destruct (Prim2SF d) as [s|s| |s m e]; try (destruct s); try discriminate;
    try reflexivity.
  destruct (-51 ?= e)%Z; try discriminate; try reflexivity.
  change (PosDef.Pos.compare_cont Eq 6755399441055744 m)
    with (6755399441055744 ?= m)%positive.
  change (PosDef.Pos.compare_cont Eq 4503599627370496 m)
    with (4503599627370496 ?= m)%positive.
  destruct (6755399441055744 ?= m)%positive eqn:E; try discriminate. intros _.
  apply Pos.compare_lt_iff in E.
  assert (4503599627370496 < m)%positive as H
    by (apply (Pos.lt_trans _ 6755399441055744); [reflexivity | exact E]).
  apply Pos.compare_lt_iff in H. rewrite H. reflexivity.
Qed.

Lemma not_usable_iff eur_usd :
  negb (Py.truthy eur_usd) || (eur_usd <=? 0)%float = (eur_usd <=? 0)%float.
Proof.
  unfold Py.truthy. rewrite negb_involutive.
  destruct (eur_usd =? 0)%float eqn:E; [|reflexivity].
  rewrite (eqb_zero_leb _ E). reflexivity.
Qed.

Lemma to_usd_agree eur_usd items :
  forall acc,
    fold_left (Scraper.to_usd eur_usd) items acc
    = fold_left (Audit.to_usd eur_usd) items acc.
Proof.
  induction items as [|[code val] items IH]; intros acc; cbn [fold_left];
    [reflexivity|].
  rewrite IH. unfold Scraper.to_usd, Audit.to_usd.
  destruct (String.eqb code "USD"); reflexivity.
Qed.

Lemma reference_rates_of_feed w env :
  Audit.ecb_xml env = Scraper.ecb_xml w ->
  fst (fetch_ecb_reference_rates w) = fetch_ecb_rates env.
Proof.
  intros H. unfold fetch_ecb_reference_rates, fetch_ecb_rates.
  change (Scraper.ecb_xml (emit EcbRequest w)) with (Scraper.ecb_xml w).
  rewrite H.
  destruct (Scraper.ecb_xml w) as [cubes|]; [|reflexivity].
  unfold eur_rates_of.
  destruct (Py.get _ "USD") as [eur_usd|]; [|reflexivity].
  rewrite not_usable_iff.
  destruct (eur_usd <=? 0)%float; [reflexivity|].
  cbn [fst]. apply to_usd_agree.
Qed.

(** X23. On the same feed the scraper and the audit work with the same
    reference rates: [fetch_ecb_reference_rates] and [fetch_ecb_rates]
    return the same mapping, empty in the same cases. *)
Theorem reference_rates_agree :
  forall w env,
    Audit.ecb_xml env = Scraper.ecb_xml w ->
    fst (fetch_ecb_reference_rates w) = fetch_ecb_rates env.
Proof. exact reference_rates_of_feed. Qed.

Lemma reference_rates_agree_witness :
  Audit.ecb_xml eur_off_env = Scraper.ecb_xml eur_world
  /\ fst (fetch_ecb_reference_rates eur_world) = fetch_ecb_rates eur_off_env.
Proof.
  split; [reflexivity|].
  apply (reference_rates_agree eur_world eur_off_env). reflexivity.
Defined.

(** X24. Every deviation the audit flags on the rates of a run, working
    from the same feed, the scraper had recorded in
    [cross_check_deviations] with the same value rounded to two
    decimals: the audit flags above 3 %, the scraper records above
    2 %. *)
Theorem flagged_deviations_were_recorded :
  forall w env code dev,
    Audit.ecb_xml env = Scraper.ecb_xml w ->
    In (code, dev)
       (compared (fetch_ecb_rates env) (fst (fst (fetch_exchanger_rates w)))) ->
    exceeds 3 (code, dev) = true ->
    exists d,
      Py.get (cross_check_deviations (snd (fst (fetch_exchanger_rates w)))) code
      = Some d
      /\ Py.get (fst (fst (fetch_exchanger_rates w))) code = Some (scraped d)
      /\ deviation_pct d = Py.round dev 2.
Proof.
  intros w env code dev Hfeed Hin Hdev.
  rewrite (run_deviations w code).
  rewrite (reference_rates_of_feed w env Hfeed).
  destruct (run_counters w) as [_ [_ [_ [_ [_ Hnd]]]]].
  revert Hin Hnd. generalize (fst (fst (fetch_exchanger_rates w))).
  intros rates Hin Hnd.
  apply in_compared in Hin as [Hne [rate [ecb_rate [Hr [He [Hpos ->]]]]]].
  apply (in_get _ _ _ Hnd) in Hr.
  unfold exceeds in Hdev. cbn [snd] in Hdev. apply above_3_above_2 in Hdev.
  apply String.eqb_neq in Hne.
  unfold deviation_entry. rewrite Hne, Hr, He, Hpos, Hdev.
  eexists. split; [reflexivity|]. split; reflexivity.
Qed.

Lemma flagged_deviations_were_recorded_witness :
  exists d,
    Py.get (cross_check_deviations (snd (fst (fetch_exchanger_rates eur_world))))
      "EUR" = Some d
    /\ Py.get (fst (fst (fetch_exchanger_rates eur_world))) "EUR" = Some (scraped d)
    /\ deviation_pct d
       = Py.round (abs (0.92 - 0.8) / 0.8 * 100)%float 2.
Proof.
  apply (flagged_deviations_were_recorded eur_world eur_off_env "EUR"
           (abs (0.92 - 0.8) / 0.8 * 100)%float).
  - reflexivity.
  - vm_compute. left. reflexivity.
  - vm_compute. reflexivity.
Defined.

(** ** The audit of a document the scraper wrote *)

Lemma audit_of_document out env :
  Py.get (out_rates out) "USD" = Some 1%float ->
  let r := run_audit (reading out env) in
  stops_early (reading out env) = false
  /\ lookup_check "usd_base" r = Some (mk_check "usd_base" PASS "")
  /\ lookup_check "minimum_count" r = Some (minimum_check (out_rates out))
  /\ (In scraper_audit_pass (checks r)
      <-> fetch_failed (out_exchanger_audit out) = []
          /\ bounds_rejected (out_exchanger_audit out) = []).
Proof.
  intros Husd. cbv zeta.
  assert (Py.is_empty (out_rates out) = false) as Hne
    by (destruct (out_rates out); [discriminate Husd | reflexivity]).
  assert (load_market_data (reading out env) = Some (stored out)) as Hload
    by reflexivity.
  assert (Py.is_empty (Audit.rates (stored out)) = false) as Hne' by exact Hne.
  destruct (run_audit_checks_status _ _ Hload Hne')
    as [c2 [c6 [c7 [N2 [N6 [S6 [N7 [S7 E]]]]]]]].
  destruct (check_names (reading out env) (stored out)) as [N4 [N5 N8]].
  change (Audit.rates (stored out)) with (out_rates out) in *.
  assert (usd_check (out_rates out) = mk_check "usd_base" PASS "") as Hu
    by (unfold usd_check; rewrite Husd; reflexivity).
  split; [unfold stops_early; rewrite Hload; exact Hne|].
  split; [|split].
  - unfold lookup_check. rewrite E. cbn [app find check mk_check].
    rewrite N2, N4, N5. cbn [String.eqb Ascii.eqb Bool.eqb].
    rewrite Hu. reflexivity.
  - unfold lookup_check. rewrite E. cbn [app find check mk_check].
    rewrite N2, N4. cbn [String.eqb Ascii.eqb Bool.eqb]. reflexivity.
  - rewrite E. unfold scraper_checks, scraper_audit_pass.
    cbn [exchanger_audit stored].
    split.
    + intros Hin. apply in_app_or in Hin as [Hin | Hin].
      * exfalso. cbn [In] in Hin.
        destruct Hin as [H | [H | [H | [H | [H | [H | [H | [H | []]]]]]]]];
          apply (f_equal check) in H; cbn [check mk_check] in H;
          rewrite ?N2, ?N4, ?N5, ?N6, ?N7, ?N8 in H; discriminate H.
      * destruct (fetch_failed (out_exchanger_audit out)),
                 (bounds_rejected (out_exchanger_audit out));
          cbn [app In] in Hin; [tauto | | |];
          exfalso;
          repeat (destruct Hin as [H | Hin]; [discriminate H|]); exact Hin.
    + intros [-> ->]. apply in_or_app. right. cbn. left. reflexivity.
Qed.

Lemma no_issue_iff_all_validated w :
  let audit := snd (fst (fetch_exchanger_rates w)) in
  fetch_failed audit = [] /\ bounds_rejected audit = []
  <-> validated audit = 33%nat.
Proof.
  cbv zeta. destruct (run_counters w) as [_ [H2 [H3 _]]].
  revert H2 H3. generalize (snd (fst (fetch_exchanger_rates w))). intros a H2 H3.
  split.
  - intros [Hf Hb]. rewrite Hf, Hb in *. cbn [List.length] in *. lia.
  - intros Hv.
    destruct (fetch_failed a), (bounds_rejected a); cbn [List.length] in *;
      try lia. split; reflexivity.
Qed.

Lemma minimum_check_status rates :
  status (minimum_check rates)
  = if (List.length rates <? 15)%nat then CRITICAL else PASS.
Proof.
  unfold minimum_check, MIN_RATES. destruct (Nat.ltb _ _); reflexivity.
Qed.

(** X25. The audit of a document [main] wrote never returns early and
    always finds the base rate right.  Its check of the number of rates
    is CRITICAL, and with it the report, exactly when fewer than 14
    currencies were validated, although [main] asks for 10 only; and
    it records that the scraper had no issue exactly when all 33
    currencies were validated. *)
Theorem audit_of_a_written_document :
  forall menv w env,
    let out := written (Scraper.main menv w) in
    let r := run_audit (reading out env) in
    summary r <> None
    /\ lookup_check "usd_base" r = Some (mk_check "usd_base" PASS "")
    /\ (exists c, lookup_check "minimum_count" r = Some c
                  /\ status c
                     = if (validated (out_exchanger_audit out) <? 14)%nat
                       then CRITICAL else PASS)
    /\ (if (validated (out_exchanger_audit out) <? 14)%nat
        then report_status r = CRITICAL else True)
    /\ (In scraper_audit_pass (checks r)
        <-> validated (out_exchanger_audit out) = 33%nat).
Proof.
  intros menv w env. cbv zeta. rewrite main_is_finish.
  generalize (sections_of menv w). intros acc.
  destruct (main_finish_written menv acc) as [_ [_ [H3 [H4 _]]]].
  pose proof (run_usd (sections_world acc)) as Husd.
  pose proof (run_length (sections_world acc)) as Hlen.
  pose proof (no_issue_iff_all_validated (sections_world acc)) as Hall.
  cbv zeta in Hall.
  rewrite <- H3 in Husd, Hlen. rewrite <- H4 in Hlen, Hall.
  revert Husd Hlen Hall. generalize (written (main_finish menv acc)).
  intros out Husd Hlen Hall.
  destruct (audit_of_document out env Husd) as [He [Hu [Hm Hs]]].
  assert (status (minimum_check (out_rates out))
          = if (validated (out_exchanger_audit out) <? 14)%nat
            then CRITICAL else PASS) as Hst.
  { rewrite minimum_check_status, Hlen.
    change (S (validated (out_exchanger_audit out)) <? 15)%nat
      with (validated (out_exchanger_audit out) <? 14)%nat. reflexivity. }
  split; [|split; [exact Hu|split; [|split]]].
  - intros Hn. apply summary_none_early in Hn. congruence.
  - exists (minimum_check (out_rates out)). split; [exact Hm | exact Hst].
  - destruct (validated (out_exchanger_audit out) <? 14)%nat; [|exact I].
    rewrite report_status_overall. unfold overall_status.
    assert (existsb is_critical (checks (run_audit (reading out env))) = true)
      as ->; [|reflexivity].
    apply existsb_exists. exists (minimum_check (out_rates out)).
    split; [|unfold is_critical; rewrite Hst; reflexivity].
    unfold lookup_check in Hm. apply find_some in Hm. apply Hm.
  - rewrite Hs. exact Hall.
Qed.

Lemma run_codes w code :
  In code (Py.keys (fst (fst (fetch_exchanger_rates w)))) ->
  code = "USD" \/ In code (Py.keys EXCHANGER_PAIRS).
Proof.
  rewrite fetch_exchanger_rates_rates.
  apply (inv_keys _ _ _ (loop_inv_after_loop w)).
Qed.

Lemma registry_bounds code :
  In code (Py.keys EXCHANGER_PAIRS) -> code <> "USD" ->
  Py.get Audit.RATE_BOUNDS code <> None.
Proof.
  intros Hin Hne.
  assert (registry_has_bounds = true) as H by (vm_compute; reflexivity).
  unfold registry_has_bounds in H. rewrite forallb_forall in H.
  specialize (H code Hin). apply String.eqb_neq in Hne. rewrite Hne in H.
  unfold Py.contains in H. cbn [orb] in H.
  destruct (Py.get Audit.RATE_BOUNDS code); [discriminate | discriminate H].
Qed.

Lemma bounds_status_detail_of ecb_rates code rate :
  Py.get Audit.RATE_BOUNDS code <> None ->
  bounds_status (snd (detail_of ecb_rates (code, rate))) = Some BOUNDS_PASS
  \/ bounds_status (snd (detail_of ecb_rates (code, rate))) = Some BOUNDS_FAIL.
Proof.
  intros Hb.
  assert (bounds_status (bounds_detail code rate) = Some BOUNDS_PASS
          \/ bounds_status (bounds_detail code rate) = Some BOUNDS_FAIL) as H.
  { unfold bounds_detail.
    destruct (Py.get Audit.RATE_BOUNDS code) as [[lo hi]|]; [|contradiction].
    destruct (negb _); [right | left]; reflexivity. }
  unfold detail_of. cbn [snd].
  destruct (Py.get ecb_rates code) as [ecb_rate|]; [|exact H].
  destruct (Py.truthy ecb_rate && (0 <? ecb_rate)%float); exact H.
Qed.

Lemma document_details out env :
  NoDup (Py.keys (out_rates out)) ->
  Py.get (out_rates out) "USD" = Some 1%float ->
  (forall code, In code (Py.keys (out_rates out)) ->
                code = "USD" \/ In code (Py.keys EXCHANGER_PAIRS)) ->
  forall code e,
    Py.get (details_per_currency (run_audit (reading out env))) code = Some e ->
    code <> "USD"
    /\ Py.get (out_rates out) code = Some (Audit.rate e)
    /\ (bounds_status e = Some BOUNDS_PASS \/ bounds_status e = Some BOUNDS_FAIL).
Proof.
  intros Hnd Husd Hcodes code e Hget.
  assert (Py.is_empty (out_rates out) = false) as Hne
    by (destruct (out_rates out); [discriminate Husd | reflexivity]).
  rewrite (details_of_run (reading out env) (stored out) eq_refl Hne Hnd) in Hget.
  change (Audit.rates (stored out)) with (out_rates out) in Hget.
  apply get_in in Hget. apply in_map_iff in Hget as [[c rate] [E Hin]].
  unfold without_usd in Hin. apply filter_In in Hin as [Hin Hc].
  cbn [fst] in Hc. apply negb_true_iff, String.eqb_neq in Hc.
  assert (c = code) as -> by (apply (f_equal fst) in E; exact E).
  assert (e = snd (detail_of (fetch_ecb_rates (reading out env)) (code, rate)))
    as -> by (apply (f_equal snd) in E; symmetry; exact E).
  split; [exact Hc|]. split.
  - rewrite (in_get _ _ _ Hnd Hin). f_equal. unfold detail_of. cbn [snd].
    destruct (Py.get _ code) as [ecb_rate|];
      [destruct (Py.truthy ecb_rate && (0 <? ecb_rate)%float)|];
      unfold bounds_detail;
      (destruct (Py.get Audit.RATE_BOUNDS code) as [[lo hi]|];
       [destruct (negb _)|]); reflexivity.
  - apply bounds_status_detail_of. apply registry_bounds; [|exact Hc].
    destruct (Hcodes code) as [H | H]; [|contradiction | exact H].
    unfold Py.keys. change code with (fst (code, rate)). now apply in_map.
Qed.

(** X26. In the audit of a document [main] wrote, every entry of
    [details_per_currency] is that of a currency other than USD with
    its written rate, and its bounds were checked: the registry of the
    scraper has no currency without bounds in the table of the audit,
    so that NO_BOUNDS never shows. *)
Theorem written_rates_have_bounds :
  forall menv w env code e,
    let out := written (Scraper.main menv w) in
    Py.get (details_per_currency (run_audit (reading out env))) code = Some e ->
    code <> "USD"
    /\ Py.get (out_rates out) code = Some (Audit.rate e)
    /\ (bounds_status e = Some BOUNDS_PASS \/ bounds_status e = Some BOUNDS_FAIL).
Proof.
  intros menv w env code e. cbv zeta. rewrite main_is_finish.
  generalize (sections_of menv w). intros acc.
  destruct (main_finish_written menv acc) as [_ [_ [H3 _]]].
  pose proof (run_usd (sections_world acc)) as Husd.
  destruct (run_counters (sections_world acc)) as [_ [_ [_ [_ [_ Hnd]]]]].
  pose proof (run_codes (sections_world acc)) as Hcodes.
  rewrite <- H3 in Husd, Hnd, Hcodes.
  revert Husd Hnd Hcodes. generalize (written (main_finish menv acc)).
  intros out Husd Hnd Hcodes.
  apply (document_details out env Hnd Husd Hcodes).
Qed.

Lemma written_rates_have_bounds_witness :
  Py.get (out_rates (written (Scraper.main example_main_env eur_world))) "EUR"
  = Some 0.92%float.
Proof.
  destruct (written_rates_have_bounds example_main_env eur_world offline_env "EUR"
              {| Audit.rate := 0.92%float; bounds_status := Some BOUNDS_PASS;
                 Audit.bounds := None; ecb_rate := None;
                 ecb_deviation_pct := None |})
    as [_ [H _]].
  - vm_compute. reflexivity.
  - exact H.
Defined.

End PipelineProperties.
